(** * The offline conversation engine ([processOfflineMessage])

    A shallow embedding of the rule-matching conversation engine of the
    companion chat application, together with the properties its
    specification states about it.

    Conventions of the embedding:
    - a JavaScript string is a [string] whose characters are the code units
      U+0000..U+00FF; [toLowerCase], [trim] and the regular-expression class
      [\s] are written out for that range;
    - a JavaScript [number] holding a count is a [Z]; a match score, which the
      source computes as [(matchCount / length) * 100 + matchCount], is given
      twice: as the exact rational ([Q]) that the formula denotes, which the
      phases of the engine and the properties of the formula are stated on,
      and as the IEEE 754 double that the run computes ([Doubles]), which
      the choice of the winners is stated on, since rounding decides near
      ties;
    - an optional field is an [option]; [null] and [undefined] are both [None];
    - [Math.random], the wall clock and the image store are inputs, read from
      the [World] the computation is run in; a rejected store query is an
      exception of the monad [M].

    Around the engine, the helpers of its service, the search of the image
    store, the forms that create a persona, its rules and its conditions,
    and the themes are embedded too, with properties of their own. *)

From Stdlib Require Import Ascii QArith Lqa.
From Stdlib Require String SpecFloat.
From stdpp Require Import gmap strings list.

Local Open Scope Z_scope.

(** ** JavaScript strings *)

Module JS.

Definition code (c : ascii) : nat := nat_of_ascii c.

(** White space of [String.prototype.trim] and of the class [\s]. *)
Definition isWhiteSpace (c : ascii) : bool :=
  let n := code c in
  ((9 <=? n) && (n <=? 13) || (n =? 32) || (n =? 160))%nat.

Definition toLowerChar (c : ascii) : ascii :=
  let n := code c in
  if ((65 <=? n) && (n <=? 90) || (192 <=? n) && (n <=? 214)
      || (216 <=? n) && (n <=? 222))%nat
  then ascii_of_nat (n + 32) else c.

Fixpoint toLowerCase (s : string) : string :=
  match s with
  | EmptyString => EmptyString
  | String c r => String (toLowerChar c) (toLowerCase r)
  end.

Fixpoint trimStart (s : string) : string :=
  match s with
  | EmptyString => EmptyString
  | String c r => if isWhiteSpace c then trimStart r else s
  end.

Definition trimEnd (s : string) : string :=
  String.rev (trimStart (String.rev s)).

Definition trim (s : string) : string := trimEnd (trimStart s).

(** [s.startsWith(p)] *)
Fixpoint startsWith (s p : string) : bool :=
  match p, s with
  | EmptyString, _ => true
  | String a p', String b s' => if Ascii.eqb a b then startsWith s' p' else false
  | String _ _, EmptyString => false
  end.

(** [s.includes(p)] *)
Fixpoint includes (s p : string) : bool :=
  if startsWith s p then true
  else match s with
       | EmptyString => false
       | String _ r => includes r p
       end.

(** [s.replace(/[cs]/g, " ")] for a character class given as a predicate. *)
Fixpoint replaceClass (cls : ascii -> bool) (s : string) : string :=
  match s with
  | EmptyString => EmptyString
  | String c r => String (if cls c then " "%char else c) (replaceClass cls r)
  end.

(** [s.split(/\s+/)]: the pieces between maximal runs of white space; a run
    at either end leaves an empty piece there, and the empty string splits
    into one empty piece. [cur] is the piece being read, reversed. *)
Fixpoint split_go (cur : string) (inRun : bool) (s : string) : list string :=
  match s with
  | EmptyString => [String.rev cur]
  | String c r =>
      if isWhiteSpace c
      then (if inRun then split_go cur true r
            else String.rev cur :: split_go EmptyString true r)
      else split_go (String c cur) false r
  end.

Definition splitWhiteSpace (s : string) : list string :=
  split_go EmptyString false s.

(** Truthiness of a string value. *)
Definition truthy (s : string) : bool :=
  match s with EmptyString => false | _ => true end.

(** Truthiness of an optional string ([undefined], [null] and the empty
    string are falsy). *)
Definition truthyOpt (o : option string) : bool :=
  match o with Some s => truthy s | None => false end.

End JS.

(** ** Helpers of the engine *)

(** The class [[.,/#!$%^&*;:{}=\-_`~()?]] of [tokenize]. *)
Definition isPunctuation (c : ascii) : bool :=
  existsb (Ascii.eqb c) (String.list_ascii_of_string ".,/#!$%^&*;:{}=-_`~()?").

Definition tokenize (text : string) : list string :=
  filter (fun w => (0 < String.length w)%nat)
    (JS.splitWhiteSpace
       (JS.trim (JS.replaceClass isPunctuation (JS.toLowerCase text)))).

(** ** Data model (the declarations of [types]) *)

Inductive MessageRole := USER | MODEL.
Inductive MessageType := TEXT | IMAGE | AUDIO.

Module Message.
Record t := mk {
  id : string;
  role : MessageRole;
  type : MessageType;
  content : string;
  timestamp : Z }.
End Message.

Inductive TimeOfDay := morning | afternoon | evening | lateNight | any.

Module TrainingResponse.
Record t := mk {
  text : string;
  timeOfDay : option TimeOfDay }.
End TrainingResponse.

Inductive TrainingType := text | image_trigger | audio_trigger.

(** The declaration gives [inputPatterns], [response], [imageTag] and
    [audioData] as optional and [responses] as required: a value of the type
    has its list of responses, which may be empty. *)
Module TrainingPair.
Record t := mk {
  id : string;
  inputPatterns : option (list string);
  inputPattern : string;
  responses : list TrainingResponse.t;
  response : option string;
  type : TrainingType;
  imageTag : option string;
  audioData : option string }.
End TrainingPair.

Inductive Monitor := user_says_keyword | bot_sends_imagetag.
Inductive Action := send_text | send_image_tag | send_audio.

Module LogicRule.
Record t := mk {
  id : string;
  name : string;
  monitor : Monitor;
  target : string;
  threshold : Z;
  action : Action;
  actionPayload : string;
  resetOnTrigger : bool }.
End LogicRule.

(** The sections of the neural map and the fields of the profile that the
    engine never reads are carried along as one value each. *)
Definition Untouched := string.

Module CoreIdentity.
Record t := mk {
  name : string;
  age : string;
  gender : string;
  location : string;
  occupation : string;
  hobbies : list string;
  secret : string;
  dream : string;
  backstory : string }.
End CoreIdentity.

Module NeuralMap.
Record t := mk {
  coreIdentity : CoreIdentity.t;
  customTraining : option (list TrainingPair.t);
  logicRules : option (list LogicRule.t);
  otherSections : Untouched }.
End NeuralMap.

Module Memory.
Record t := mk {
  userFacts : list string;
  sharedExperiences : list string;
  mood : Q;
  affection : Q;
  currentStory : option (Z * Z);
  waitingForCompliment : option bool;
  waitingForDefinition : option string;
  lastTopic : option string;
  lastSubject : option string;
  lastResponses : list string;
  lastSentImageIds : option (list string);
  logicCounts : option (gmap string Z) }.
End Memory.

Module PersonaProfile.
Record t := mk {
  id : string;
  name : string;
  neuralMap : NeuralMap.t;
  memory : Memory.t;
  otherFields : Untouched }.
End PersonaProfile.

(** An image of the store; its data is a string or a [Blob]. *)
Inductive ImageData := StringData (s : string) | BlobData (b : string).

Module DBImage.
Record t := mk {
  id : string;
  personaId : string;
  data : ImageData;
  tags : list string;
  description : string;
  timestamp : Z }.
End DBImage.

#[global] Instance MessageRole_eq_dec : EqDecision MessageRole.
Proof. solve_decision. Defined.
#[global] Instance MessageType_eq_dec : EqDecision MessageType.
Proof. solve_decision. Defined.
#[global] Instance TimeOfDay_eq_dec : EqDecision TimeOfDay.
Proof. solve_decision. Defined.
#[global] Instance TrainingType_eq_dec : EqDecision TrainingType.
Proof. solve_decision. Defined.
#[global] Instance Monitor_eq_dec : EqDecision Monitor.
Proof. solve_decision. Defined.
#[global] Instance Action_eq_dec : EqDecision Action.
Proof. solve_decision. Defined.
#[global] Instance LogicRule_eq_dec : EqDecision LogicRule.t.
Proof. solve_decision. Defined.
#[global] Instance ImageData_eq_dec : EqDecision ImageData.
Proof. solve_decision. Defined.

(** Truthiness of an image value. A [Blob] is an object, hence truthy. *)
Definition truthyImage (o : option ImageData) : bool :=
  match o with
  | Some (StringData s) => JS.truthy s
  | Some (BlobData _) => true
  | None => false
  end.

(** ** The world the engine runs in

    The wall clock, [Math.random] and the image store are the engine's only
    inputs besides its arguments. The two readings of the clock at the start
    of a turn give the same hour. The k-th call of [Math.random] is given as a
    natural number, which [getRandomElement] reduces modulo the length of its
    array, so that every index of the array can be drawn. The k-th query of
    the store either resolves with the images kept for a persona or rejects. *)

Record World := mkWorld {
  hour : nat;
  now : string;
  random : nat -> nat;
  storedImages : nat -> string -> option (list DBImage.t) }.

(** The lines the engine prints: the failure of a query of the store in the
    step of the image rule, and the firing of a logic rule, which the source
    prints with the name of the rule and which is kept here with the rule. *)
Inductive LogEntry :=
| FailedToFetchImage
| LogicRuleTriggered (rule : LogicRule.t).

#[global] Instance LogEntry_eq_dec : EqDecision LogEntry.
Proof. solve_decision. Defined.

(** What a run has consumed and printed so far. *)
Record Run := mkRun {
  draws : nat;
  queries : nat;
  console : list LogEntry }.

Definition startRun : Run := mkRun 0 0 [].

Inductive Outcome (A : Type) :=
| Returned (a : A)
| Thrown (reason : string).
Arguments Returned {A} a.
Arguments Thrown {A} reason.

Definition M (A : Type) : Type := World -> Run -> Outcome A * Run.

Definition ret {A} (a : A) : M A := fun _ s => (Returned a, s).

Definition bind {A B} (m : M A) (k : A -> M B) : M B :=
  fun w s =>
    match m w s with
    | (Returned a, s') => k a w s'
    | (Thrown e, s') => (Thrown e, s')
    end.

Definition throw {A} (e : string) : M A := fun _ s => (Thrown e, s).

(** [try { body } catch (e) { handler }] *)
Definition tryCatch {A} (body : M A) (handler : string -> M A) : M A :=
  fun w s =>
    match body w s with
    | (Returned a, s') => (Returned a, s')
    | (Thrown e, s') => handler e w s'
    end.

Notation "'let*' x ':=' m 'in' k" := (bind m (fun x => k))
  (at level 10, x name, m at level 100, k at level 200).

Definition getHours : M nat := fun w s => (Returned (hour w), s).
Definition dateNow : M string := fun w s => (Returned (now w), s).

Definition mathRandom : M nat :=
  fun w s => (Returned (random w (draws s)),
              mkRun (S (draws s)) (queries s) (console s)).

Definition consoleWrite (e : LogEntry) : M unit :=
  fun _ s => (Returned tt, mkRun (draws s) (queries s) (console s ++ [e])).

(** *** Helpers *)

Definition getTimeGreeting : M string :=
  let* hour := getHours in
  ret (if (hour <? 5)%nat then "Good late night"
       else if (hour <? 12)%nat then "Good morning"
       else if (hour <? 18)%nat then "Good afternoon"
       else "Good evening").

Definition getCurrentTimePhase : M TimeOfDay :=
  let* hour := getHours in
  ret (if ((5 <=? hour) && (hour <? 12))%nat then morning
       else if ((12 <=? hour) && (hour <? 17))%nat then afternoon
       else if ((17 <=? hour) && (hour <? 23))%nat then evening
       else lateNight).

(** [arr && arr.length ? arr[Math.floor(Math.random() * arr.length)] : null] *)
Definition getRandomElement {A} (arr : list A) : M (option A) :=
  match arr with
  | [] => ret None
  | _ => let* r := mathRandom in ret (arr !! (r mod length arr)%nat)
  end.

(** *** The image store ([services/db]) *)

Definition getImagesByPersona (personaId : string) : M (list DBImage.t) :=
  fun w s =>
    let s' := mkRun (draws s) (S (queries s)) (console s) in
    match storedImages w (queries s) personaId with
    | Some all => (Returned all, s')
    | None => (Thrown "request.error", s')
    end.

(** The images [searchImages] keeps of those stored for the persona: those
    that carry one of the tags or whose description contains one. *)
Definition tagged (tags : list string) (all : list DBImage.t)
  : list DBImage.t :=
  filter (fun img =>
    existsb (fun t =>
      bool_decide (t ∈ DBImage.tags img)
      || JS.includes (JS.toLowerCase (DBImage.description img)) t) tags
    = true) all.

Definition searchImages (personaId : string) (tags : list string)
  : M (list DBImage.t) :=
  let* all := getImagesByPersona personaId in
  ret (tagged tags all).

(** ** Scoring a rule against a message *)

(** [a > b] on scores. *)
Definition gtb (a b : Q) : bool := negb (Qle_bool a b).

(** [a >= b] on scores. *)
Definition geb (a b : Q) : bool := Qle_bool b a.

Definition ofNat (n : nat) : Q := inject_Z (Z.of_nat n).

(** The body of the loop over the patterns of a rule, for a pattern that has
    tokens: the score of the pattern, as the rational that the formula of
    the source denotes. The double that the run computes for it is
    [Doubles.patternScore]. *)
Definition patternScore (lowerMsg : string) (userTokenSet : gset string)
    (pattern : string) : Q :=
  let ruleTokens := tokenize pattern in
  let lowerRule := JS.trim (JS.toLowerCase pattern) in
  if JS.includes lowerMsg lowerRule then
    (1000 + ofNat (length ruleTokens))%Q
  else
    let matchCount :=
      length (filter (fun t => t ∈ userTokenSet) ruleTokens) in
    let coverage := (ofNat matchCount / ofNat (length ruleTokens))%Q in
    let requiredCoverage :=
      if (length ruleTokens <=? 3)%nat then 1%Q else (75 # 100)%Q in
    if geb coverage requiredCoverage
    then (coverage * 100 + ofNat matchCount)%Q
    else 0%Q.

(** The patterns of a rule: its list of patterns when it has one that is not
    empty, else its legacy pattern when that is not the empty string. *)
Definition patternsOf (rule : TrainingPair.t) : list string :=
  match TrainingPair.inputPatterns rule with
  | Some (p :: ps) => p :: ps
  | _ => if JS.truthy (TrainingPair.inputPattern rule)
         then [TrainingPair.inputPattern rule] else []
  end.

(** One turn of the loop over the patterns: a pattern without tokens is
    skipped, another one raises [maxRuleScore] when it scores higher. *)
Definition scoreStep (lowerMsg : string) (userTokenSet : gset string)
    (maxRuleScore : Q) (pattern : string) : Q :=
  if (length (tokenize pattern) =? 0)%nat then maxRuleScore
  else
    let score := patternScore lowerMsg userTokenSet pattern in
    if gtb score maxRuleScore then score else maxRuleScore.

Definition maxRuleScore (lowerMsg : string) (userTokenSet : gset string)
    (rule : TrainingPair.t) : Q :=
  fold_left (scoreStep lowerMsg userTokenSet) (patternsOf rule) 0%Q.

Module Match.
Record t := mk {
  rule : TrainingPair.t;
  score : Q }.
End Match.

(** The three running winners of the loop over the rules. *)
Record Best := mkBest {
  bestTextMatch : option Match.t;
  bestImageMatch : option Match.t;
  bestAudioMatch : option Match.t }.

(** [!best || score > best.score] *)
Definition beats (score : Q) (best : option Match.t) : bool :=
  match best with
  | None => true
  | Some b => gtb score (Match.score b)
  end.

Definition considerRule (lowerMsg : string) (userTokenSet : gset string)
    (best : Best) (rule : TrainingPair.t) : Best :=
  match patternsOf rule with
  | [] => best
  | _ =>
    let maxRuleScore := maxRuleScore lowerMsg userTokenSet rule in
    if gtb maxRuleScore 0 then
      let matchObj := Match.mk rule maxRuleScore in
      match TrainingPair.type rule with
      | text =>
          if beats maxRuleScore (bestTextMatch best)
          then mkBest (Some matchObj) (bestImageMatch best) (bestAudioMatch best)
          else best
      | image_trigger =>
          if beats maxRuleScore (bestImageMatch best)
          then mkBest (bestTextMatch best) (Some matchObj) (bestAudioMatch best)
          else best
      | audio_trigger =>
          if beats maxRuleScore (bestAudioMatch best)
          then mkBest (bestTextMatch best) (bestImageMatch best) (Some matchObj)
          else best
      end
    else best
  end.

Definition bestMatches (lowerMsg : string) (userTokenSet : gset string)
    (rules : list TrainingPair.t) : Best :=
  fold_left (considerRule lowerMsg userTokenSet) rules (mkBest None None None).

(** ** The scores as the doubles of the run

    A JavaScript [number] is an IEEE 754 binary64. [matchCount / length],
    [coverage * 100] and [+ matchCount] each round to the nearest double,
    and [>] and [>=] compare doubles; so two scores that are equal as
    rationals can differ in the last place, and the other way round. The
    scores and the choice of the winners are written here once more, on the
    doubles of [SpecFloat], operation by operation as the source has them. *)

Module Double.

Definition t : Type := SpecFloat.spec_float.

Definition prec : Z := 53.
Definition emax : Z := 1024.

(** The double of a count. *)
Definition ofNat (n : nat) : t :=
  SpecFloat.binary_normalize prec emax (Z.of_nat n) 0 false.

Definition add : t -> t -> t := SpecFloat.SFadd prec emax.
Definition mul : t -> t -> t := SpecFloat.SFmul prec emax.
Definition div : t -> t -> t := SpecFloat.SFdiv prec emax.

(** [a > b] and [a >= b]; both are false when one side is NaN. *)
Definition gtb (a b : t) : bool := SpecFloat.SFltb b a.
Definition geb (a b : t) : bool := SpecFloat.SFleb b a.

Definition zero : t := ofNat 0.

(** The literal [0.75], which is a double: 3 * 2^-2. *)
Definition threeQuarters : t :=
  SpecFloat.S754_finite false 6755399441055744 (-53).

End Double.

Module Doubles.

(** The body of the loop over the patterns of a rule, for a pattern that has
    tokens: the score of the pattern. *)
Definition patternScore (lowerMsg : string) (userTokenSet : gset string)
    (pattern : string) : Double.t :=
  let ruleTokens := tokenize pattern in
  let lowerRule := JS.trim (JS.toLowerCase pattern) in
  if JS.includes lowerMsg lowerRule then
    Double.add (Double.ofNat 1000) (Double.ofNat (length ruleTokens))
  else
    let matchCount :=
      length (filter (fun t => t ∈ userTokenSet) ruleTokens) in
    let coverage :=
      Double.div (Double.ofNat matchCount)
        (Double.ofNat (length ruleTokens)) in
    let requiredCoverage :=
      if (length ruleTokens <=? 3)%nat then Double.ofNat 1
      else Double.threeQuarters in
    if Double.geb coverage requiredCoverage
    then Double.add (Double.mul coverage (Double.ofNat 100))
           (Double.ofNat matchCount)
    else Double.zero.

(** One turn of the loop over the patterns: a pattern without tokens is
    skipped, another one raises [maxRuleScore] when it scores higher. *)
Definition scoreStep (lowerMsg : string) (userTokenSet : gset string)
    (maxRuleScore : Double.t) (pattern : string) : Double.t :=
  if (length (tokenize pattern) =? 0)%nat then maxRuleScore
  else
    let score := patternScore lowerMsg userTokenSet pattern in
    if Double.gtb score maxRuleScore then score else maxRuleScore.

Definition maxRuleScore (lowerMsg : string) (userTokenSet : gset string)
    (rule : TrainingPair.t) : Double.t :=
  fold_left (scoreStep lowerMsg userTokenSet) (patternsOf rule) Double.zero.

Module Match.
Record t := mk {
  rule : TrainingPair.t;
  score : Double.t }.
End Match.

(** The three running winners of the loop over the rules. *)
Record Best := mkBest {
  bestTextMatch : option Match.t;
  bestImageMatch : option Match.t;
  bestAudioMatch : option Match.t }.

(** [!best || score > best.score] *)
Definition beats (score : Double.t) (best : option Match.t) : bool :=
  match best with
  | None => true
  | Some b => Double.gtb score (Match.score b)
  end.

Definition considerRule (lowerMsg : string) (userTokenSet : gset string)
    (best : Best) (rule : TrainingPair.t) : Best :=
  match patternsOf rule with
  | [] => best
  | _ =>
    let maxRuleScore := maxRuleScore lowerMsg userTokenSet rule in
    if Double.gtb maxRuleScore Double.zero then
      let matchObj := Match.mk rule maxRuleScore in
      match TrainingPair.type rule with
      | text =>
          if beats maxRuleScore (bestTextMatch best)
          then mkBest (Some matchObj) (bestImageMatch best) (bestAudioMatch best)
          else best
      | image_trigger =>
          if beats maxRuleScore (bestImageMatch best)
          then mkBest (bestTextMatch best) (Some matchObj) (bestAudioMatch best)
          else best
      | audio_trigger =>
          if beats maxRuleScore (bestAudioMatch best)
          then mkBest (bestTextMatch best) (bestImageMatch best) (Some matchObj)
          else best
      end
    else best
  end.

Definition bestMatches (lowerMsg : string) (userTokenSet : gset string)
    (rules : list TrainingPair.t) : Best :=
  fold_left (considerRule lowerMsg userTokenSet) rules (mkBest None None None).

End Doubles.

(** ** The regular expressions of the fallback conversation

    The message they are tested on is already in lower case, so the flag [i]
    makes no difference on it. *)

(** What is left of [s] after its prefix [p], when [p] is one. *)
Fixpoint stripPrefix (s p : string) : option string :=
  match p, s with
  | EmptyString, _ => Some s
  | String a p', String b s' => if Ascii.eqb a b then stripPrefix s' p' else None
  | String _ _, EmptyString => None
  end.

(** [(\s|$|[!.?])] at the start of [rest]. *)
Definition endsWord (rest : string) : bool :=
  match rest with
  | EmptyString => true
  | String c _ =>
      JS.isWhiteSpace c
      || existsb (Ascii.eqb c) (String.list_ascii_of_string "!.?")
  end.

(** [/^(hey|hi|hello|yo|greetings|hola|heya|howdy)(\s|$|[!.?])/i] *)
Definition greetingRegex (lowerMsg : string) : bool :=
  existsb (fun w => match stripPrefix lowerMsg w with
                    | Some rest => endsWord rest
                    | None => false
                    end)
    ["hey"; "hi"; "hello"; "yo"; "greetings"; "hola"; "heya"; "howdy"].

(** [/good (morning|afternoon|evening|night)/i] *)
Definition goodTimeRegex (lowerMsg : string) : bool :=
  existsb (JS.includes lowerMsg)
    ["good morning"; "good afternoon"; "good evening"; "good night"].

(** [/how (are|r) (you|u)|how'?s (it|everything) going|how (are|r) things/i] *)
Definition howAreYouRegex (lowerMsg : string) : bool :=
  existsb (JS.includes lowerMsg)
    ["how are you"; "how are u"; "how r you"; "how r u";
     "how's it going"; "hows it going";
     "how's everything going"; "hows everything going";
     "how are things"; "how r things"].

(** ** The engine *)

(** The variables [processOfflineMessage] assigns to while it runs. *)
Record Locals := mkLocals {
  responseText : string;
  responseImage : option ImageData;
  responseAudio : option string;
  eventTagsTriggered : list string;
  memory : Memory.t }.

Definition setText (l : Locals) (t : string) : Locals :=
  mkLocals t (responseImage l) (responseAudio l) (eventTagsTriggered l) (memory l).
Definition setImage (l : Locals) (i : option ImageData) : Locals :=
  mkLocals (responseText l) i (responseAudio l) (eventTagsTriggered l) (memory l).
Definition setAudio (l : Locals) (a : option string) : Locals :=
  mkLocals (responseText l) (responseImage l) a (eventTagsTriggered l) (memory l).
Definition setMemory (l : Locals) (m : Memory.t) : Locals :=
  mkLocals (responseText l) (responseImage l) (responseAudio l)
    (eventTagsTriggered l) m.
Definition pushEventTag (l : Locals) (tag : string) : Locals :=
  mkLocals (responseText l) (responseImage l) (responseAudio l)
    (eventTagsTriggered l ++ [tag]) (memory l).

Definition withWaitingForDefinition (m : Memory.t) (v : option string)
  : Memory.t :=
  Memory.mk (Memory.userFacts m) (Memory.sharedExperiences m) (Memory.mood m)
    (Memory.affection m) (Memory.currentStory m) (Memory.waitingForCompliment m)
    v (Memory.lastTopic m) (Memory.lastSubject m) (Memory.lastResponses m)
    (Memory.lastSentImageIds m) (Memory.logicCounts m).
Definition withLastSentImageIds (m : Memory.t) (v : option (list string))
  : Memory.t :=
  Memory.mk (Memory.userFacts m) (Memory.sharedExperiences m) (Memory.mood m)
    (Memory.affection m) (Memory.currentStory m) (Memory.waitingForCompliment m)
    (Memory.waitingForDefinition m) (Memory.lastTopic m) (Memory.lastSubject m)
    (Memory.lastResponses m) v (Memory.logicCounts m).
Definition withLogicCounts (m : Memory.t) (v : option (gmap string Z))
  : Memory.t :=
  Memory.mk (Memory.userFacts m) (Memory.sharedExperiences m) (Memory.mood m)
    (Memory.affection m) (Memory.currentStory m) (Memory.waitingForCompliment m)
    (Memory.waitingForDefinition m) (Memory.lastTopic m) (Memory.lastSubject m)
    (Memory.lastResponses m) (Memory.lastSentImageIds m) v.

Definition withMemory (p : PersonaProfile.t) (m : Memory.t) : PersonaProfile.t :=
  PersonaProfile.mk (PersonaProfile.id p) (PersonaProfile.name p)
    (PersonaProfile.neuralMap p) m (PersonaProfile.otherFields p).
Definition withNeuralMap (p : PersonaProfile.t) (n : NeuralMap.t)
  : PersonaProfile.t :=
  PersonaProfile.mk (PersonaProfile.id p) (PersonaProfile.name p)
    n (PersonaProfile.memory p) (PersonaProfile.otherFields p).
Definition withCustomTraining (n : NeuralMap.t)
    (v : option (list TrainingPair.t)) : NeuralMap.t :=
  NeuralMap.mk (NeuralMap.coreIdentity n) v (NeuralMap.logicRules n)
    (NeuralMap.otherSections n).

(** What [processOfflineMessage] resolves with. *)
Module Reply.
Record t := mk {
  text : string;
  image : option ImageData;
  audio : option string;
  updatedPersona : PersonaProfile.t }.
End Reply.

(** Reading a property of the element [getRandomElement] returned: of [null]
    it is a [TypeError]. *)
Definition deref {A} (o : option A) : M A :=
  match o with
  | Some a => ret a
  | None => throw "TypeError"
  end.

(** [for (const x of xs) { acc = body(acc, x) }] *)
Fixpoint forOf {A S} (body : S -> A -> M S) (xs : list A) (acc : S) : M S :=
  match xs with
  | [] => ret acc
  | x :: xs' => let* acc' := body acc x in forOf body xs' acc'
  end.

(** [!r.timeOfDay || r.timeOfDay === 'any' || r.timeOfDay === currentPhase] *)
Definition inPhase (currentPhase : TimeOfDay) (r : TrainingResponse.t) : bool :=
  match TrainingResponse.timeOfDay r with
  | None => true
  | Some t => bool_decide (t = any) || bool_decide (t = currentPhase)
  end.

Definition isEmpty {A} (l : list A) : bool := (length l =? 0)%nat.

(** *** Phase 2: the trained rules *)

(** The responses of a rule a reply is drawn from: those for the current time
    of day, else all of them. *)
Definition phaseCandidates (currentPhase : TimeOfDay) (rule : TrainingPair.t)
  : list TrainingResponse.t :=
  let candidates := filter (fun r => inPhase currentPhase r = true)
                      (TrainingPair.responses rule) in
  if isEmpty candidates && negb (isEmpty (TrainingPair.responses rule))
  then TrainingPair.responses rule
  else candidates.

(** The step of the best text rule. [rule.responses] is read as the list
    that the type of the rule declares. *)
Definition executeTextRule (currentPhase : TimeOfDay)
    (bestTextMatch : option Match.t) (l : Locals) : M Locals :=
  match bestTextMatch with
  | None => ret l
  | Some m =>
      let rule := Match.rule m in
      let candidates := filter (fun r => inPhase currentPhase r = true)
                          (TrainingPair.responses rule) in
      let candidates :=
        if isEmpty candidates && negb (isEmpty (TrainingPair.responses rule))
        then TrainingPair.responses rule
        else if isEmpty candidates && JS.truthyOpt (TrainingPair.response rule)
        then [TrainingResponse.mk (default "" (TrainingPair.response rule))
                (Some any)]
        else candidates in
      if negb (isEmpty candidates) then
        let* picked := getRandomElement candidates in
        let* selected := deref picked in
        ret (setText l (TrainingResponse.text selected))
      else ret l
  end.

(** The images a send is drawn from, and the ids that stay remembered: the
    images not sent recently, or all of them once each has been sent, their
    ids then being forgotten. *)
Definition antiRepetition (taggedImages : list DBImage.t)
    (seenIds : list string) : list DBImage.t * list string :=
  let candidates :=
    filter (fun img => DBImage.id img ∉ seenIds) taggedImages in
  if isEmpty candidates then
    let idsToForget : gset string :=
      list_to_set (DBImage.id <$> taggedImages) in
    (taggedImages, filter (fun id => id ∉ idsToForget) seenIds)
  else (candidates, seenIds).

(** The body of [if (taggedImages.length > 0)]. *)
Definition sendTaggedImage (imageTag : string) (taggedImages : list DBImage.t)
    (l : Locals) : M Locals :=
  let seenIds := default [] (Memory.lastSentImageIds (memory l)) in
  let '(candidates, seenIds) := antiRepetition taggedImages seenIds in
  let* selectedImg := getRandomElement candidates in
  match selectedImg with
  | Some img =>
      ret (pushEventTag
             (setMemory (setImage l (Some (DBImage.data img)))
                (withLastSentImageIds (memory l)
                   (Some (seenIds ++ [DBImage.id img]))))
             imageTag)
  | None => ret l
  end.

Definition executeImageRule (personaId : string) (currentPhase : TimeOfDay)
    (bestImageMatch : option Match.t) (l : Locals) : M Locals :=
  match bestImageMatch with
  | None => ret l
  | Some m =>
      let rule := Match.rule m in
      let candidates := phaseCandidates currentPhase rule in
      let* l :=
        (if negb (isEmpty candidates) then
           let* picked := getRandomElement candidates in
           let* selected := deref picked in
           if JS.truthy (TrainingResponse.text selected)
              && negb (JS.truthy (responseText l))
           then ret (setText l (TrainingResponse.text selected))
           else ret l
         else ret l) in
      if JS.truthyOpt (TrainingPair.imageTag rule) then
        let imageTag := default "" (TrainingPair.imageTag rule) in
        tryCatch
          (let* taggedImages := searchImages personaId [imageTag] in
           if negb (isEmpty taggedImages)
           then sendTaggedImage imageTag taggedImages l
           else ret l)
          (fun e => let* _ := consoleWrite FailedToFetchImage in ret l)
      else ret l
  end.

Definition executeAudioRule (bestAudioMatch : option Match.t) (l : Locals)
  : M Locals :=
  match bestAudioMatch with
  | None => ret l
  | Some m =>
      let rule := Match.rule m in
      if JS.truthyOpt (TrainingPair.audioData rule) then
        let l := setAudio l (TrainingPair.audioData rule) in
        if negb (JS.truthy (responseText l)) then
          let candidates := TrainingPair.responses rule in
          if negb (isEmpty candidates) then
            let* picked := getRandomElement candidates in
            let* sel := deref picked in
            if JS.truthy (TrainingResponse.text sel)
               && negb (bool_decide (TrainingResponse.text sel = "(Audio Message)"))
            then ret (setText l (TrainingResponse.text sel))
            else ret l
          else ret l
        else ret l
      else ret l
  end.

Definition customTrainingPhase (personaId : string) (currentPhase : TimeOfDay)
    (map : NeuralMap.t) (lowerMsg : string) (userTokenSet : gset string)
    (l : Locals) : M Locals :=
  match NeuralMap.customTraining map with
  | Some (r :: rs) =>
      let best := bestMatches lowerMsg userTokenSet (r :: rs) in
      let* l := executeTextRule currentPhase (bestTextMatch best) l in
      let* l := executeImageRule personaId currentPhase (bestImageMatch best) l in
      executeAudioRule (bestAudioMatch best) l
  | _ => ret l
  end.

(** *** The logic engine *)

(** [state[key] || 0] *)
Definition getCount (state : gmap string Z) (key : string) : Z :=
  default 0 (state !! key).

(** [state[key] = (state[key] || 0) + 1] *)
Definition increment (state : gmap string Z) (key : string) : gmap string Z :=
  <[key := getCount state key + 1]> state.

(** The update of the counters: one increment for each token of the message,
    then one for each image tag sent in phase 2. *)
Definition updateState (state : gmap string Z) (userTokens : list string)
    (eventTagsTriggered : list string) : gmap string Z :=
  let state :=
    fold_left (fun st token => increment st ("kw_" +:+ token)) userTokens state in
  fold_left (fun st tag => increment st ("tag_" +:+ tag)) eventTagsTriggered state.

(** The counter a rule reads. *)
Definition keyOf (rule : LogicRule.t) : string :=
  match LogicRule.monitor rule with
  | user_says_keyword => "kw_" +:+ JS.toLowerCase (LogicRule.target rule)
  | bot_sends_imagetag => "tag_" +:+ JS.toLowerCase (LogicRule.target rule)
  end.

(** [currentCount > 0 && currentCount >= rule.threshold] *)
Definition triggered (rule : LogicRule.t) (state : gmap string Z) : bool :=
  let currentCount := getCount state (keyOf rule) in
  (0 <? currentCount) && (LogicRule.threshold rule <=? currentCount).

(** The body of the loop over the logic rules. *)
Definition checkRule (personaId : string)
    (acc : gmap string Z * Locals) (rule : LogicRule.t)
  : M (gmap string Z * Locals) :=
  let '(state, l) := acc in
  let key := keyOf rule in
  if triggered rule state then
    let* _ := consoleWrite (LogicRuleTriggered rule) in
    let* l :=
      match LogicRule.action rule with
      | send_text =>
          if JS.truthy (responseText l)
          then ret (setText l
                      (responseText l +:+ " " +:+ LogicRule.actionPayload rule))
          else ret (setText l (LogicRule.actionPayload rule))
      | send_image_tag =>
          tryCatch
            (let* taggedImages :=
               searchImages personaId [LogicRule.actionPayload rule] in
             let* selectedImg := getRandomElement taggedImages in
             match selectedImg with
             | Some img => ret (setImage l (Some (DBImage.data img)))
             | None => ret l
             end)
            (fun e => ret l)
      | send_audio => ret (setAudio l (Some (LogicRule.actionPayload rule)))
      end in
    let state := if LogicRule.resetOnTrigger rule then <[key := 0]> state
                 else state in
    ret (state, l)
  else ret (state, l).

Definition logicEngine (personaId : string) (map : NeuralMap.t)
    (userTokens : list string) (l : Locals) : M Locals :=
  match NeuralMap.logicRules map with
  | Some (r :: rs) =>
      let state := default ∅ (Memory.logicCounts (memory l)) in
      let state := updateState state userTokens (eventTagsTriggered l) in
      let* acc := forOf (checkRule personaId) (r :: rs) (state, l) in
      let '(state, l) := acc in
      ret (setMemory l (withLogicCounts (memory l) (Some state)))
  | _ => ret l
  end.

(** *** The whole turn *)

Definition audioResponses : list string :=
  ["I love hearing your voice! Can you tell me what you just said in text?";
   "You have such a nice voice. What was that about?";
   "I wish I could speak back to you like that. Type that out for me?";
   "Received your voice note. Sounds clear! What's on your mind?";
   "I'm listening, but my audio processor is a bit slow. Can you text me that?"].

Definition thankYou : string :=
  "Got it. I've saved that in my memory. What else should I know?".

Definition askPrompt : string :=
  "I honestly don't know how to answer that yet! Can you teach me? What should I say when you ask that?".

(** The text of the last message of the model in the history. The engine
    computes it and does not use it. *)
Definition lastBotText (history : list Message.t) : option string :=
  Message.content <$>
    head (filter (fun m => Message.role m = MODEL) (reverse history)).

(** Phase 1: the message is the answer to the question asked last. *)
Definition learnDefinition (persona : PersonaProfile.t) (memory : Memory.t)
    (questionToLearn answerToLearn : string) : M Reply.t :=
  let map := PersonaProfile.neuralMap persona in
  let* id := dateNow in
  let newRule :=
    TrainingPair.mk id (Some [questionToLearn]) questionToLearn
      [TrainingResponse.mk answerToLearn (Some any)] None text None None in
  let updatedTraining := default [] (NeuralMap.customTraining map) ++ [newRule] in
  ret (Reply.mk thankYou None None
         (withMemory
            (withNeuralMap persona (withCustomTraining map (Some updatedTraining)))
            (withWaitingForDefinition memory None))).

(** Phase 3: nothing was produced by the rules. The reply's text is
    [responseText || ""]. *)
Definition fallbackConversation (persona : PersonaProfile.t)
    (messageContent lowerMsg timeGreeting : string) (l : Locals) : M Reply.t :=
  let map := PersonaProfile.neuralMap persona in
  let finish (l : Locals) :=
    ret (Reply.mk (responseText l) (responseImage l) (responseAudio l)
           (withMemory persona (memory l))) in
  if negb (JS.truthy (responseText l)) && negb (truthyImage (responseImage l))
     && negb (JS.truthyOpt (responseAudio l)) then
    if greetingRegex lowerMsg then
      let options :=
        [timeGreeting +:+ "! " +:+ CoreIdentity.name (NeuralMap.coreIdentity map)
           +:+ " here.";
         "Hey! Good to see you.";
         "Hello there!";
         "Hi! I'm ready to chat."] in
      let* picked := getRandomElement options in
      finish (setText l (default "" picked))
    else if goodTimeRegex lowerMsg then
      finish (setText l (timeGreeting +:+ "! Hope you're doing well."))
    else if howAreYouRegex lowerMsg then
      let options :=
        ["I'm doing great, thanks for asking!";
         "Systems functional and ready to chat.";
         "I'm feeling... electric.";
         "I'm good! How are you?"] in
      let* picked := getRandomElement options in
      finish (setText l (default "" picked))
    else
      ret (Reply.mk askPrompt None None
             (withMemory persona
                (withWaitingForDefinition (memory l) (Some messageContent))))
  else finish l.

Definition processOfflineMessage (persona : PersonaProfile.t)
    (messageContent : string) (messageType : MessageType)
    (history : list Message.t) : M Reply.t :=
  let map := PersonaProfile.neuralMap persona in
  let memory :=
    withLogicCounts (PersonaProfile.memory persona)
      (Some (default ∅ (Memory.logicCounts (PersonaProfile.memory persona)))) in
  let* timeGreeting := getTimeGreeting in
  let* currentPhase := getCurrentTimePhase in
  let lastBotText := lastBotText history in
  if bool_decide (messageType = AUDIO) then
    let* picked := getRandomElement audioResponses in
    ret (Reply.mk (default "" picked) None None persona)
  else
    let lowerMsg := JS.trim (JS.toLowerCase messageContent) in
    let userTokens := tokenize messageContent in
    let userTokenSet : gset string := list_to_set userTokens in
    let l := mkLocals "" None None [] memory in
    if JS.truthyOpt (Memory.waitingForDefinition memory) then
      learnDefinition persona memory
        (default "" (Memory.waitingForDefinition memory)) messageContent
    else
      let* l := customTrainingPhase (PersonaProfile.id persona) currentPhase
                  map lowerMsg userTokenSet l in
      let* l := logicEngine (PersonaProfile.id persona) map userTokens l in
      fallbackConversation persona messageContent lowerMsg timeGreeting l.

(** * Vocabulary of the properties *)

(** ** Reasoning about runs

    [wp m w s Q]: run in the world [w] from [s], the computation [m] returns
    (it does not throw), with a value and a final state that satisfy [Q]. *)

Definition wp {A} (m : M A) (w : World) (s : Run) (Q : A -> Run -> Prop)
  : Prop :=
  match m w s with
  | (Returned a, s') => Q a s'
  | (Thrown _, _) => False
  end.

Arguments wp : simpl never.
Arguments bind : simpl never.
Arguments getRandomElement : simpl never.
Arguments tryCatch : simpl never.
Arguments searchImages : simpl never.

(** ** Symbolic execution of the phases *)

Definition countQuery (s : Run) : Run :=
  mkRun (draws s) (S (queries s)) (console s).

Definition countDraw (s : Run) : Run :=
  mkRun (S (draws s)) (queries s) (console s).

(** *** The logic engine *)

(** The counters after a rule was checked: its own is set to zero when the
    rule fired and resets on firing. *)
Definition stateAfter (state : gmap string Z) (rule : LogicRule.t)
  : gmap string Z :=
  if triggered rule state && LogicRule.resetOnTrigger rule
  then <[keyOf rule := 0]> state else state.

(** The rules of a list that fire, each one checked on the counters the rules
    before it have left. *)
Fixpoint firedRules (rules : list LogicRule.t) (state : gmap string Z)
  : list LogicRule.t :=
  match rules with
  | [] => []
  | rule :: rules' =>
      (if triggered rule state then [rule] else [])
      ++ firedRules rules' (stateAfter state rule)
  end.

(** The image [after] is the image [before], or it is the data of an image
    that the store has returned to one of the queries numbered from [from]
    up to, but not including, [upto]. *)
Definition imageFromStore (personaId : string) (w : World) (from upto : nat)
    (before after : option ImageData) : Prop :=
  after = before
  \/ exists q all img,
       (from <= q < upto)%nat
       /\ storedImages w q personaId = Some all
       /\ img ∈ all
       /\ after = Some (DBImage.data img).

(** What the turn of the loop for one rule leaves: the counters, the console,
    and local variables of which only the three responses may have changed;
    nothing changes when the rule does not fire, and the image changes only
    to one that the store has returned. *)
Definition checkRulePost (personaId : string) (w : World)
    (rule : LogicRule.t) (state : gmap string Z) (l : Locals) (s : Run)
    (acc' : gmap string Z * Locals) (s' : Run) : Prop :=
  acc'.1 = stateAfter state rule
  /\ console s' = console s
       ++ (if triggered rule state then [LogicRuleTriggered rule] else [])
  /\ memory acc'.2 = memory l
  /\ eventTagsTriggered acc'.2 = eventTagsTriggered l
  /\ (triggered rule state = false -> acc'.2 = l /\ s' = s)
  /\ ((queries s <= queries s')%nat
      /\ imageFromStore personaId w (queries s) (queries s')
           (responseImage l) (responseImage acc'.2)).

(** The loop over the rules. *)
Definition checkRulesPost (personaId : string) (w : World)
    (rules : list LogicRule.t) (state : gmap string Z) (l : Locals) (s : Run)
    (acc' : gmap string Z * Locals) (s' : Run) : Prop :=
  acc'.1 = fold_left stateAfter rules state
  /\ console s' = console s ++ (LogicRuleTriggered <$> firedRules rules state)
  /\ memory acc'.2 = memory l
  /\ eventTagsTriggered acc'.2 = eventTagsTriggered l
  /\ (firedRules rules state = [] -> acc'.2 = l /\ s' = s)
  /\ ((queries s <= queries s')%nat
      /\ imageFromStore personaId w (queries s) (queries s')
           (responseImage l) (responseImage acc'.2)).

(** The counters the rules are checked on: those of the memory, updated with
    the tokens of the message and the tags of the images sent. *)
Definition countersChecked (userTokens : list string) (l : Locals)
  : gmap string Z :=
  updateState (default ∅ (Memory.logicCounts (memory l))) userTokens
    (eventTagsTriggered l).

Definition logicEnginePost (personaId : string) (w : World) (map : NeuralMap.t)
    (userTokens : list string) (l : Locals) (s : Run)
    (l' : Locals) (s' : Run) : Prop :=
  match NeuralMap.logicRules map with
  | Some (r :: rs) =>
      let state := countersChecked userTokens l in
      memory l'
      = withLogicCounts (memory l) (Some (fold_left stateAfter (r :: rs) state))
      /\ console s'
         = console s ++ (LogicRuleTriggered <$> firedRules (r :: rs) state)
      /\ eventTagsTriggered l' = eventTagsTriggered l
      /\ (firedRules (r :: rs) state = [] ->
          responseText l' = responseText l
          /\ responseImage l' = responseImage l
          /\ responseAudio l' = responseAudio l /\ s' = s)
      /\ ((queries s <= queries s')%nat
          /\ imageFromStore personaId w (queries s) (queries s')
               (responseImage l) (responseImage l'))
  | _ => l' = l /\ s' = s
  end.

(** *** The fallback conversation *)

(** [responseText || responseImage || responseAudio] *)
Definition produced (l : Locals) : bool :=
  JS.truthy (responseText l) || truthyImage (responseImage l)
  || JS.truthyOpt (responseAudio l).

(** One of the three intent classifiers recognises the message. *)
Definition intentRecognised (lowerMsg : string) : bool :=
  greetingRegex lowerMsg || goodTimeRegex lowerMsg || howAreYouRegex lowerMsg.

Definition fallbackPost (persona : PersonaProfile.t)
    (messageContent lowerMsg : string) (l : Locals) (s : Run)
    (reply : Reply.t) (s' : Run) : Prop :=
  Reply.image reply = (if produced l || intentRecognised lowerMsg
                       then responseImage l else None)
  /\ console s' = console s /\ queries s' = queries s
  /\ if produced l then
       reply = Reply.mk (responseText l) (responseImage l) (responseAudio l)
                 (withMemory persona (memory l))
       /\ s' = s
     else if intentRecognised lowerMsg then
       Reply.updatedPersona reply = withMemory persona (memory l)
     else
       reply = Reply.mk askPrompt None None
                 (withMemory persona
                    (withWaitingForDefinition (memory l) (Some messageContent)))
       /\ s' = s.

(** *** The whole turn *)

(** The memory the engine works on: a copy of the persona's, with a table of
    counters. *)
Definition workingMemory (persona : PersonaProfile.t) : Memory.t :=
  withLogicCounts (PersonaProfile.memory persona)
    (Some (default ∅ (Memory.logicCounts (PersonaProfile.memory persona)))).

Definition initialLocals (persona : PersonaProfile.t) : Locals :=
  mkLocals "" None None [] (workingMemory persona).

Definition pending (persona : PersonaProfile.t) : bool :=
  JS.truthyOpt (Memory.waitingForDefinition (PersonaProfile.memory persona)).

Definition currentPhaseOf (w : World) : TimeOfDay :=
  if ((5 <=? hour w) && (hour w <? 12))%nat then morning
  else if ((12 <=? hour w) && (hour w <? 17))%nat then afternoon
  else if ((17 <=? hour w) && (hour w <? 23))%nat then evening
  else lateNight.

Definition timeGreetingOf (w : World) : string :=
  if (hour w <? 5)%nat then "Good late night"
  else if (hour w <? 12)%nat then "Good morning"
  else if (hour w <? 18)%nat then "Good afternoon"
  else "Good evening".

Definition lowerMsgOf (messageContent : string) : string :=
  JS.trim (JS.toLowerCase messageContent).

Definition userTokenSetOf (messageContent : string) : gset string :=
  list_to_set (tokenize messageContent).

(** ** What a turn leaves untouched *)

(** The fields of the memory other than the counters, the ids of the images
    sent recently and the pending question. *)
Definition memoryFrame (m m' : Memory.t) : Prop :=
  Memory.userFacts m' = Memory.userFacts m
  /\ Memory.sharedExperiences m' = Memory.sharedExperiences m
  /\ Memory.mood m' = Memory.mood m
  /\ Memory.affection m' = Memory.affection m
  /\ Memory.currentStory m' = Memory.currentStory m
  /\ Memory.waitingForCompliment m' = Memory.waitingForCompliment m
  /\ Memory.lastTopic m' = Memory.lastTopic m
  /\ Memory.lastSubject m' = Memory.lastSubject m
  /\ Memory.lastResponses m' = Memory.lastResponses m.

(** The persona [p'] is [p] but for the three fields of the memory that the
    engine writes. *)
Definition personaFrame (p p' : PersonaProfile.t) : Prop :=
  PersonaProfile.id p' = PersonaProfile.id p
  /\ PersonaProfile.name p' = PersonaProfile.name p
  /\ PersonaProfile.otherFields p' = PersonaProfile.otherFields p
  /\ NeuralMap.customTraining (PersonaProfile.neuralMap p')
     = NeuralMap.customTraining (PersonaProfile.neuralMap p)
  /\ NeuralMap.logicRules (PersonaProfile.neuralMap p')
     = NeuralMap.logicRules (PersonaProfile.neuralMap p)
  /\ NeuralMap.coreIdentity (PersonaProfile.neuralMap p')
     = NeuralMap.coreIdentity (PersonaProfile.neuralMap p)
  /\ PersonaProfile.neuralMap p' = PersonaProfile.neuralMap p
  /\ memoryFrame (PersonaProfile.memory p) (PersonaProfile.memory p').

(** ** Scores *)

(** The number of tokens of a phrase that occur in the message. *)
Definition matchCountOf (userTokenSet : gset string) (pattern : string) : nat :=
  length (filter (fun t => t ∈ userTokenSet) (tokenize pattern)).

(** The lower-cased, trimmed phrase that is looked for in the message. *)
Definition lowerRuleOf (pattern : string) : string :=
  JS.trim (JS.toLowerCase pattern).

(** The required coverage is met: all the tokens of a phrase of at most three
    tokens, three quarters of those of a longer phrase. *)
Definition coverageMet (n m : nat) : bool :=
  if (n <=? 3)%nat then (m =? n)%nat else (3 * n <=? 4 * m)%nat.

(** ** Exact matches and fuzzy matches *)

(** The phrase occurs verbatim in the lower-cased message. *)
Definition exactHit (lowerMsg pattern : string) : bool :=
  JS.includes lowerMsg (lowerRuleOf pattern).

(** Some phrase of the rule that has tokens occurs verbatim. *)
Definition hasExactHit (lowerMsg : string) (rule : TrainingPair.t) : bool :=
  existsb (fun p => negb (isEmpty (tokenize p)) && exactHit lowerMsg p)
    (patternsOf rule).

(** No phrase of the rule occurs verbatim, and none has more than [limit]
    tokens. *)
Definition fuzzyOnlyUpTo (limit : nat) (lowerMsg : string)
    (rule : TrainingPair.t) : bool :=
  forallb (fun p => negb (exactHit lowerMsg p)
                    && (length (tokenize p) <=? limit)%nat)
    (patternsOf rule).

(** ** Worked examples *)

Module Demo.

Definition response (t : string) : TrainingResponse.t :=
TrainingResponse.mk t None.

(** A rule with one phrase and one response. *)
Definition rule (id phrase reply : string) (type : TrainingType)
  (imageTag : option string) : TrainingPair.t :=
TrainingPair.mk id (Some [phrase]) phrase [response reply] None type
  imageTag None.

Definition emptyMemory : Memory.t :=
Memory.mk [] [] 0 0 None None None None None [] None None.

Definition identity : CoreIdentity.t :=
CoreIdentity.mk "Sam" "Unknown" "AI" "Local Device" "assistant" [] "" "" "".

Definition persona (rules : list TrainingPair.t)
  (logicRules : list LogicRule.t) : PersonaProfile.t :=
PersonaProfile.mk "p1" "Sam"
  (NeuralMap.mk identity (Some rules) (Some logicRules) "") emptyMemory "".

Definition image (id : string) : DBImage.t :=
DBImage.mk id "p1" (StringData ("data:" +:+ id)) ["cat"] "" 0.

(** A world at ten in the morning whose store holds [images] and whose
  k-th random draw is [k]. *)
Definition world (images : list DBImage.t) : World :=
mkWorld 10 "1700000000000" (fun k => k) (fun _ _ => Some images).

(** A world whose store rejects every query. *)
Definition brokenWorld : World :=
mkWorld 10 "1700000000000" (fun k => k) (fun _ _ => None).

(** [n] times the word, separated by spaces. *)
Fixpoint repeatWord (n : nat) (word : string) : string :=
match n with
| O => ""
| S n' => word +:+ " " +:+ repeatWord n' word
end.

Definition greeting : TrainingPair.t := rule "1" "hi" "Hello!" text None.

(** A rule whose phrase is the word "a" 902 times. *)
Definition chatter : TrainingPair.t :=
rule "2" (repeatWord 902 "a") "So many words." text None.

(** After three occurrences of the keyword "foo", say so and start again. *)
Definition fooRule : LogicRule.t :=
  LogicRule.mk "l1" "three foos" user_says_keyword "Foo" 3 send_text
    "You said foo three times!" true.

(** At the first occurrence of "zzz", answer "Wake up!". *)
Definition zzzRule : LogicRule.t :=
  LogicRule.mk "l2" "sleepy" user_says_keyword "zzz" 1 send_text
    "Wake up!" false.

End Demo.

(** ** The winners of the three kinds *)

(** A double that is not NaN. *)
Definition isNumber (a : Double.t) : Prop := a <> SpecFloat.S754_nan.

(** The cases of the comparisons of exponents and mantissas in a goal. *)
Ltac order_cases :=
  repeat match goal with
  | H : context [PosDef.Pos.compare_cont Eq ?a ?b] |- _ =>
      change (PosDef.Pos.compare_cont Eq a b) with (Pos.compare a b) in H
  | |- context [PosDef.Pos.compare_cont Eq ?a ?b] =>
      change (PosDef.Pos.compare_cont Eq a b) with (Pos.compare a b)
  end;
  repeat match goal with
  | H : context [(?a ?= ?b)%Z] |- _ => destruct (Z.compare_spec a b); simpl in H
  | |- context [(?a ?= ?b)%Z] => destruct (Z.compare_spec a b); simpl
  | H : context [(?a ?= ?b)%positive] |- _ =>
      destruct (Pos.compare_spec a b); simpl in H
  | |- context [(?a ?= ?b)%positive] => destruct (Pos.compare_spec a b); simpl
  end;
  try done; try lia.

Definition winnerOf (kind : TrainingType) (best : Doubles.Best)
  : option Doubles.Match.t :=
  match kind with
  | text => Doubles.bestTextMatch best
  | image_trigger => Doubles.bestImageMatch best
  | audio_trigger => Doubles.bestAudioMatch best
  end.

(** What one rule does to the running winner of a kind. *)
Definition challenge (lowerMsg : string) (userTokenSet : gset string)
    (kind : TrainingType) (cur : option Doubles.Match.t)
    (rule : TrainingPair.t) : option Doubles.Match.t :=
  let score := Doubles.maxRuleScore lowerMsg userTokenSet rule in
  if bool_decide (TrainingPair.type rule = kind)
     && Double.gtb score Double.zero
     && Doubles.beats score cur
  then Some (Doubles.Match.mk rule score) else cur.

(** The running winner [cur] is what the loop must have kept after the rules
    [seen]: the first of the rules of the kind that score highest, when that
    score is positive. The winner's score is [>] that of every rule of the
    kind before it, and no rule of the kind after it scores [>] it. *)
Definition isWinner (lowerMsg : string) (userTokenSet : gset string)
    (kind : TrainingType) (seen : list TrainingPair.t)
    (cur : option Doubles.Match.t) : Prop :=
  let score := Doubles.maxRuleScore lowerMsg userTokenSet in
  match cur with
  | Some m =>
      exists before after,
        seen = before ++ Doubles.Match.rule m :: after
        /\ TrainingPair.type (Doubles.Match.rule m) = kind
        /\ Doubles.Match.score m = score (Doubles.Match.rule m)
        /\ Double.gtb (Doubles.Match.score m) Double.zero = true
        /\ (forall r, r ∈ before -> TrainingPair.type r = kind ->
              Double.gtb (Doubles.Match.score m) (score r) = true)
        /\ (forall r, r ∈ after -> TrainingPair.type r = kind ->
              Double.gtb (score r) (Doubles.Match.score m) = false)
  | None =>
      forall r, r ∈ seen -> TrainingPair.type r = kind ->
        Double.gtb (score r) Double.zero = false
  end.

(** Two rules whose scores for the message "x" are both 918/7 as rationals:
    34 of 35 tokens for the first, 54 of 70 for the second. *)
Module DemoNearTie.

Definition first : TrainingPair.t :=
  Demo.rule "1" (Demo.repeatWord 34 "x" +:+ "y") "First." text None.

Definition second : TrainingPair.t :=
  Demo.rule "2" (Demo.repeatWord 54 "x" +:+ Demo.repeatWord 16 "y")
    "Second." text None.

End DemoNearTie.

(** ** The counters *)

(** How many of the strings [xs] make the key [key] with the prefix. *)
Definition occurrences (prefix key : string) (xs : list string) : Z :=
  Z.of_nat (length (filter (fun x => prefix +:+ x = key) xs)).

(** The counters of the reply's persona, or an empty table. *)
Definition countersOf (p : PersonaProfile.t) : gmap string Z :=
  default ∅ (Memory.logicCounts (PersonaProfile.memory p)).

(** ** Thresholds *)

(** The occurrences of the keyword of a rule among the tokens of a message. *)
Definition keywordCount (rule : LogicRule.t) (messageContent : string) : Z :=
  Z.of_nat (length (filter (fun t => t = JS.toLowerCase (LogicRule.target rule))
                      (tokenize messageContent))).

(** The rule at a position of the list fires in a turn when it is triggered
    on the counters that the rules before it have left. *)
Definition firesAfter (before : list LogicRule.t) (rule : LogicRule.t)
    (checked : gmap string Z) : bool :=
  triggered rule (fold_left stateAfter before checked).

(** What a run has printed between two of its states. *)
Definition printed (s s' : Run) : list LogEntry :=
  drop (length (console s)) (console s').

(** The run has printed that the rule was triggered. *)
Definition logged (rule : LogicRule.t) (s s' : Run) : bool :=
  bool_decide (LogicRuleTriggered rule ∈ printed s s').

(** Successive ordinary turns of a persona, each on the persona the turn
    before has returned, with for each turn the number of occurrences of the
    keyword of the rule in its message and whether the rule was logged as
    triggered. *)
Inductive keywordTurns (rule : LogicRule.t)
  : PersonaProfile.t -> list (Z * bool) -> PersonaProfile.t -> Prop :=
| keywordTurns_done persona :
    keywordTurns rule persona [] persona
| keywordTurns_turn persona messageContent messageType history w s reply s'
    trace persona' :
    messageType <> AUDIO ->
    pending persona = false ->
    processOfflineMessage persona messageContent messageType history w s
    = (Returned reply, s') ->
    keywordTurns rule (Reply.updatedPersona reply) trace persona' ->
    keywordTurns rule persona
      ((keywordCount rule messageContent, logged rule s s') :: trace) persona'.

(** The firings the specification expects of a rule, turn by turn: the
    counter is raised by the occurrences of the turn, the rule fires when the
    counter has reached the threshold, and a rule that resets on firing starts
    again from zero. *)
Fixpoint expectedFirings (threshold : Z) (resetOnFire : bool) (counter : Z)
    (occurrencesPerTurn : list Z) : list bool :=
  match occurrencesPerTurn with
  | [] => []
  | n :: rest =>
      let counter := counter + n in
      let fires := threshold <=? counter in
      fires :: expectedFirings threshold resetOnFire
                 (if fires && resetOnFire then 0 else counter) rest
  end.

(** Two rules on one keyword; the first, checked first, resets the counter
    they share. *)
Module DemoShared.

Definition first : LogicRule.t :=
  LogicRule.mk "l1" "twice" user_says_keyword "foo" 2 send_text
    "You said foo twice!" true.

Definition second : LogicRule.t :=
  LogicRule.mk "l2" "twice too" user_says_keyword "foo" 2 send_text
    "Foo again!" false.

Definition persona : PersonaProfile.t :=
  Demo.persona [Demo.rule "1" "foo" "ok" text None] [first; second].

End DemoShared.

(** ** Learning a definition *)

(** [if (maxRuleScore > 0)]: the rule matches the message. *)
Definition matches (messageContent : string) (rule : TrainingPair.t) : bool :=
  gtb (maxRuleScore (lowerMsgOf messageContent) (userTokenSetOf messageContent)
         rule) 0.

(** No trained rule of the persona matches the message. *)
Definition noRuleMatches (messageContent : string) (persona : PersonaProfile.t)
  : bool :=
  forallb (fun rule => negb (matches messageContent rule))
    (default [] (NeuralMap.customTraining (PersonaProfile.neuralMap persona))).

(** No logic rule of the persona fires on the message, when no image was
    sent in phase 2. *)
Definition noLogicRuleFires (messageContent : string)
    (persona : PersonaProfile.t) : bool :=
  isEmpty
    (firedRules
       (default [] (NeuralMap.logicRules (PersonaProfile.neuralMap persona)))
       (countersChecked (tokenize messageContent) (initialLocals persona))).

(** The rule learnt from the question [question] and the answer [answer]. *)
Definition learntRule (id question answer : string) : TrainingPair.t :=
  TrainingPair.mk id (Some [question]) question
    [TrainingResponse.mk answer (Some any)] None text None None.

(** ** Images are not repeated *)





(** The ids of the images sent recently that a persona remembers. *)
Definition lastSentOf (p : PersonaProfile.t) : list string :=
  default [] (Memory.lastSentImageIds (PersonaProfile.memory p)).

Definition seenOf (l : Locals) : list string :=
  default [] (Memory.lastSentImageIds (memory l)).


(** ** The image of step 2b *)

(** The best image rule for a message, among the trained rules of a persona. *)
Definition bestImageOf (map : NeuralMap.t) (lowerMsg : string)
    (userTokenSet : gset string) : option Match.t :=
  bestImageMatch
    (bestMatches lowerMsg userTokenSet
       (default [] (NeuralMap.customTraining map))).

(** Step 2b has sent nothing: the tags, the image of the reply and the
    memory are as they were. *)
Definition nothingSent (l l' : Locals) : Prop :=
  eventTagsTriggered l' = eventTagsTriggered l
  /\ responseImage l' = responseImage l
  /\ memory l' = memory l.

(** Step 2b has sent one of the images [images] for the tag: an image drawn
    from what [antiRepetition] leaves of them is the image of the reply, the
    tag is put after the tags of the turn and the id of the image after the
    ids that stay remembered. *)
Definition imageSent (imageTag : string) (images : list DBImage.t)
    (l l' : Locals) : Prop :=
  exists img,
    img ∈ (antiRepetition images (seenOf l)).1
    /\ responseImage l' = Some (DBImage.data img)
    /\ eventTagsTriggered l' = eventTagsTriggered l ++ [imageTag]
    /\ seenOf l' = (antiRepetition images (seenOf l)).2 ++ [DBImage.id img].

(** What step 2b leaves: an image is sent when the best image rule has a
    tag that is not the empty string and the store answers the query with at
    least one image for the tag, and nothing is sent otherwise. *)
Definition imageStepPost (personaId : string) (w : World)
    (bestImageMatch : option Match.t) (l : Locals) (s : Run) (l' : Locals)
  : Prop :=
  match bestImageMatch with
  | Some m =>
      match TrainingPair.imageTag (Match.rule m),
            storedImages w (queries s) personaId with
      | Some imageTag, Some all =>
          if JS.truthy imageTag && negb (isEmpty (tagged [imageTag] all))
          then imageSent imageTag (tagged [imageTag] all) l l'
          else nothingSent l l'
      | _, _ => nothingSent l l'
      end
  | None => nothingSent l l'
  end.

(** The action of the rule is to send an image. *)
Definition sendsImage (rule : LogicRule.t) : bool :=
  bool_decide (LogicRule.action rule = send_image_tag).


(** ** Images are not repeated, continued *)


(** What a turn shows of the image it has sent: the id remembered last, the
    image of the reply, and whether a logic rule that sends an image of its
    own was triggered in the turn. *)
Module Sent.
Record t := mk {
  id : string;
  image : option ImageData;
  byLogicRule : bool }.
End Sent.




Module DemoImages.

Definition catRule : TrainingPair.t :=
  Demo.rule "3" "cat" "Here is one." image_trigger (Some "cat").

Definition cats : list DBImage.t :=
  [Demo.image "a"; Demo.image "b"; Demo.image "c"].

Definition catLover : PersonaProfile.t := Demo.persona [catRule] [].

End DemoImages.

(** A persona that counts the images it sends for the tag "cat". *)
Module DemoTags.

Definition catCounter : LogicRule.t :=
  LogicRule.mk "l3" "many cats" bot_sends_imagetag "cat" 5 send_text
    "That makes five cats." false.

Definition persona : PersonaProfile.t :=
  Demo.persona [DemoImages.catRule] [catCounter].

End DemoTags.

(** * Around the engine: its helpers, the forms and the themes *)

(** ** Tokens *)

(** Every character of the string satisfies the predicate. *)
Fixpoint allChars (P : ascii -> bool) (s : string) : bool :=
  match s with
  | EmptyString => true
  | String c r => P c && allChars P r
  end.

(** A character a token can hold: neither white space nor punctuation, and
    not an upper-case letter. *)
Definition isTokenChar (c : ascii) : bool :=
  negb (JS.isWhiteSpace c) && negb (isPunctuation c)
  && Ascii.eqb (JS.toLowerChar c) c.

Definition isToken (t : string) : bool :=
  JS.truthy t && allChars isTokenChar t.

(** ** Trimmed strings *)

(** The string does not start with white space. *)
Definition startsClean (s : string) : bool :=
  match s with
  | EmptyString => true
  | String c _ => negb (JS.isWhiteSpace c)
  end.

(** The string does not end with white space. *)
Fixpoint endsClean (s : string) : bool :=
  match s with
  | EmptyString => true
  | String c EmptyString => negb (JS.isWhiteSpace c)
  | String _ r => endsClean r
  end.

(** ** The time of day *)

(** The greeting that names a phase of the day. *)
Definition greetingOf (phase : TimeOfDay) : string :=
  match phase with
  | morning => "Good morning"
  | afternoon => "Good afternoon"
  | evening => "Good evening"
  | lateNight => "Good late night"
  | any => ""
  end.

(** ** Letter case *)

(** The persona, the pending question put aside. *)
Definition forgetPending (p : PersonaProfile.t) : PersonaProfile.t :=
  withMemory p (withWaitingForDefinition (PersonaProfile.memory p) None).

(** ** Searching the image store *)

(** The images that carry the tag in their list of tags. *)
Definition carrying (tag : string) (all : list DBImage.t) : list DBImage.t :=
  filter (fun img => tag ∈ DBImage.tags img) all.

Module DemoStore.

(** Two images of a persona: a tagged one and an untagged one with a
    description. *)
Definition beach : DBImage.t :=
  DBImage.mk "i1" "p1" (StringData "data:beach") ["Beach"] "Holiday" 0.

Definition sunset : DBImage.t :=
  DBImage.mk "i2" "p1" (StringData "data:sunset") [] "Sunset at the Beach" 0.

End DemoStore.

(** ** The colours of an avatar ([generateAvatar])

    The hash of the name and the two hues computed from it. A number is an
    integer here: the hash of a name of [n] characters is at most
    [n * (2^31 + 255)] in absolute value, so that the doubles of the source
    hold it exactly for every name shorter than [2^21] characters. *)

(** [ToInt32]: the integer modulo [2^32], read as a signed 32-bit integer. *)
Definition toInt32 (z : Z) : Z := (z + 2 ^ 31) mod 2 ^ 32 - 2 ^ 31.

(** [a << k], for [0 <= k < 32]. *)
Definition shiftLeft (a k : Z) : Z := toInt32 (Z.shiftl (toInt32 a) k).

(** [hash = name.charCodeAt(i) + ((hash << 5) - hash)] *)
Definition hashStep (hash : Z) (c : ascii) : Z :=
  Z.of_nat (JS.code c) + (shiftLeft hash 5 - hash).

Definition avatarHash (name : string) : Z :=
  fold_left hashStep (String.list_ascii_of_string name) 0.

(** [Math.abs(hash % 360)]; the remainder has the sign of the hash. *)
Definition hue1 (name : string) : Z := Z.abs (Z.rem (avatarHash name) 360).

(** [(hue1 + 40) % 360] *)
Definition hue2 (name : string) : Z := Z.rem (hue1 name + 40) 360.

(** ** A new persona ([generateIdentityBrain], [BotCreationModal]) *)

(** The sections of a new neural map that the engine never reads: the
    literal of the source, the same for every persona. *)
Definition initialSections : Untouched := "sections of a new neural map".

(** The neural map of a new persona. The prompt of the avatar that the
    source returns beside it is a constant, kept among the fields of the
    profile that the engine never reads. *)
Definition generateIdentityBrain (name type description : string)
  : NeuralMap.t :=
  NeuralMap.mk
    (CoreIdentity.mk name "Unknown" "AI" "Local Device" type
       ["Chatting"; "Learning"; "Data Analysis"]
       "I run entirely on your device."
       "To become smarter through our conversations."
       (if JS.truthy description then description
        else "I am a personal AI assistant running offline."))
    (Some []) (Some []) initialSections.

Module BotCreationModal.

Record FormData := mkFormData {
  name : string;
  type : string;
  description : string }.

(** The memory of a new persona; the optional fields are absent. *)
Definition newMemory : Memory.t :=
  Memory.mk [] [] 50 50 None None None None None [] None None.

(** [handleSave]: nothing is saved for an empty name; else the new persona is
    handed to [onSave]. The fields of the profile that the engine never
    reads (the avatar, the relationship, the permissions and the scores) are
    given as [others]. *)
Definition handleSave (formData : FormData) (others : Untouched)
  : M (option PersonaProfile.t) :=
  if negb (JS.truthy (name formData)) then ret None
  else
    let neuralMap := generateIdentityBrain (name formData) (type formData)
                       (description formData) in
    let* id := dateNow in
    ret (Some (PersonaProfile.mk id (name formData) neuralMap newMemory others)).

End BotCreationModal.

(** ** The replies of the fallback conversation *)

(** The replies the fallback conversation draws from, for a message that one
    of the intent classifiers recognises. *)
Definition intentReplies (name timeGreeting lowerMsg : string) : list string :=
  if greetingRegex lowerMsg then
    [timeGreeting +:+ "! " +:+ name +:+ " here.";
     "Hey! Good to see you.";
     "Hello there!";
     "Hi! I'm ready to chat."]
  else if goodTimeRegex lowerMsg then
    [timeGreeting +:+ "! Hope you're doing well."]
  else if howAreYouRegex lowerMsg then
    ["I'm doing great, thanks for asking!";
     "Systems functional and ready to chat.";
     "I'm feeling... electric.";
     "I'm good! How are you?"]
  else [].

(** ** The text of phase 2 *)

(** Some response of the rule is for the current time of day. *)
Definition hasResponseFor (currentPhase : TimeOfDay) (rule : TrainingPair.t)
  : bool :=
  existsb (inPhase currentPhase) (TrainingPair.responses rule).

(** Every response of the rule has a text. *)
Definition allWithText (rule : TrainingPair.t) : bool :=
  forallb (fun r => JS.truthy (TrainingResponse.text r))
    (TrainingPair.responses rule).

Module DemoTime.


End DemoTime.

(** ** The training form ([TrainingModal])

    The handlers of the form read the state of the render they were created
    in and write the next state; the writes of one handler are applied
    together. A handler is a function from the state to the next state and
    to what it sends out: the notifications shown and the personas handed
    to [onUpdate]. The answer of [window.confirm] and the clock are
    arguments. *)

Definition withLogicRules (n : NeuralMap.t) (v : option (list LogicRule.t))
  : NeuralMap.t :=
  NeuralMap.mk (NeuralMap.coreIdentity n) (NeuralMap.customTraining n) v
    (NeuralMap.otherSections n).

(** [Array.from(new Set(xs))]: the first occurrence of each string, in the
    order of insertion. *)
Definition distinct (xs : list string) : list string :=
  fold_left (fun seen x => if bool_decide (x ∈ seen) then seen else seen ++ [x])
    xs [].

Module TrainingModal.

Inductive NoticeKind := success | error | info.

Inductive Event :=
| Notify (message : string) (kind : NoticeKind)
| Update (persona : PersonaProfile.t).

(** The cells of the state that the handlers of the rules and of the
    conditions use. *)
Record State := mkState {
  patterns : list TrainingPair.t;
  logicRules : list LogicRule.t;
  editingId : option string;
  triggerInput : string;
  triggerList : list string;
  responseInput : string;
  timeOfDay : TimeOfDay;
  stagedResponses : list TrainingResponse.t;
  visTag : string;
  audioData : option string;
  editingLogicId : option string;
  conditionTarget : string;
  conditionMonitor : Monitor;
  conditionThreshold : Z;
  conditionAction : Action;
  conditionPayload : string;
  conditionReset : bool }.

(** The state of the form when it is opened for a persona. *)
Definition initialState (persona : PersonaProfile.t) : State :=
  mkState
    (default [] (NeuralMap.customTraining (PersonaProfile.neuralMap persona)))
    (default [] (NeuralMap.logicRules (PersonaProfile.neuralMap persona)))
    None "" [] "" any [] "" None None "" user_says_keyword 3 send_text "" true.

Definition setPatterns (st : State) (v : list TrainingPair.t) : State :=
  mkState v (logicRules st) (editingId st) (triggerInput st) (triggerList st)
    (responseInput st) (timeOfDay st) (stagedResponses st) (visTag st)
    (audioData st) (editingLogicId st) (conditionTarget st)
    (conditionMonitor st) (conditionThreshold st) (conditionAction st)
    (conditionPayload st) (conditionReset st).

Definition setLogicRules (st : State) (v : list LogicRule.t) : State :=
  mkState (patterns st) v (editingId st) (triggerInput st) (triggerList st)
    (responseInput st) (timeOfDay st) (stagedResponses st) (visTag st)
    (audioData st) (editingLogicId st) (conditionTarget st)
    (conditionMonitor st) (conditionThreshold st) (conditionAction st)
    (conditionPayload st) (conditionReset st).

Definition setTriggers (st : State) (input : string) (list : list string)
  : State :=
  mkState (patterns st) (logicRules st) (editingId st) input list
    (responseInput st) (timeOfDay st) (stagedResponses st) (visTag st)
    (audioData st) (editingLogicId st) (conditionTarget st)
    (conditionMonitor st) (conditionThreshold st) (conditionAction st)
    (conditionPayload st) (conditionReset st).

Definition setResponses (st : State) (input : string)
    (staged : list TrainingResponse.t) : State :=
  mkState (patterns st) (logicRules st) (editingId st) (triggerInput st)
    (triggerList st) input (timeOfDay st) staged (visTag st)
    (audioData st) (editingLogicId st) (conditionTarget st)
    (conditionMonitor st) (conditionThreshold st) (conditionAction st)
    (conditionPayload st) (conditionReset st).

Definition cancelEditing (st : State) : State :=
  mkState (patterns st) (logicRules st) None "" [] "" any [] "" None
    (editingLogicId st) (conditionTarget st)
    (conditionMonitor st) (conditionThreshold st) (conditionAction st)
    (conditionPayload st) (conditionReset st).

Definition cancelEditingLogic (st : State) : State :=
  mkState (patterns st) (logicRules st) (editingId st) (triggerInput st)
    (triggerList st) (responseInput st) (timeOfDay st) (stagedResponses st)
    (visTag st) (audioData st) None "" (conditionMonitor st) 3
    (conditionAction st) "" (conditionReset st).

(** [setConditionTarget(""); setConditionPayload("")] *)
Definition clearCondition (st : State) : State :=
  mkState (patterns st) (logicRules st) (editingId st) (triggerInput st)
    (triggerList st) (responseInput st) (timeOfDay st) (stagedResponses st)
    (visTag st) (audioData st) (editingLogicId st) ""
    (conditionMonitor st) (conditionThreshold st) (conditionAction st) ""
    (conditionReset st).

Definition addTrigger (st : State) : State :=
  if negb (JS.truthy (JS.trim (triggerInput st))) then st
  else if negb (bool_decide (JS.trim (triggerInput st) ∈ triggerList st))
  then setTriggers st "" (triggerList st ++ [JS.trim (triggerInput st)])
  else setTriggers st "" (triggerList st).

Definition addStagedResponse (st : State) : State :=
  if negb (JS.truthy (JS.trim (responseInput st))) then st
  else setResponses st ""
         (stagedResponses st
          ++ [TrainingResponse.mk (responseInput st) (Some (timeOfDay st))]).

(** [updatePatterns]: the rules are kept in the state and the persona, with
    these rules, is handed to [onUpdate]. *)
Definition updatePatterns (persona : PersonaProfile.t) (st : State)
    (newPatterns : list TrainingPair.t) : State * list Event :=
  (setPatterns st newPatterns,
   [Update (withNeuralMap persona
              (withCustomTraining (PersonaProfile.neuralMap persona)
                 (Some newPatterns)))]).

Definition updateLogicRules (persona : PersonaProfile.t) (st : State)
    (newRules : list LogicRule.t) : State * list Event :=
  (setLogicRules st newRules,
   [Update (withNeuralMap persona
              (withLogicRules (PersonaProfile.neuralMap persona)
                 (Some newRules)))]).

(** The trigger phrases a save takes: the list, and the trimmed input when
    it is not blank and not in the list. *)
Definition finalTriggersOf (st : State) : list string :=
  if JS.truthy (JS.trim (triggerInput st))
     && negb (bool_decide (JS.trim (triggerInput st) ∈ triggerList st))
  then triggerList st ++ [JS.trim (triggerInput st)]
  else triggerList st.

(** The responses a save takes: the staged ones, and the input when it is
    not blank. *)
Definition typedResponsesOf (st : State) : list TrainingResponse.t :=
  if JS.truthy (JS.trim (responseInput st))
  then stagedResponses st
       ++ [TrainingResponse.mk (responseInput st) (Some (timeOfDay st))]
  else stagedResponses st.

(** The test of [findIndex]: a rule of the type that shares a trigger. *)
Definition sharesTrigger (type : TrainingType) (finalTriggers : list string)
    (p : TrainingPair.t) : bool :=
  bool_decide (TrainingPair.type p = type)
  && match TrainingPair.inputPatterns p with
     | Some existing =>
         existsb (fun existingT => bool_decide (existingT ∈ finalTriggers))
           existing
     | None => false
     end.

Definition mergedRule (existingRule : TrainingPair.t)
    (finalTriggers : list string) (finalResponses : list TrainingResponse.t)
  : TrainingPair.t :=
  TrainingPair.mk (TrainingPair.id existingRule)
    (Some (distinct (default [] (TrainingPair.inputPatterns existingRule)
                     ++ finalTriggers)))
    (TrainingPair.inputPattern existingRule)
    (TrainingPair.responses existingRule ++ finalResponses)
    (TrainingPair.response existingRule)
    (TrainingPair.type existingRule)
    (TrainingPair.imageTag existingRule)
    (TrainingPair.audioData existingRule).

Definition editedRule (st : State) (type : TrainingType)
    (finalTriggers : list string) (finalResponses : list TrainingResponse.t)
    (p : TrainingPair.t) : TrainingPair.t :=
  TrainingPair.mk (TrainingPair.id p)
    (Some finalTriggers)
    (default "" (head finalTriggers))
    finalResponses
    (TrainingPair.response p)
    (TrainingPair.type p)
    (if bool_decide (type = image_trigger) then Some (visTag st) else None)
    (if bool_decide (type = audio_trigger)
     then (if JS.truthyOpt (audioData st) then audioData st
           else TrainingPair.audioData p)
     else None).

Definition newRule (st : State) (now : string) (type : TrainingType)
    (finalTriggers : list string) (finalResponses : list TrainingResponse.t)
  : TrainingPair.t :=
  TrainingPair.mk now
    (Some finalTriggers)
    (default "" (head finalTriggers))
    finalResponses
    None
    type
    (if bool_decide (type = image_trigger) then Some (visTag st) else None)
    (if bool_decide (type = audio_trigger) then audioData st else None).

(** The end of [handleSaveRule]: the rule being edited is replaced, or a new
    rule is put after the others. *)
Definition saveEditedOrNew (persona : PersonaProfile.t) (now : string)
    (type : TrainingType) (st : State) (finalTriggers : list string)
    (finalResponses : list TrainingResponse.t) : State * list Event :=
  if JS.truthyOpt (editingId st) then
    let updatedPatterns :=
      (fun p => if bool_decide (Some (TrainingPair.id p) = editingId st)
                then editedRule st type finalTriggers finalResponses p
                else p) <$> patterns st in
    let '(st, events) := updatePatterns persona st updatedPatterns in
    (cancelEditing st, events ++ [Notify "Rule Updated!" success])
  else
    let newRule := newRule st now type finalTriggers finalResponses in
    let '(st, events) := updatePatterns persona st (patterns st ++ [newRule]) in
    (cancelEditing st, events ++ [Notify "Rule Added!" success]).

Definition handleSaveRule (persona : PersonaProfile.t) (now : string)
    (confirmMerge : bool) (type : TrainingType) (st : State)
  : State * list Event :=
  let finalTriggers := finalTriggersOf st in
  if isEmpty finalTriggers then
    (st, [Notify "Add at least one trigger phrase" error])
  else
    let finalResponses := typedResponsesOf st in
    if isEmpty finalResponses && negb (bool_decide (type = audio_trigger)) then
      (st, [Notify "Add at least one response text" error])
    else
      let finalResponses :=
        if isEmpty finalResponses
        then [TrainingResponse.mk "(Audio Message)" (Some any)]
        else finalResponses in
      if bool_decide (type = image_trigger) && negb (JS.truthy (visTag st)) then
        (st, [Notify "Select an image tag" error])
      else if bool_decide (type = audio_trigger)
              && negb (JS.truthyOpt (audioData st))
              && negb (JS.truthyOpt (editingId st)) then
        (st, [Notify "Please upload audio" error])
      else
        match (if negb (JS.truthyOpt (editingId st))
               then list_find (fun p => sharesTrigger type finalTriggers p = true)
                      (patterns st)
               else None) with
        | Some (existingRuleIndex, existingRule) =>
            if confirmMerge then
              let updatedPatterns :=
                <[existingRuleIndex :=
                    mergedRule existingRule finalTriggers finalResponses]>
                  (patterns st) in
              let '(st, events) := updatePatterns persona st updatedPatterns in
              (cancelEditing st,
               events ++ [Notify "Rules Merged Successfully!" success])
            else
              saveEditedOrNew persona now type st finalTriggers finalResponses
        | None =>
            saveEditedOrNew persona now type st finalTriggers finalResponses
        end.

Definition handleDelete (persona : PersonaProfile.t) (id : string)
    (st : State) : State * list Event :=
  let st' := if bool_decide (editingId st = Some id) then cancelEditing st
             else st in
  let '(st', events) :=
    updatePatterns persona st'
      (filter (fun p => TrainingPair.id p <> id) (patterns st)) in
  (st', events ++ [Notify "Rule Deleted" info]).

Definition monitorName (m : Monitor) : string :=
  match m with
  | user_says_keyword => "user_says_keyword"
  | bot_sends_imagetag => "bot_sends_imagetag"
  end.

Definition actionName (a : Action) : string :=
  match a with
  | send_text => "send_text"
  | send_image_tag => "send_image_tag"
  | send_audio => "send_audio"
  end.

(** The condition the form describes; its target is put in lower case and
    trimmed. *)
Definition conditionOf (st : State) (id : string) : LogicRule.t :=
  LogicRule.mk id
    (monitorName (conditionMonitor st) +:+ " -> "
     +:+ actionName (conditionAction st))
    (conditionMonitor st)
    (JS.trim (JS.toLowerCase (conditionTarget st)))
    (conditionThreshold st)
    (conditionAction st)
    (conditionPayload st)
    (conditionReset st).

Definition handleSaveCondition (persona : PersonaProfile.t) (now : string)
    (st : State) : State * list Event :=
  if negb (JS.truthy (conditionTarget st))
     || negb (JS.truthy (conditionPayload st)) then
    (st, [Notify "Please fill in all fields" error])
  else if JS.truthyOpt (editingLogicId st) then
    let updatedRules :=
      (fun r => if bool_decide (Some (LogicRule.id r) = editingLogicId st)
                then conditionOf st (LogicRule.id r)
                else r) <$> logicRules st in
    let '(st, events) := updateLogicRules persona st updatedRules in
    (cancelEditingLogic st, events ++ [Notify "Condition Updated!" success])
  else
    let newRule := conditionOf st now in
    let '(st, events) :=
      updateLogicRules persona st (logicRules st ++ [newRule]) in
    (clearCondition st, events ++ [Notify "Condition Added!" success]).

Definition handleDeleteLogic (persona : PersonaProfile.t) (id : string)
    (st : State) : State * list Event :=
  let st' := if bool_decide (editingLogicId st = Some id)
             then cancelEditingLogic st else st in
  let '(st', events) :=
    updateLogicRules persona st'
      (filter (fun r => LogicRule.id r <> id) (logicRules st)) in
  (st', events ++ [Notify "Condition Deleted" info]).

End TrainingModal.

(** ** Rules the engine can use *)

(** The rule has a trigger phrase and a response, an image rule has a tag
    and a voice rule has a recording. *)
Definition usable (p : TrainingPair.t) : bool :=
  negb (isEmpty (patternsOf p))
  && negb (isEmpty (TrainingPair.responses p))
  && match TrainingPair.type p with
     | text => true
     | image_trigger => JS.truthyOpt (TrainingPair.imageTag p)
     | audio_trigger => JS.truthyOpt (TrainingPair.audioData p)
     end.

(** A trigger phrase as the form keeps it: trimmed and not empty. *)
Definition cleanTrigger (t : string) : bool :=
  JS.truthy t && String.eqb (JS.trim t) t.

(** What stops a save: no trigger phrase, no response for a rule that is not
    a voice rule, no tag for an image rule, no recording for a new voice
    rule. *)
Definition incomplete (type : TrainingType) (st : TrainingModal.State) : bool :=
  isEmpty (TrainingModal.finalTriggersOf st)
  || isEmpty (TrainingModal.typedResponsesOf st)
     && negb (bool_decide (type = audio_trigger))
  || bool_decide (type = image_trigger)
     && negb (JS.truthy (TrainingModal.visTag st))
  || bool_decide (type = audio_trigger)
     && negb (JS.truthyOpt (TrainingModal.audioData st))
     && negb (JS.truthyOpt (TrainingModal.editingId st)).

(** The persona the form hands to [onUpdate] with the rules [rules]. *)
Definition withRules (persona : PersonaProfile.t)
    (rules : list TrainingPair.t) : PersonaProfile.t :=
  withNeuralMap persona
    (withCustomTraining (PersonaProfile.neuralMap persona) (Some rules)).

(** The responses a save stores: those typed, or the placeholder of a voice
    rule without text. *)
Definition savedResponsesOf (st : TrainingModal.State)
  : list TrainingResponse.t :=
  if isEmpty (TrainingModal.typedResponsesOf st)
  then [TrainingResponse.mk "(Audio Message)" (Some any)]
  else TrainingModal.typedResponsesOf st.

(** ** The first rule of a persona *)

(** What the turn of a persona with one rule and no logic rule leaves of the
    persona: its memory, with a table of counters. *)
Definition afterTurn (persona : PersonaProfile.t) : PersonaProfile.t :=
  withMemory persona (workingMemory persona).

(** ** Conditions saved in the form *)

(** The persona the form hands to [onUpdate] with the conditions
    [conditions]. *)
Definition withConditions (persona : PersonaProfile.t)
    (conditions : list LogicRule.t) : PersonaProfile.t :=
  withNeuralMap persona
    (withLogicRules (PersonaProfile.neuralMap persona) (Some conditions)).

(** The keyword the form stores for what was typed. *)
Definition keywordOf (st : TrainingModal.State) : string :=
  JS.trim (JS.toLowerCase (TrainingModal.conditionTarget st)).

(** How often the string is among the tokens of the message. *)
Definition tokenCount (token messageContent : string) : Z :=
  Z.of_nat (length (filter (fun t => t = token) (tokenize messageContent))).

(** ** Worked examples of the form *)

Module DemoForm.

(** The form of a persona that has the rule [Demo.greeting], with a trigger
    phrase and a response typed in. *)
Definition typed (trigger response : string) : TrainingModal.State :=
  TrainingModal.mkState [Demo.greeting] [] None trigger ["hello"] response any
    [] "" None None "" user_says_keyword 3 send_text "" true.

(** The same form while the rule [Demo.greeting] is edited. *)
Definition editing (trigger response : string) : TrainingModal.State :=
  TrainingModal.mkState [Demo.greeting] [] (Some "1") trigger ["hi"] response
    any [Demo.response "Hello!"] "" None None "" user_says_keyword 3 send_text
    "" true.

End DemoForm.

(** ** Merging into a rule *)

(** The first rule of the form that a save of the type would be merged into,
    with its position. *)
Definition mergeTarget (type : TrainingType) (st : TrainingModal.State)
  : option (nat * TrainingPair.t) :=
  list_find
    (fun p => TrainingModal.sharesTrigger type
                (TrainingModal.finalTriggersOf st) p = true)
    (TrainingModal.patterns st).

Module DemoMerge.

(** An image rule of the form, and the form with a phrase of that rule and
    another tag typed in. *)
Definition beachRule : TrainingPair.t :=
  Demo.rule "7" "beach" "Here you go." image_trigger (Some "beach").

Definition form : TrainingModal.State :=
  TrainingModal.mkState [Demo.greeting; beachRule] [] None "sea" ["beach"]
    "Look!" any [] "sunset" None None "" user_says_keyword 3 send_text ""
    true.

End DemoMerge.

(** ** Rules in the legacy format *)

Module DemoLegacy.

(** A rule with the single phrase and the single response of the legacy
    format, without a list of phrases and with an empty list of responses. *)
Definition rule : TrainingPair.t :=
  TrainingPair.mk "9" None "who are you" [] (Some "I am Sam.") text None None.

End DemoLegacy.

(** ** Themes ([themes], [applyTheme], [getSavedTheme]) *)

Module Theme.

Record Colors := mkColors {
  primary : string;
  onPrimary : string;
  secondary : string;
  darker : string;
  dark : string;
  surface : string;
  textMain : string;
  textMuted : string }.

Record t := mk {
  id : string;
  name : string;
  colors : Colors }.

End Theme.

(** The first theme of the table. *)
Definition original : Theme.t :=
  Theme.mk "original" "SoulSync Original"
    (Theme.mkColors "#6366f1" "#ffffff" "#a855f7" "#020617" "#0f172a"
       "#1e293b" "#f8fafc" "#94a3b8").

Definition themes : list Theme.t :=
  [original;
   Theme.mk "midnight" "Midnight Blue"
     (Theme.mkColors "#38bdf8" "#000000" "#2563eb" "#000000" "#0c0a09"
        "#171717" "#f8fafc" "#64748b");
   Theme.mk "forest" "Neon Forest"
     (Theme.mkColors "#10b981" "#000000" "#a3e635" "#052e16" "#064e3b"
        "#065f46" "#ecfccb" "#6ee7b7");
   Theme.mk "crimson" "Cyber Samurai"
     (Theme.mkColors "#f43f5e" "#ffffff" "#f59e0b" "#1f040b" "#2c0612"
        "#4c0519" "#ffe4e6" "#fda4af");
   Theme.mk "daylight" "Clean Day"
     (Theme.mkColors "#4f46e5" "#ffffff" "#9333ea" "#f8fafc" "#f1f5f9"
        "#ffffff" "#0f172a" "#475569");
   Theme.mk "sunset" "Sunset Drive"
     (Theme.mkColors "#f472b6" "#000000" "#22d3ee" "#2e1065" "#4c1d95"
        "#5b21b6" "#fae8ff" "#c084fc");
   Theme.mk "noir" "Noir Monochrome"
     (Theme.mkColors "#ffffff" "#000000" "#a3a3a3" "#000000" "#0a0a0a"
        "#171717" "#ffffff" "#737373");
   Theme.mk "zen" "Zen Garden"
     (Theme.mkColors "#84cc16" "#000000" "#14b8a6" "#1c1917" "#292524"
        "#44403c" "#f5f5f4" "#a8a29e");
   Theme.mk "abyss" "Deep Abyss"
     (Theme.mkColors "#2dd4bf" "#000000" "#38bdf8" "#082f49" "#0c4a6e"
        "#075985" "#f0f9ff" "#7dd3fc");
   Theme.mk "solar" "Solar Flare"
     (Theme.mkColors "#fb923c" "#000000" "#facc15" "#450a0a" "#7f1d1d"
        "#991b1b" "#fff7ed" "#fdba74")].

Definition STORAGE_KEY : string := "soulsync_theme_pref".

(** What [applyTheme] writes to: the custom properties of the root element,
    the content of the [theme-color] element of the page when there is one,
    and the local storage. *)
Record Page := mkPage {
  style : gmap string string;
  themeColor : option string;
  localStorage : gmap string string }.

(** [themes.find(t => t.id === themeId) || themes[0]] *)
Definition themeFor (themeId : string) : Theme.t :=
  match find (fun t => String.eqb (Theme.id t) themeId) themes with
  | Some theme => theme
  | None => original
  end.

Definition setColors (colors : Theme.Colors) (style : gmap string string)
  : gmap string string :=
  <["--color-text-muted" := Theme.textMuted colors]>
    (<["--color-text-main" := Theme.textMain colors]>
       (<["--color-bg-surface" := Theme.surface colors]>
          (<["--color-bg-dark" := Theme.dark colors]>
             (<["--color-bg-darker" := Theme.darker colors]>
                (<["--color-secondary" := Theme.secondary colors]>
                   (<["--color-on-primary" := Theme.onPrimary colors]>
                      (<["--color-primary" := Theme.primary colors]>
                         style))))))).

Definition applyTheme (themeId : string) (page : Page) : Page :=
  let theme := themeFor themeId in
  mkPage (setColors (Theme.colors theme) (style page))
    (match themeColor page with
     | Some _ => Some (Theme.darker (Theme.colors theme))
     | None => None
     end)
    (<[STORAGE_KEY := themeId]> (localStorage page)).

(** [localStorage.getItem(STORAGE_KEY) || 'original'] *)
Definition getSavedTheme (page : Page) : string :=
  if JS.truthyOpt (localStorage page !! STORAGE_KEY)
  then default "" (localStorage page !! STORAGE_KEY)
  else "original".

(** The colours the custom properties of a style hold. *)
Definition colorsOf (style : gmap string string) : option Theme.Colors :=
  primary ← style !! "--color-primary";
  onPrimary ← style !! "--color-on-primary";
  secondary ← style !! "--color-secondary";
  darker ← style !! "--color-bg-darker";
  dark ← style !! "--color-bg-dark";
  surface ← style !! "--color-bg-surface";
  textMain ← style !! "--color-text-main";
  textMuted ← style !! "--color-text-muted";
  Some (Theme.mkColors primary onPrimary secondary darker dark surface
          textMain textMuted).

(** * Properties *)

(** ** Rules for reasoning about runs *)

Lemma wp_ret {A} (a : A) w s (Q : A -> Run -> Prop) :
  Q a s -> wp (ret a) w s Q.
Proof. done. Qed.

Lemma wp_bind {A B} (m : M A) (k : A -> M B) w s (Q : B -> Run -> Prop) :
  wp m w s (fun a s' => wp (k a) w s' Q) -> wp (bind m k) w s Q.
Proof. unfold wp, bind. by destruct (m w s) as [[a|e] s']. Qed.

Lemma wp_mono {A} (m : M A) w s (P Q : A -> Run -> Prop) :
  wp m w s P -> (forall a s', P a s' -> Q a s') -> wp m w s Q.
Proof. unfold wp. destruct (m w s) as [[a|e] s']; [auto | done]. Qed.

Lemma wp_returned {A} (m : M A) w s (Q : A -> Run -> Prop) :
  wp m w s Q <-> exists a s', m w s = (Returned a, s') /\ Q a s'.
Proof.
  unfold wp. destruct (m w s) as [[a|e] s']; split.
  - eauto.
  - by intros (? & ? & [= <- <-] & ?).
  - done.
  - by intros (? & ? & [=] & ?).
Qed.

Lemma wp_getHours w s (Q : nat -> Run -> Prop) :
  Q (hour w) s -> wp getHours w s Q.
Proof. done. Qed.

Lemma wp_consoleWrite e w s (Q : unit -> Run -> Prop) :
  Q tt (mkRun (draws s) (queries s) (console s ++ [e])) ->
  wp (consoleWrite e) w s Q.
Proof. done. Qed.

(** [getRandomElement] returns [null] for an empty array and one of the
    elements otherwise. *)
Lemma wp_getRandomElement {A} (arr : list A) w s (Q : option A -> Run -> Prop) :
  (arr = [] -> Q None s) ->
  (forall x, x ∈ arr ->
     Q (Some x) (mkRun (S (draws s)) (queries s) (console s))) ->
  wp (getRandomElement arr) w s Q.
Proof.
  intros Hnil Hcons. destruct arr as [|a arr]; [by apply wp_ret, Hnil|].
  unfold getRandomElement. apply wp_bind. unfold wp, mathRandom. simpl fst.
  cbv beta iota. unfold ret.
  destruct ((a :: arr) !! (random w (draws s) mod length (a :: arr))%nat)
    as [x|] eqn:Hx.
  - apply Hcons. by eapply list_elem_of_lookup_2.
  - apply lookup_ge_None in Hx.
    pose proof (Nat.mod_upper_bound (random w (draws s)) (length (a :: arr))).
    simpl in *. lia.
Qed.

(** ** Audio input *)

Lemma getRandomElement_returns {A} (arr : list A) w s :
  arr <> [] ->
  exists x, x ∈ arr /\
    getRandomElement arr w s
    = (Returned (Some x), mkRun (S (draws s)) (queries s) (console s)).
Proof.
  intros Hne.
  pose proof (wp_getRandomElement arr w s
    (fun o s' => exists x, x ∈ arr /\ o = Some x
                 /\ s' = mkRun (S (draws s)) (queries s) (console s))) as H.
  apply wp_returned in H as (o & s' & Heq & x & Hx & -> & ->); [eauto|done|eauto].
Qed.

(** Every element of the array can be the one drawn. *)
Lemma getRandomElement_at {A} (arr : list A) (i : nat) (x : A) w s :
  arr !! i = Some x ->
  random w (draws s) = i ->
  getRandomElement arr w s = (Returned (Some x), countDraw s).
Proof.
  intros Hi Hr. pose proof (lookup_lt_Some _ _ _ Hi) as Hlt.
  unfold getRandomElement. destruct arr as [|a arr]; [done|].
  unfold bind, mathRandom, ret, countDraw.
  rewrite Hr, Nat.mod_small by done. by rewrite Hi.
Qed.

(** A voice message: one draw among the canned replies, and nothing else. *)
Lemma audio_turn_run persona messageContent history w s :
  exists t,
    processOfflineMessage persona messageContent AUDIO history w s
    = (Returned (Reply.mk t None None persona),
       mkRun (S (draws s)) (queries s) (console s))
    /\ t ∈ audioResponses.
Proof.
  destruct (getRandomElement_returns audioResponses w s) as (t & Ht & Heq);
    [done|].
  exists t. split; [|done].
  transitivity
    ((let* picked := getRandomElement audioResponses in
      ret (Reply.mk (default "" picked) None None persona)) w s);
    [reflexivity|].
  unfold bind. by rewrite Heq.
Qed.

(** C8. A voice message is answered with one of the five canned replies, with
    no image and no audio, and the persona is returned as it was given: the
    run draws one random number, queries no image store and prints nothing,
    whatever the persona's rules, counters and pending question are. *)
Theorem audio_turn_is_canned :
  forall persona messageContent history w s,
    length audioResponses = 5%nat /\
    exists t,
      processOfflineMessage persona messageContent AUDIO history w s
      = (Returned (Reply.mk t None None persona),
         mkRun (S (draws s)) (queries s) (console s))
      /\ t ∈ audioResponses.
Proof.
  intros persona messageContent history w s. split; [done|].
  apply audio_turn_run.
Qed.

(** ** Symbolic execution of the phases *)

Lemma searchImages_run personaId tags w s :
  searchImages personaId tags w s =
  match storedImages w (queries s) personaId with
  | Some all => (Returned (tagged tags all), countQuery s)
  | None => (Thrown "request.error", countQuery s)
  end.
Proof.
  unfold searchImages, bind, getImagesByPersona, countQuery.
  by destruct (storedImages w (queries s) personaId).
Qed.

(** A query of the store inside a [try]: either it resolves and the rest of
    the body runs, or it rejects and the handler runs. *)
Lemma wp_try_searchImages {A} personaId tags (k : list DBImage.t -> M A)
    (handler : string -> M A) w s (Q : A -> Run -> Prop) :
  (forall all, storedImages w (queries s) personaId = Some all ->
     wp (k (tagged tags all)) w (countQuery s) Q) ->
  (storedImages w (queries s) personaId = None ->
     wp (handler "request.error") w (countQuery s) Q) ->
  wp (tryCatch (bind (searchImages personaId tags) k) handler) w s Q.
Proof.
  intros Hsome Hnone. unfold wp, tryCatch, bind.
  rewrite searchImages_run.
  destruct (storedImages w (queries s) personaId) as [all|].
  - specialize (Hsome all eq_refl). unfold wp in Hsome.
    by destruct (k (tagged tags all) w (countQuery s)) as [[a|e] s'].
  - by apply Hnone.
Qed.

Lemma isEmpty_false_ne {A} (l : list A) : isEmpty l = false -> l <> [].
Proof. by destruct l. Qed.

Lemma isEmpty_true_nil {A} (l : list A) : isEmpty l = true -> l = [].
Proof. by destruct l. Qed.

(** Drawing from an array known not to be empty, and reading the element. *)
Lemma wp_pick {A} (arr : list A) (k : A -> M Locals) w s
    (Q : Locals -> Run -> Prop) :
  isEmpty arr = false ->
  (forall x, x ∈ arr -> wp (k x) w (countDraw s) Q) ->
  wp (let* picked := getRandomElement arr in
      let* selected := deref picked in k selected) w s Q.
Proof.
  intros Hne Hk. apply wp_bind, wp_getRandomElement.
  - intros ->. done.
  - intros x Hx. apply wp_bind. simpl. by apply Hk.
Qed.

Section PhaseInvariants.

Variable personaId : string.
Variable w : World.
(** A property of the local variables and of the run. *)
Variable I : Locals -> Run -> Prop.

Hypothesis I_draw : forall l s, I l s -> I l (countDraw s).
Hypothesis I_setText : forall l s t, I l s -> I (setText l t) s.
Hypothesis I_setAudio : forall l s a, I l s -> I (setAudio l a) s.

Lemma executeTextRule_inv currentPhase best l s :
  I l s ->
  wp (executeTextRule currentPhase best l) w s I.
Proof.
  intros HI. destruct best as [m|]; [|by apply wp_ret].
  unfold executeTextRule.
  match goal with |- wp (if negb (isEmpty ?c) then _ else _) _ _ _ =>
    destruct (isEmpty c) eqn:Hc end; [by apply wp_ret|].
  apply wp_pick; [done|]. intros x _. apply wp_ret. auto.
Qed.

Lemma executeAudioRule_inv best l s :
  I l s ->
  wp (executeAudioRule best l) w s I.
Proof.
  intros HI. destruct best as [m|]; [|by apply wp_ret].
  unfold executeAudioRule.
  destruct (JS.truthyOpt _); [|by apply wp_ret].
  destruct (negb (JS.truthy _)); [|apply wp_ret; auto].
  destruct (isEmpty _) eqn:Hc; [apply wp_ret; auto|].
  apply wp_pick; [done|]. intros x _.
  destruct (_ && _); apply wp_ret; auto.
Qed.

(** What sending an image does to the local variables. *)
Hypothesis I_query : forall l s all,
  storedImages w (queries s) personaId = Some all ->
  I l s -> I l (countQuery s).
Hypothesis I_failed : forall l s,
  storedImages w (queries s) personaId = None ->
  I l s ->
  I l (mkRun (draws s) (S (queries s)) (console s ++ [FailedToFetchImage])).
Hypothesis I_send : forall l s all imageTag img seenIds,
  storedImages w (queries s) personaId = Some all ->
  img ∈ (antiRepetition (tagged [imageTag] all)
           (default [] (Memory.lastSentImageIds (memory l)))).1 ->
  seenIds = (antiRepetition (tagged [imageTag] all)
               (default [] (Memory.lastSentImageIds (memory l)))).2 ->
  I l s ->
  I (pushEventTag
       (setMemory (setImage l (Some (DBImage.data img)))
          (withLastSentImageIds (memory l)
             (Some (seenIds ++ [DBImage.id img]))))
       imageTag)
    (countDraw (countQuery s)).

Lemma executeImageRule_inv currentPhase best l s :
  I l s ->
  wp (executeImageRule personaId currentPhase best l) w s I.
Proof.
  intros HI. destruct best as [m|]; [|by apply wp_ret].
  unfold executeImageRule. apply wp_bind.
  set (post := fun (l' : Locals) (s' : Run) =>
    I l' s' /\ memory l' = memory l).
  assert (Hcap : wp
    (if negb (isEmpty (phaseCandidates currentPhase (Match.rule m)))
     then
       let* picked := getRandomElement
                        (phaseCandidates currentPhase (Match.rule m)) in
       let* selected := deref picked in
       if JS.truthy (TrainingResponse.text selected)
          && negb (JS.truthy (responseText l))
       then ret (setText l (TrainingResponse.text selected))
       else ret l
     else ret l) w s post).
  { destruct (isEmpty _) eqn:Hc; [by apply wp_ret|].
    apply wp_pick; [done|]. intros x _.
    destruct (_ && _); apply wp_ret; split; auto. }
  eapply wp_mono; [exact Hcap|]. clear Hcap.
  intros l1 s1 [HI1 Hmem].
  destruct (JS.truthyOpt _); [|by apply wp_ret].
  apply wp_try_searchImages.
  - intros all Hall.
    destruct (isEmpty _) eqn:Hc; [apply wp_ret; eauto|]. simpl negb.
    cbv iota. unfold sendTaggedImage.
    destruct (antiRepetition _ _) as [candidates seenIds] eqn:Har.
    apply wp_bind, wp_getRandomElement.
    + intros _. apply wp_ret. eauto.
    + intros img Himg. apply wp_ret.
      eapply (I_send l1 s1 all); eauto; by rewrite Har.
  - intros Hnone. apply wp_bind, wp_consoleWrite, wp_ret. simpl.
    by apply I_failed.
Qed.

End PhaseInvariants.

Lemma customTrainingPhase_run personaId currentPhase map lowerMsg userTokenSet l :
  customTrainingPhase personaId currentPhase map lowerMsg userTokenSet l =
  match NeuralMap.customTraining map with
  | Some (r :: rs) =>
      let best := bestMatches lowerMsg userTokenSet (r :: rs) in
      let* l := executeTextRule currentPhase (bestTextMatch best) l in
      let* l := executeImageRule personaId currentPhase (bestImageMatch best) l in
      executeAudioRule (bestAudioMatch best) l
  | _ => ret l
  end.
Proof. reflexivity. Qed.

(** A property of the local variables that drawing, setting the text or the
    audio, and sending an image of the store preserve, holds after phase 2. *)
Lemma customTrainingPhase_inv personaId w (I : Locals -> Run -> Prop)
    currentPhase map lowerMsg userTokenSet l s :
  (forall l s, I l s -> I l (countDraw s)) ->
  (forall l s t, I l s -> I (setText l t) s) ->
  (forall l s a, I l s -> I (setAudio l a) s) ->
  (forall l s,
     storedImages w (queries s) personaId = None ->
     I l s ->
     I l (mkRun (draws s) (S (queries s)) (console s ++ [FailedToFetchImage]))) ->
  (forall l s all,
     storedImages w (queries s) personaId = Some all ->
     I l s -> I l (countQuery s)) ->
  (forall l s all imageTag img seenIds,
     storedImages w (queries s) personaId = Some all ->
     img ∈ (antiRepetition (tagged [imageTag] all)
              (default [] (Memory.lastSentImageIds (memory l)))).1 ->
     seenIds = (antiRepetition (tagged [imageTag] all)
                  (default [] (Memory.lastSentImageIds (memory l)))).2 ->
     I l s ->
     I (pushEventTag
          (setMemory (setImage l (Some (DBImage.data img)))
             (withLastSentImageIds (memory l)
                (Some (seenIds ++ [DBImage.id img]))))
          imageTag)
       (countDraw (countQuery s))) ->
  I l s ->
  wp (customTrainingPhase personaId currentPhase map lowerMsg userTokenSet l)
    w s I.
Proof.
  intros Hd Ht Ha Hf Hq Hs HI. rewrite customTrainingPhase_run.
  destruct (NeuralMap.customTraining map) as [[|r rs]|]; try by apply wp_ret.
  cbv zeta. apply wp_bind.
  eapply wp_mono; [by apply executeTextRule_inv|]. intros l1 s1 HI1.
  apply wp_bind.
  eapply wp_mono; [by apply executeImageRule_inv|]. intros l2 s2 HI2.
  by apply executeAudioRule_inv.
Qed.

(** *** Step 2b *)

Lemma wp_conj {A} (m : M A) w s (P Q : A -> Run -> Prop) :
  wp m w s P -> wp m w s Q -> wp m w s (fun a s' => P a s' /\ Q a s').
Proof. unfold wp. by destruct (m w s) as [[a|e] s']. Qed.

Lemma antiRepetition_candidates images seen :
  images <> [] -> (antiRepetition images seen).1 <> [].
Proof.
  intros Hne. unfold antiRepetition.
  destruct (filter _ images) eqn:Hc; simpl; done.
Qed.

(** What step 2b leaves is a matter of the tags, the image and the memory. *)
Lemma imageStepPost_ext personaId w best l0 s0 l s l1 l2 :
  eventTagsTriggered l = eventTagsTriggered l0 ->
  responseImage l = responseImage l0 ->
  memory l = memory l0 ->
  queries s = queries s0 ->
  eventTagsTriggered l2 = eventTagsTriggered l1 ->
  responseImage l2 = responseImage l1 ->
  memory l2 = memory l1 ->
  imageStepPost personaId w best l s l1 ->
  imageStepPost personaId w best l0 s0 l2.
Proof.
  unfold imageStepPost, nothingSent, imageSent, seenOf.
  by intros -> -> -> -> -> -> ->.
Qed.

Lemma executeImageRule_outcome personaId currentPhase best l w s :
  wp (executeImageRule personaId currentPhase best l) w s
    (fun l' _ => imageStepPost personaId w best l s l').
Proof.
  destruct best as [m|]; [|by apply wp_ret].
  unfold executeImageRule. apply wp_bind.
  set (post := fun (l' : Locals) (s' : Run) =>
    eventTagsTriggered l' = eventTagsTriggered l
    /\ responseImage l' = responseImage l
    /\ memory l' = memory l /\ queries s' = queries s).
  assert (Hcap : wp
    (if negb (isEmpty (phaseCandidates currentPhase (Match.rule m)))
     then
       let* picked := getRandomElement
                        (phaseCandidates currentPhase (Match.rule m)) in
       let* selected := deref picked in
       if JS.truthy (TrainingResponse.text selected)
          && negb (JS.truthy (responseText l))
       then ret (setText l (TrainingResponse.text selected))
       else ret l
     else ret l) w s post).
  { destruct (isEmpty _) eqn:Hc; [by apply wp_ret|].
    apply wp_pick; [done|]. intros x _.
    destruct (_ && _); by apply wp_ret. }
  eapply wp_mono; [exact Hcap|]. clear Hcap.
  intros l1 s1 (He & Hi & Hm & Hq).
  eapply wp_mono.
  2: { intros l' s' H.
       exact (imageStepPost_ext personaId w (Some m) l s l1 s1 l' l'
                He Hi Hm Hq eq_refl eq_refl eq_refl H). }
  unfold imageStepPost.
  destruct (TrainingPair.imageTag (Match.rule m)) as [imageTag|] eqn:Htag;
    simpl JS.truthyOpt.
  2: { by apply wp_ret. }
  destruct (JS.truthy imageTag) eqn:Htruthy.
  2: { apply wp_ret. by destruct (storedImages _ _ _). }
  simpl default. apply wp_try_searchImages.
  - intros all Hall. rewrite Hall. simpl andb.
    destruct (isEmpty (tagged [imageTag] all)) eqn:Hc; simpl negb; cbv iota.
    { by apply wp_ret. }
    unfold sendTaggedImage.
    pose proof (antiRepetition_candidates (tagged [imageTag] all) (seenOf l1)
                  (isEmpty_false_ne _ Hc)) as Hcands.
    unfold imageSent, seenOf in *.
    destruct (antiRepetition _ _) as [candidates seenIds] eqn:Har.
    apply wp_bind, wp_getRandomElement.
    + intros ->. done.
    + intros img Himg. apply wp_ret. by exists img.
  - intros Hnone. rewrite Hnone.
    by apply wp_bind, wp_consoleWrite, wp_ret.
Qed.

(** Phase 2 sends an image in step 2b only. *)
Lemma customTrainingPhase_outcome personaId currentPhase map lowerMsg
    userTokenSet l w s :
  wp (customTrainingPhase personaId currentPhase map lowerMsg userTokenSet l)
    w s
    (fun l' _ =>
       imageStepPost personaId w (bestImageOf map lowerMsg userTokenSet)
         l s l').
Proof.
  rewrite customTrainingPhase_run. unfold bestImageOf.
  destruct (NeuralMap.customTraining map) as [[|r rs]|]; simpl default;
    try by apply wp_ret.
  cbv zeta. apply wp_bind.
  eapply wp_mono.
  { apply (executeTextRule_inv w
      (fun l' s' =>
         eventTagsTriggered l' = eventTagsTriggered l
         /\ responseImage l' = responseImage l
         /\ memory l' = memory l /\ queries s' = queries s)); done. }
  intros l1 s1 (He & Hi & Hm & Hq). apply wp_bind.
  eapply wp_mono; [apply executeImageRule_outcome|].
  intros l2 s2 H2.
  apply (executeAudioRule_inv w
    (fun l' _ =>
       imageStepPost personaId w
         (bestImageMatch (bestMatches lowerMsg userTokenSet (r :: rs)))
         l s l')).
  - done.
  - intros l' s' t H.
    by apply (imageStepPost_ext _ _ _ l s l s l' (setText l' t)).
  - intros l' s' a H.
    by apply (imageStepPost_ext _ _ _ l s l s l' (setAudio l' a)).
  - by apply (imageStepPost_ext _ _ _ l s l1 s1 l2 l2).
Qed.

(** *** The logic engine *)

Lemma imageFromStore_refl personaId w from upto image :
  imageFromStore personaId w from upto image image.
Proof. by left. Qed.

Lemma imageFromStore_trans personaId w a b c x y z :
  (a <= b)%nat -> (b <= c)%nat ->
  imageFromStore personaId w a b x y ->
  imageFromStore personaId w b c y z ->
  imageFromStore personaId w a c x z.
Proof.
  intros Hab Hbc [->|(q & all & img & Hq & Hs & Hi & ->)]
    [->|(q' & all' & img' & Hq' & Hs' & Hi' & ->)].
  - by left.
  - right. exists q', all', img'. split; [lia|done].
  - right. exists q, all, img. split; [lia|done].
  - right. exists q', all', img'. split; [lia|done].
Qed.

Lemma imageFromStore_rejected personaId w from upto image :
  (forall q, storedImages w q personaId = None) ->
  imageFromStore personaId w from upto None image -> image = None.
Proof.
  intros Hno [->|(q & all & img & _ & Hs & _)]; [done|].
  by rewrite Hno in Hs.
Qed.

Lemma tagged_subseteq tags all img : img ∈ tagged tags all -> img ∈ all.
Proof. unfold tagged. by intros [_ ?]%list_elem_of_filter. Qed.

Lemma checkRule_spec personaId w rule state l s :
  wp (checkRule personaId (state, l) rule) w s
    (checkRulePost personaId w rule state l s).
Proof.
  unfold checkRule, checkRulePost, stateAfter.
  destruct (triggered rule state) eqn:Htr.
  2: { apply wp_ret. simpl. rewrite app_nil_r.
       repeat split; try done. apply imageFromStore_refl. }
  apply wp_bind, wp_consoleWrite, wp_bind.
  set (s1 := mkRun _ _ _).
  set (post := fun (l' : Locals) (s' : Run) =>
    console s' = console s1 /\ memory l' = memory l
    /\ eventTagsTriggered l' = eventTagsTriggered l
    /\ ((queries s <= queries s')%nat
        /\ imageFromStore personaId w (queries s) (queries s')
             (responseImage l) (responseImage l'))).
  assert (Hact : wp
    match LogicRule.action rule with
    | send_text =>
        if JS.truthy (responseText l)
        then ret (setText l
                    (responseText l +:+ " " +:+ LogicRule.actionPayload rule))
        else ret (setText l (LogicRule.actionPayload rule))
    | send_image_tag =>
        tryCatch
          (let* taggedImages :=
             searchImages personaId [LogicRule.actionPayload rule] in
           let* selectedImg := getRandomElement taggedImages in
           match selectedImg with
           | Some img => ret (setImage l (Some (DBImage.data img)))
           | None => ret l
           end)
          (fun e => ret l)
    | send_audio => ret (setAudio l (Some (LogicRule.actionPayload rule)))
    end w s1 post).
  { destruct (LogicRule.action rule).
    - destruct (JS.truthy _); apply wp_ret; repeat split; try done;
        apply imageFromStore_refl.
    - apply wp_try_searchImages.
      + intros all Hall. apply wp_bind, wp_getRandomElement.
        * intros _. apply wp_ret. repeat split; try done; simpl; [lia|].
          apply imageFromStore_refl.
        * intros img Himg. apply wp_ret. repeat split; try done; simpl; [lia|].
          right. exists (queries s), all, img.
          split; [lia|]. split; [done|]. split; [|done].
          by eapply tagged_subseteq.
      + intros _. apply wp_ret. repeat split; try done; simpl; [lia|].
        apply imageFromStore_refl.
    - apply wp_ret. repeat split; try done. apply imageFromStore_refl. }
  eapply wp_mono; [exact Hact|]. clear Hact.
  intros l' s' (Hc & Hm & He & Hq & Hi). apply wp_ret. simpl.
  repeat split; done.
Qed.

Lemma checkRules_spec personaId w rules : forall state l s,
  wp (forOf (checkRule personaId) rules (state, l)) w s
    (checkRulesPost personaId w rules state l s).
Proof.
  induction rules as [|rule rules IH]; intros state l s.
  - apply wp_ret. unfold checkRulesPost. simpl. rewrite app_nil_r.
    repeat split; try done. apply imageFromStore_refl.
  - simpl forOf. apply wp_bind.
    eapply wp_mono; [apply checkRule_spec|].
    intros [state1 l1] s1 (Hst & Hc & Hm & He & Hn & Hi). simpl in *.
    subst state1.
    eapply wp_mono; [apply IH|].
    intros [state2 l2] s2 (Hst2 & Hc2 & Hm2 & He2 & Hn2 & Hi2). simpl in *.
    unfold checkRulesPost. simpl.
    destruct Hi as [Hq Hi], Hi2 as [Hq2 Hi2].
    split; [done|]. split.
    { rewrite Hc2, Hc, fmap_app, app_assoc. f_equal. f_equal.
      by destruct (triggered rule state). }
    split; [congruence|]. split; [congruence|]. split.
    { intros Hnil. destruct (triggered rule state) eqn:Htr; [done|].
      simpl in Hnil. destruct (Hn eq_refl) as [-> ->]. by apply Hn2. }
    split; [lia|]. by eapply imageFromStore_trans.
Qed.

Lemma logicEngine_spec personaId w map userTokens l s :
  wp (logicEngine personaId map userTokens l) w s
    (logicEnginePost personaId w map userTokens l s).
Proof.
  unfold logicEngine, logicEnginePost.
  destruct (NeuralMap.logicRules map) as [[|r rs]|]; try by apply wp_ret.
  cbv zeta. apply wp_bind.
  eapply wp_mono; [apply checkRules_spec|].
  intros [state' l'] s' (Hst & Hc & Hm & He & Hn & Hi). simpl in *.
  apply wp_ret. simpl. unfold countersChecked.
  split; [by rewrite Hm, Hst|].
  split; [done|]. split; [done|]. split; [|done].
  intros Hnone. by destruct (Hn Hnone) as [-> ->].
Qed.

(** A logic rule changes the image of the reply only when it is triggered
    and its action is to send an image. *)
Lemma checkRule_image personaId w rule state l s :
  wp (checkRule personaId (state, l) rule) w s
    (fun acc' _ =>
       triggered rule state && sendsImage rule = false ->
       responseImage acc'.2 = responseImage l).
Proof.
  unfold checkRule, sendsImage.
  destruct (triggered rule state) eqn:Htr; [|by apply wp_ret].
  apply wp_bind, wp_consoleWrite, wp_bind.
  destruct (LogicRule.action rule) eqn:Hact.
  - destruct (JS.truthy _); by apply wp_ret, wp_ret.
  - apply wp_try_searchImages.
    + intros all Hall. apply wp_bind, wp_getRandomElement.
      * intros _. by apply wp_ret, wp_ret.
      * intros img Himg. by apply wp_ret, wp_ret.
    + intros _. by apply wp_ret, wp_ret.
  - by apply wp_ret, wp_ret.
Qed.

Lemma checkRules_image personaId w rules : forall state l s,
  wp (forOf (checkRule personaId) rules (state, l)) w s
    (fun acc' _ =>
       existsb sendsImage (firedRules rules state) = false ->
       responseImage acc'.2 = responseImage l).
Proof.
  induction rules as [|rule rules IH]; intros state l s.
  - by apply wp_ret.
  - simpl forOf. apply wp_bind.
    eapply wp_mono.
    { apply wp_conj; [apply checkRule_spec|apply checkRule_image]. }
    intros [state1 l1] s1 [(Hst & _) Himg]. simpl in *. subst state1.
    eapply wp_mono; [apply IH|].
    intros [state2 l2] s2 Himg2. simpl in *.
    rewrite existsb_app. intros [Hhere Hrest]%orb_false_iff.
    rewrite Himg2 by done. apply Himg.
    destruct (triggered rule state); [|done].
    simpl in Hhere. by rewrite orb_false_r in Hhere.
Qed.

Lemma logicEngine_image personaId w map userTokens l s :
  wp (logicEngine personaId map userTokens l) w s
    (fun l' _ =>
       existsb sendsImage
         (firedRules (default [] (NeuralMap.logicRules map))
            (countersChecked userTokens l)) = false ->
       responseImage l' = responseImage l).
Proof.
  unfold logicEngine.
  destruct (NeuralMap.logicRules map) as [[|r rs]|]; try by apply wp_ret.
  cbv zeta. apply wp_bind.
  eapply wp_mono; [apply checkRules_image|].
  intros [state' l'] s' H. by apply wp_ret.
Qed.

(** *** The fallback conversation *)

Lemma fallbackConversation_spec persona messageContent lowerMsg timeGreeting
    l w s :
  wp (fallbackConversation persona messageContent lowerMsg timeGreeting l) w s
    (fallbackPost persona messageContent lowerMsg l s).
Proof.
  unfold fallbackConversation, fallbackPost, produced, intentRecognised.
  destruct (JS.truthy (responseText l)); simpl; [by apply wp_ret|].
  destruct (truthyImage (responseImage l)); simpl; [by apply wp_ret|].
  destruct (JS.truthyOpt (responseAudio l)); simpl; [by apply wp_ret|].
  destruct (greetingRegex lowerMsg); simpl.
  { apply wp_bind, wp_getRandomElement; intros; by apply wp_ret. }
  destruct (goodTimeRegex lowerMsg); simpl; [by apply wp_ret|].
  destruct (howAreYouRegex lowerMsg); simpl.
  { apply wp_bind, wp_getRandomElement; intros; by apply wp_ret. }
  by apply wp_ret.
Qed.

(** *** The whole turn *)

(** A turn that is neither a voice message nor the answer to a pending
    question runs the three phases one after the other. *)
Lemma ordinary_turn_run persona messageContent messageType history w s :
  messageType <> AUDIO ->
  pending persona = false ->
  processOfflineMessage persona messageContent messageType history w s =
  (let* l := customTrainingPhase (PersonaProfile.id persona) (currentPhaseOf w)
               (PersonaProfile.neuralMap persona) (lowerMsgOf messageContent)
               (userTokenSetOf messageContent) (initialLocals persona) in
   let* l := logicEngine (PersonaProfile.id persona)
               (PersonaProfile.neuralMap persona) (tokenize messageContent) l in
   fallbackConversation persona messageContent (lowerMsgOf messageContent)
     (timeGreetingOf w) l) w s.
Proof.
  intros Hty Hp. unfold processOfflineMessage.
  unfold bind at 1, getTimeGreeting, bind at 1, getHours, ret at 1.
  unfold bind at 1, getCurrentTimePhase, bind at 1, getHours, ret at 1.
  rewrite bool_decide_eq_false_2 by done.
  unfold pending in Hp. cbn [Memory.waitingForDefinition withLogicCounts].
  rewrite Hp. reflexivity.
Qed.

Lemma ordinary_turn_wp persona messageContent messageType history w s
    (Q : Reply.t -> Run -> Prop) :
  messageType <> AUDIO ->
  pending persona = false ->
  wp (customTrainingPhase (PersonaProfile.id persona) (currentPhaseOf w)
        (PersonaProfile.neuralMap persona) (lowerMsgOf messageContent)
        (userTokenSetOf messageContent) (initialLocals persona)) w s
    (fun l1 s1 =>
       wp (logicEngine (PersonaProfile.id persona)
             (PersonaProfile.neuralMap persona) (tokenize messageContent) l1)
         w s1
         (fun l2 s2 =>
            wp (fallbackConversation persona messageContent
                  (lowerMsgOf messageContent) (timeGreetingOf w) l2) w s2 Q)) ->
  wp (processOfflineMessage persona messageContent messageType history) w s Q.
Proof.
  intros Hty Hp H. unfold wp at 1.
  rewrite ordinary_turn_run by done. fold (wp
    (let* l := customTrainingPhase (PersonaProfile.id persona) (currentPhaseOf w)
               (PersonaProfile.neuralMap persona) (lowerMsgOf messageContent)
               (userTokenSetOf messageContent) (initialLocals persona) in
     let* l := logicEngine (PersonaProfile.id persona)
                 (PersonaProfile.neuralMap persona) (tokenize messageContent) l in
     fallbackConversation persona messageContent (lowerMsgOf messageContent)
       (timeGreetingOf w) l) w s Q).
  apply wp_bind. eapply wp_mono; [exact H|]. intros l1 s1 H1. by apply wp_bind.
Qed.

(** ** What a turn leaves untouched *)

Lemma memoryFrame_refl m : memoryFrame m m.
Proof. by repeat split. Qed.

Lemma personaFrame_withMemory p m :
  memoryFrame (PersonaProfile.memory p) m -> personaFrame p (withMemory p m).
Proof. intros H. by repeat split; try apply H. Qed.

Lemma customTrainingPhase_memory personaId currentPhase map lowerMsg
    userTokenSet l w s :
  wp (customTrainingPhase personaId currentPhase map lowerMsg userTokenSet l)
    w s
    (fun l' _ =>
       memoryFrame (memory l) (memory l')
       /\ Memory.logicCounts (memory l') = Memory.logicCounts (memory l)
       /\ Memory.waitingForDefinition (memory l')
          = Memory.waitingForDefinition (memory l)).
Proof.
  apply (customTrainingPhase_inv personaId w
    (fun l' _ =>
       memoryFrame (memory l) (memory l')
       /\ Memory.logicCounts (memory l') = Memory.logicCounts (memory l)
       /\ Memory.waitingForDefinition (memory l')
          = Memory.waitingForDefinition (memory l))); done.
Qed.

Lemma logicEngine_memory personaId map userTokens l w s :
  wp (logicEngine personaId map userTokens l) w s
    (fun l' _ =>
       memoryFrame (memory l) (memory l')
       /\ Memory.lastSentImageIds (memory l')
          = Memory.lastSentImageIds (memory l)
       /\ Memory.waitingForDefinition (memory l')
          = Memory.waitingForDefinition (memory l)).
Proof.
  eapply wp_mono; [apply logicEngine_spec|].
  intros l' s'. unfold logicEnginePost.
  destruct (NeuralMap.logicRules map) as [[|r rs]|].
  - intros [-> _]. split; [apply memoryFrame_refl | done].
  - intros (-> & _). by repeat split.
  - intros [-> _]. split; [apply memoryFrame_refl | done].
Qed.

(** A turn on which no question is pending keeps the persona but for the
    three fields of its memory. *)
Lemma turn_keeps_persona persona messageContent messageType history w s :
  pending persona = false ->
  wp (processOfflineMessage persona messageContent messageType history) w s
    (fun reply _ => personaFrame persona (Reply.updatedPersona reply)).
Proof.
  intros Hp.
  destruct (decide (messageType = AUDIO)) as [->|Hty].
  { destruct (audio_turn_run persona messageContent history w s)
      as (t & Heq & _).
    unfold wp. rewrite Heq. by repeat split. }
  apply ordinary_turn_wp; [done..|].
  eapply wp_mono; [apply customTrainingPhase_memory|].
  intros l1 s1 (Hf1 & _ & _).
  eapply wp_mono; [apply logicEngine_memory|].
  intros l2 s2 (Hf2 & _ & _).
  eapply wp_mono; [apply fallbackConversation_spec|].
  intros reply s3 (_ & _ & _ & H).
  assert (Hf : memoryFrame (PersonaProfile.memory persona) (memory l2)).
  { destruct Hf1 as (?&?&?&?&?&?&?&?&?), Hf2 as (?&?&?&?&?&?&?&?&?).
    repeat split; simpl in *; congruence. }
  destruct (produced l2).
  - destruct H as [-> _]. by apply personaFrame_withMemory.
  - destruct (intentRecognised _).
    + rewrite H. by apply personaFrame_withMemory.
    + destruct H as [-> _]. simpl. by apply personaFrame_withMemory.
Qed.

(** C10. A turn on which no question is pending returns the persona with its
    trained rules, its logic rules, its identity and every other field as
    they were given (of any message type, a text message in particular); only
    the counters, the ids of the images sent recently and the pending question
    of its memory may differ. *)
Theorem ordinary_turn_frame :
  forall persona messageContent messageType history w s,
    pending persona = false ->
    wp (processOfflineMessage persona messageContent messageType history) w s
      (fun reply _ => personaFrame persona (Reply.updatedPersona reply)).
Proof.
  intros persona messageContent messageType history w s Hp.
  by apply turn_keeps_persona.
Qed.

(** ** Failures of the image store *)

Lemma learnDefinition_run persona memory questionToLearn answerToLearn w s :
  learnDefinition persona memory questionToLearn answerToLearn w s =
  (Returned
     (Reply.mk thankYou None None
        (withMemory
           (withNeuralMap persona
              (withCustomTraining (PersonaProfile.neuralMap persona)
                 (Some (default [] (NeuralMap.customTraining
                                      (PersonaProfile.neuralMap persona))
                        ++ [TrainingPair.mk (now w) (Some [questionToLearn])
                              questionToLearn
                              [TrainingResponse.mk answerToLearn (Some any)]
                              None text None None]))))
           (withWaitingForDefinition memory None))), s).
Proof. reflexivity. Qed.

(** A turn that answers a pending question. *)
Lemma pending_turn_run persona messageContent messageType history w s :
  messageType <> AUDIO ->
  pending persona = true ->
  processOfflineMessage persona messageContent messageType history w s =
  learnDefinition persona (workingMemory persona)
    (default "" (Memory.waitingForDefinition (PersonaProfile.memory persona)))
    messageContent w s.
Proof.
  intros Hty Hp. unfold processOfflineMessage.
  unfold bind at 1, getTimeGreeting, bind at 1, getHours, ret at 1.
  unfold bind at 1, getCurrentTimePhase, bind at 1, getHours, ret at 1.
  rewrite bool_decide_eq_false_2 by done.
  unfold pending in Hp. cbn [Memory.waitingForDefinition withLogicCounts].
  rewrite Hp. reflexivity.
Qed.

Lemma imageFromStore_weaken personaId w from upto upto' before after :
  (upto <= upto')%nat ->
  imageFromStore personaId w from upto before after ->
  imageFromStore personaId w from upto' before after.
Proof.
  intros Hle [->|(q & all & img & Hq & H)]; [by left|].
  right. exists q, all, img. split; [lia|done].
Qed.

Lemma antiRepetition_subseteq images seen img :
  img ∈ (antiRepetition images seen).1 -> img ∈ images.
Proof.
  unfold antiRepetition. destruct (isEmpty _); simpl; [done|].
  by intros [_ ?]%list_elem_of_filter.
Qed.

(** The image phase 2 leaves, if any, was returned by the store to a query
    of the phase. *)
Lemma customTrainingPhase_image personaId currentPhase map lowerMsg
    userTokenSet l w s :
  responseImage l = None ->
  wp (customTrainingPhase personaId currentPhase map lowerMsg userTokenSet l)
    w s
    (fun l' s' =>
       (queries s <= queries s')%nat
       /\ imageFromStore personaId w (queries s) (queries s') None
            (responseImage l')).
Proof.
  intros Hl.
  apply (customTrainingPhase_inv personaId w
    (fun l' s' =>
       (queries s <= queries s')%nat
       /\ imageFromStore personaId w (queries s) (queries s') None
            (responseImage l'))); try done.
  - intros l0 s0 _ [Hq Hi]. simpl. split; [lia|].
    eapply imageFromStore_weaken; [|exact Hi]. lia.
  - intros l0 s0 all _ [Hq Hi]. simpl. split; [lia|].
    eapply imageFromStore_weaken; [|exact Hi]. lia.
  - intros l0 s0 all imageTag img seenIds Hall Himg _ [Hq _]. simpl.
    split; [lia|]. right. exists (queries s0), all, img.
    split; [lia|]. split; [done|]. split; [|done].
    eapply tagged_subseteq, antiRepetition_subseteq, Himg.
  - split; [done|]. rewrite Hl. apply imageFromStore_refl.
Qed.

(** C9. Whatever the image store answers, and in particular when it rejects
    a query, the turn returns a reply: the rejection is caught where the
    query is made (in the step of the image rule and in the action of a logic
    rule) and is not thrown to the caller. The image of the reply, if there is
    one, is the data of an image that the store returned to a query of the
    turn, so a rejected query gives none; when every query of the turn is
    rejected, the reply carries no image. *)
Theorem store_failure_is_caught :
  forall persona messageContent messageType history w s,
    exists reply s',
      processOfflineMessage persona messageContent messageType history w s
      = (Returned reply, s')
      /\ imageFromStore (PersonaProfile.id persona) w (queries s) (queries s')
           None (Reply.image reply)
      /\ ((forall q, storedImages w q (PersonaProfile.id persona) = None) ->
          Reply.image reply = None).
Proof.
  intros persona messageContent messageType history w s.
  assert (H : wp
    (processOfflineMessage persona messageContent messageType history) w s
    (fun reply s' =>
       imageFromStore (PersonaProfile.id persona) w (queries s) (queries s')
         None (Reply.image reply))).
  { destruct (decide (messageType = AUDIO)) as [->|Hty].
    { destruct (audio_turn_run persona messageContent history w s)
        as (t & Heq & _).
      unfold wp. rewrite Heq. apply imageFromStore_refl. }
    destruct (pending persona) eqn:Hp.
    { unfold wp. rewrite pending_turn_run, learnDefinition_run by done.
      apply imageFromStore_refl. }
    apply ordinary_turn_wp; [done..|].
    eapply wp_mono; [by apply customTrainingPhase_image|].
    intros l1 s1 [Hq1 Himg1].
    eapply wp_mono; [apply logicEngine_spec|].
    intros l2 s2 Hpost.
    eapply wp_mono; [apply fallbackConversation_spec|].
    intros reply s3 (Himg & _ & Hq3 & _). rewrite Himg, Hq3.
    destruct (_ || _); [|apply imageFromStore_refl].
    unfold logicEnginePost in Hpost.
    destruct (NeuralMap.logicRules _) as [[|r rs]|].
    - by destruct Hpost as [-> ->].
    - destruct Hpost as (_ & _ & _ & _ & Hq2 & Himg2).
      by eapply imageFromStore_trans.
    - by destruct Hpost as [-> ->]. }
  apply wp_returned in H as (reply & s' & Hrun & Himg).
  exists reply, s'. split; [done|]. split; [done|].
  intros Hno. by eapply imageFromStore_rejected.
Qed.

(** ** Scores *)

Lemma gtb_lt a b : gtb a b = true <-> (b < a)%Q.
Proof.
  unfold gtb. rewrite negb_true_iff. split.
  - intros H. apply Qnot_le_lt. intros Hle.
    apply Qle_bool_iff in Hle. congruence.
  - intros H. destruct (Qle_bool a b) eqn:E; [|done].
    apply Qle_bool_iff in E. apply Qlt_not_le in H. done.
Qed.

Lemma gtb_le a b : gtb a b = false <-> (a <= b)%Q.
Proof.
  unfold gtb. rewrite negb_false_iff. apply Qle_bool_iff.
Qed.

Lemma ofNat_nonneg n : (0 <= ofNat n)%Q.
Proof. unfold ofNat, Qle, inject_Z. cbn [Qnum Qden]. lia. Qed.

Lemma ofNat_le m n : (m <= n)%nat -> (ofNat m <= ofNat n)%Q.
Proof. intros H. unfold ofNat, Qle, inject_Z. cbn [Qnum Qden]. lia. Qed.

Lemma Qinv_ofNat n : (0 < n)%nat -> Qinv (ofNat n) = (1 # Pos.of_nat n)%Q.
Proof.
  intros Hn. unfold ofNat, Qinv, inject_Z. cbn [Qnum Qden].
  destruct n as [|n]; [lia|]. rewrite Nat2Z.inj_succ.
  destruct (Z.succ (Z.of_nat n)) eqn:E; try lia.
  f_equal. lia.
Qed.

(** [a/b <= m/n] for counts [m] and [n], without the division. *)
Lemma coverage_ge (m n : nat) (a : Z) (b : positive) :
  (0 < n)%nat ->
  ((a # b) <= ofNat m / ofNat n)%Q <->
  (a * Z.of_nat n <= Z.of_nat m * Zpos b)%Z.
Proof.
  intros Hn. unfold Qdiv. rewrite Qinv_ofNat by done.
  unfold ofNat, Qle, Qmult, inject_Z. cbn [Qnum Qden].
  rewrite ?Pos2Z.inj_mul.
  assert (H : Z.pos (Pos.of_nat n) = Z.of_nat n) by lia. rewrite H. lia.
Qed.

(** The score [coverage * 100 + matchCount] as one fraction. *)
Lemma fuzzy_value (m n : nat) :
  (0 < n)%nat ->
  (ofNat m / ofNat n * 100 + ofNat m
   == (100 * Z.of_nat m + Z.of_nat m * Z.of_nat n) # Pos.of_nat n)%Q.
Proof.
  intros Hn. unfold Qdiv. rewrite Qinv_ofNat by done.
  unfold ofNat, Qeq, Qmult, Qplus, inject_Z. cbn [Qnum Qden].
  rewrite ?Pos2Z.inj_mul.
  assert (H : Z.pos (Pos.of_nat n) = Z.of_nat n) by lia. rewrite H. nia.
Qed.

Lemma fuzzy_value_bounds (m n : nat) :
  (0 < n)%nat -> (m <= n)%nat ->
  (ofNat m <= ofNat m / ofNat n * 100 + ofNat m)%Q
  /\ (ofNat m / ofNat n * 100 + ofNat m <= 100 + ofNat m)%Q.
Proof.
  intros Hn Hm. rewrite fuzzy_value by done.
  unfold ofNat, Qle, Qplus, inject_Z. cbn [Qnum Qden].
  assert (H : Z.pos (Pos.of_nat n) = Z.of_nat n) by lia.
  rewrite ?Pos2Z.inj_mul, ?H. split; nia.
Qed.

Lemma matchCountOf_le userTokenSet pattern :
  (matchCountOf userTokenSet pattern <= length (tokenize pattern))%nat.
Proof. apply length_filter. Qed.

Lemma patternScore_exact lowerMsg userTokenSet pattern :
  JS.includes lowerMsg (lowerRuleOf pattern) = true ->
  patternScore lowerMsg userTokenSet pattern
  = (1000 + ofNat (length (tokenize pattern)))%Q.
Proof. intros H. unfold patternScore. fold (lowerRuleOf pattern). by rewrite H. Qed.

Lemma patternScore_fuzzy lowerMsg userTokenSet pattern :
  JS.includes lowerMsg (lowerRuleOf pattern) = false ->
  tokenize pattern <> [] ->
  let n := length (tokenize pattern) in
  let m := matchCountOf userTokenSet pattern in
  patternScore lowerMsg userTokenSet pattern
  = if coverageMet n m then (ofNat m / ofNat n * 100 + ofNat m)%Q else 0%Q.
Proof.
  intros Hinc Hne n m. unfold patternScore. fold (lowerRuleOf pattern).
  rewrite Hinc. fold (matchCountOf userTokenSet pattern). fold n. fold m.
  assert (Hn : (0 < n)%nat) by (subst n; destruct (tokenize pattern); simpl; [done|lia]).
  assert (Hm : (m <= n)%nat) by apply matchCountOf_le.
  unfold coverageMet, geb.
  destruct (n <=? 3)%nat eqn:Hn3.
  - destruct (m =? n)%nat eqn:Hmn.
    + apply Nat.eqb_eq in Hmn.
      assert (H : Qle_bool 1 (ofNat m / ofNat n) = true); [|by rewrite H].
      apply Qle_bool_iff. change 1%Q with (1 # 1)%Q.
      apply coverage_ge; [done|]. lia.
    + apply Nat.eqb_neq in Hmn.
      assert (H : Qle_bool 1 (ofNat m / ofNat n) = false); [|by rewrite H].
      apply not_true_is_false. intros H%Qle_bool_iff.
      change 1%Q with (1 # 1)%Q in H. apply coverage_ge in H; [|done]. lia.
  - destruct (3 * n <=? 4 * m)%nat eqn:Hc.
    + apply Nat.leb_le in Hc.
      assert (H : Qle_bool (75 # 100) (ofNat m / ofNat n) = true);
        [|by rewrite H].
      apply Qle_bool_iff. apply coverage_ge; [done|]. lia.
    + apply Nat.leb_gt in Hc.
      assert (H : Qle_bool (75 # 100) (ofNat m / ofNat n) = false);
        [|by rewrite H].
      apply not_true_is_false. intros H%Qle_bool_iff.
      apply coverage_ge in H; [|done]. lia.
Qed.

Lemma scoreStep_fold_ge lowerMsg userTokenSet patterns : forall acc,
  (acc <= fold_left (scoreStep lowerMsg userTokenSet) patterns acc)%Q.
Proof.
  induction patterns as [|p ps IH]; intros acc; simpl; [apply Qle_refl|].
  eapply Qle_trans; [|apply IH].
  unfold scoreStep. destruct (length (tokenize p) =? 0)%nat; [apply Qle_refl|].
  destruct (gtb _ acc) eqn:E; [|apply Qle_refl].
  apply gtb_lt in E. by apply Qlt_le_weak.
Qed.

(** The score of a rule is at least the score of each of its phrases that
    has tokens. *)
Lemma maxRuleScore_ge lowerMsg userTokenSet rule p :
  p ∈ patternsOf rule -> tokenize p <> [] ->
  (patternScore lowerMsg userTokenSet p
   <= maxRuleScore lowerMsg userTokenSet rule)%Q.
Proof.
  unfold maxRuleScore. generalize 0%Q.
  induction (patternsOf rule) as [|p' ps IH]; intros acc Hin Hne.
  - by apply elem_of_nil in Hin.
  - simpl. apply elem_of_cons in Hin as [->|Hin]; [|by apply IH].
    eapply Qle_trans; [|apply scoreStep_fold_ge].
    unfold scoreStep. destruct (tokenize p') eqn:Ht; [done|]. simpl.
    destruct (gtb _ acc) eqn:E; [apply Qle_refl|]. by apply gtb_le in E.
Qed.

(** It is at most any bound of the scores of those phrases. *)
Lemma maxRuleScore_le lowerMsg userTokenSet rule (bound : Q) :
  (0 <= bound)%Q ->
  (forall p, p ∈ patternsOf rule -> tokenize p <> [] ->
     (patternScore lowerMsg userTokenSet p <= bound)%Q) ->
  (maxRuleScore lowerMsg userTokenSet rule <= bound)%Q.
Proof.
  unfold maxRuleScore. generalize 0%Q.
  induction (patternsOf rule) as [|p' ps IH]; intros acc Hacc Hall; [done|].
  simpl. apply IH.
  - unfold scoreStep. destruct (tokenize p') eqn:Ht; [done|]. simpl.
    destruct (gtb _ acc); [|done]. apply Hall; [left|by rewrite Ht].
  - intros p Hp. apply Hall. by right.
Qed.

(** ** Exact matches and fuzzy matches *)

Lemma exact_score_ge lowerMsg userTokenSet rule :
  hasExactHit lowerMsg rule = true ->
  (1001 <= maxRuleScore lowerMsg userTokenSet rule)%Q.
Proof.
  unfold hasExactHit. intros (p & Hp & [Htok Hhit]%andb_prop)%existsb_exists.
  apply negb_true_iff, isEmpty_false_ne in Htok.
  eapply Qle_trans; [|apply maxRuleScore_ge; [by apply list_elem_of_In|done]].
  rewrite patternScore_exact by done.
  destruct (tokenize p) as [|t ts]; [done|].
  unfold Qle, Qplus, ofNat, inject_Z. cbn [Qnum Qden length]. lia.
Qed.

Lemma fuzzy_score_le limit lowerMsg userTokenSet rule :
  fuzzyOnlyUpTo limit lowerMsg rule = true ->
  (maxRuleScore lowerMsg userTokenSet rule <= 100 + ofNat limit)%Q.
Proof.
  unfold fuzzyOnlyUpTo. intros Hall.
  apply maxRuleScore_le.
  { pose proof (ofNat_nonneg limit). lra. }
  intros p Hp Hne.
  assert (Hp' : negb (exactHit lowerMsg p)
                && (length (tokenize p) <=? limit)%nat = true).
  { eapply forallb_forall in Hall; [exact Hall|]. by apply list_elem_of_In. }
  apply andb_prop in Hp' as [Hmiss%negb_true_iff Hlen%Nat.leb_le].
  rewrite patternScore_fuzzy by done.
  pose proof (matchCountOf_le userTokenSet p) as Hm.
  destruct (coverageMet _ _).
  - destruct (fuzzy_value_bounds (matchCountOf userTokenSet p)
                (length (tokenize p))) as [_ Hub]; [|done|].
    { destruct (tokenize p); simpl; [done|lia]. }
    eapply Qle_trans; [exact Hub|].
    assert (ofNat (matchCountOf userTokenSet p) <= ofNat limit)%Q
      by (apply ofNat_le; lia).
    lra.
  - pose proof (ofNat_nonneg limit). lra.
Qed.

(** C1, as amended. A rule one of whose phrases (with at least one token)
    occurs verbatim in the lower-cased message scores strictly higher than a
    rule none of whose phrases occurs verbatim, provided no phrase of the
    latter has more than 900 tokens: the exact match scores at least 1001 and
    the fuzzy one at most 100 plus its number of tokens. *)
Theorem exact_match_outranks_fuzzy :
  forall messageContent ruleA ruleB,
    hasExactHit (lowerMsgOf messageContent) ruleA = true ->
    fuzzyOnlyUpTo 900 (lowerMsgOf messageContent) ruleB = true ->
    (maxRuleScore (lowerMsgOf messageContent) (userTokenSetOf messageContent)
       ruleB
     < maxRuleScore (lowerMsgOf messageContent) (userTokenSetOf messageContent)
         ruleA)%Q.
Proof.
  intros messageContent ruleA ruleB HA HB.
  pose proof (exact_score_ge _ (userTokenSetOf messageContent) _ HA) as H1.
  pose proof (fuzzy_score_le _ _ (userTokenSetOf messageContent) _ HB) as H2.
  assert (H3 : (ofNat 900 == 900)%Q) by reflexivity.
  lra.
Qed.

(** C5. A phrase that does not occur verbatim is matched by its tokens: with
    [n] tokens of which [m] occur in the message, a phrase of at most three
    tokens matches exactly when all of them occur, a longer one exactly when
    three quarters of them do; a phrase that matches scores
    [m / n * 100 + m] and one that does not scores 0. So four tokens with
    three present score 78 and three tokens with two present score 0. *)
Theorem fuzzy_coverage_threshold :
  forall lowerMsg userTokenSet pattern,
    JS.includes lowerMsg (lowerRuleOf pattern) = false ->
    tokenize pattern <> [] ->
    let n := length (tokenize pattern) in
    let m := matchCountOf userTokenSet pattern in
    let score := patternScore lowerMsg userTokenSet pattern in
    ((n <= 3)%nat -> ((0 < score)%Q <-> m = n))
    /\ ((4 <= n)%nat -> ((0 < score)%Q <-> (3 * n <= 4 * m)%nat))
    /\ ((0 < score)%Q -> (score == ofNat m / ofNat n * 100 + ofNat m)%Q)
    /\ (~ (0 < score)%Q -> score = 0%Q)
    /\ (n = 4%nat -> m = 3%nat -> (score == 78)%Q)
    /\ (n = 3%nat -> m = 2%nat -> score = 0%Q).
Proof.
  intros lowerMsg userTokenSet pattern Hmiss Hne n m score.
  assert (Hn : (0 < n)%nat)
    by (subst n; destruct (tokenize pattern); simpl; [done|lia]).
  assert (Hm : (m <= n)%nat) by apply matchCountOf_le.
  assert (Hscore : score = if coverageMet n m
                           then (ofNat m / ofNat n * 100 + ofNat m)%Q
                           else 0%Q)
    by (by apply patternScore_fuzzy).
  assert (Hpos : coverageMet n m = true ->
                 (0 < ofNat m / ofNat n * 100 + ofNat m)%Q).
  { intros Hc.
    destruct (fuzzy_value_bounds m n Hn Hm) as [Hlb _].
    eapply Qlt_le_trans; [|exact Hlb].
    unfold ofNat, Qlt, inject_Z. cbn [Qnum Qden].
    unfold coverageMet in Hc.
    destruct (n <=? 3)%nat;
      [apply Nat.eqb_eq in Hc | apply Nat.leb_le in Hc]; lia. }
  assert (Hiff : (0 < score)%Q <-> coverageMet n m = true).
  { rewrite Hscore. destruct (coverageMet n m) eqn:Hc.
    - split; [done|]. intros _. by apply Hpos.
    - split; [|done]. intros H. by apply Qlt_irrefl in H. }
  split.
  { intros Hle%Nat.leb_le. rewrite Hiff. unfold coverageMet. rewrite Hle.
    apply Nat.eqb_eq. }
  split.
  { intros Hge. rewrite Hiff. unfold coverageMet.
    assert (Hn3 : (n <=? 3)%nat = false) by (apply Nat.leb_gt; lia).
    rewrite Hn3. apply Nat.leb_le. }
  split.
  { intros H. apply Hiff in H. by rewrite Hscore, H. }
  split.
  { intros H. rewrite Hscore. destruct (coverageMet n m) eqn:Hc; [|done].
    exfalso. by apply H, Hiff. }
  split.
  - intros H4 H3. rewrite Hscore, H4, H3. reflexivity.
  - intros H3 H2. rewrite Hscore, H3, H2. reflexivity.
Qed.

(** ** Worked examples *)

(** C1, as stated, fails: in the message "hi a" the phrase "hi" occurs
    verbatim and scores 1001, while the phrase of 902 tokens "a", which does
    not occur verbatim, has all its tokens in the message and scores 1002. *)
Lemma exact_match_outranked_by_long_fuzzy :
  hasExactHit (lowerMsgOf "hi a") Demo.greeting = true
  /\ forallb (fun p => negb (exactHit (lowerMsgOf "hi a") p))
       (patternsOf Demo.chatter) = true
  /\ (maxRuleScore (lowerMsgOf "hi a") (userTokenSetOf "hi a") Demo.greeting
      == 1001)%Q
  /\ (maxRuleScore (lowerMsgOf "hi a") (userTokenSetOf "hi a") Demo.chatter
      == 1002)%Q
  /\ ~ (maxRuleScore (lowerMsgOf "hi a") (userTokenSetOf "hi a") Demo.chatter
        < maxRuleScore (lowerMsgOf "hi a") (userTokenSetOf "hi a")
            Demo.greeting)%Q.
Proof.
  assert (HA : (maxRuleScore (lowerMsgOf "hi a") (userTokenSetOf "hi a")
                  Demo.greeting == 1001)%Q) by (by vm_compute).
  assert (HB : (maxRuleScore (lowerMsgOf "hi a") (userTokenSetOf "hi a")
                  Demo.chatter == 1002)%Q) by (by vm_compute).
  split; [by vm_compute|]. split; [by vm_compute|].
  split; [done|]. split; [done|].
  rewrite HA, HB. by intros H.
Qed.

Lemma exact_match_outranks_fuzzy_witness :
  hasExactHit (lowerMsgOf "Hello, good morning to you")
    (Demo.rule "1" "Good Morning" "Morning!" text None) = true
  /\ fuzzyOnlyUpTo 900 (lowerMsgOf "Hello, good morning to you")
       (Demo.rule "2" "you good to hello x" "Hm." text None) = true
  /\ (maxRuleScore (lowerMsgOf "Hello, good morning to you")
        (userTokenSetOf "Hello, good morning to you")
        (Demo.rule "2" "you good to hello x" "Hm." text None)
      < maxRuleScore (lowerMsgOf "Hello, good morning to you")
          (userTokenSetOf "Hello, good morning to you")
          (Demo.rule "1" "Good Morning" "Morning!" text None))%Q.
Proof.
  split; [vm_compute; reflexivity|]. split; [vm_compute; reflexivity|].
  apply (exact_match_outranks_fuzzy "Hello, good morning to you");
    vm_compute; reflexivity.
Defined.

Lemma fuzzy_coverage_threshold_witness :
  JS.includes (lowerMsgOf "delta gamma, then beta")
    (lowerRuleOf "alpha beta gamma delta") = false
  /\ tokenize "alpha beta gamma delta" <> []
  /\ (patternScore (lowerMsgOf "delta gamma, then beta")
        (userTokenSetOf "delta gamma, then beta") "alpha beta gamma delta"
      == 78)%Q.
Proof.
  assert (Hmiss : JS.includes (lowerMsgOf "delta gamma, then beta")
                    (lowerRuleOf "alpha beta gamma delta") = false)
    by (vm_compute; reflexivity).
  assert (Htok : tokenize "alpha beta gamma delta" <> []) by (by vm_compute).
  split; [exact Hmiss|]. split; [exact Htok|].
  apply (fuzzy_coverage_threshold (lowerMsgOf "delta gamma, then beta")
           (userTokenSetOf "delta gamma, then beta")
           "alpha beta gamma delta" Hmiss Htok); vm_compute; reflexivity.
Defined.

(** ** The order of the doubles *)

Lemma double_gtb_trans a b c :
  Double.gtb a b = true -> Double.gtb b c = true -> Double.gtb a c = true.
Proof.
  unfold Double.gtb, SpecFloat.SFltb, SpecFloat.SFcompare.
  destruct a as [[]|[]| |[] ma ea], b as [[]|[]| |[] mb eb],
    c as [[]|[]| |[] mc ec]; simpl; try done; intros; order_cases.
Qed.

(** Two numbers are comparable: when [a > b] is false, [b >= a]. *)
Lemma double_gtb_total a b :
  isNumber a -> isNumber b ->
  Double.gtb a b = false -> Double.geb b a = true.
Proof.
  unfold isNumber, Double.gtb, Double.geb, SpecFloat.SFltb, SpecFloat.SFleb,
    SpecFloat.SFcompare.
  destruct a as [[]|[]| |[] ma ea], b as [[]|[]| |[] mb eb];
    simpl; try done; intros; order_cases.
Qed.

Lemma double_gtb_geb_trans a b c :
  Double.gtb a b = true -> Double.geb b c = true -> Double.gtb a c = true.
Proof.
  unfold Double.gtb, Double.geb, SpecFloat.SFltb, SpecFloat.SFleb,
    SpecFloat.SFcompare.
  destruct a as [[]|[]| |[] ma ea], b as [[]|[]| |[] mb eb],
    c as [[]|[]| |[] mc ec]; simpl; try done; intros; order_cases.
Qed.

(** [>] holds between numbers only. *)
Lemma double_gtb_isNumber a b :
  Double.gtb a b = true -> isNumber a /\ isNumber b.
Proof.
  unfold isNumber, Double.gtb, SpecFloat.SFltb, SpecFloat.SFcompare.
  destruct a as [[]|[]| |[] ma ea], b as [[]|[]| |[] mb eb]; simpl; done.
Qed.

(** The score of a rule is a number: it is 0 or a score that was [>] the
    running maximum. *)
Lemma maxRuleScore_isNumber lowerMsg userTokenSet rule :
  isNumber (Doubles.maxRuleScore lowerMsg userTokenSet rule).
Proof.
  unfold Doubles.maxRuleScore.
  assert (H0 : isNumber Double.zero) by done.
  revert H0. generalize Double.zero.
  induction (patternsOf rule) as [|p ps IH]; intros acc Hacc; [done|].
  simpl. apply IH. unfold Doubles.scoreStep.
  destruct (length (tokenize p) =? 0)%nat; [done|].
  destruct (Double.gtb _ acc) eqn:E; [|done].
  by apply double_gtb_isNumber in E as [? _].
Qed.

(** The literal [0.75] is the double of 3 / 4, and the doubles of the
    scores of an exact match, of a phrase of four tokens with three of them in
    the message, and of a phrase of three tokens with two of them. *)
Lemma double_scores_examples :
  Double.div (Double.ofNat 3) (Double.ofNat 4) = Double.threeQuarters
  /\ Doubles.patternScore (lowerMsgOf "Hi!") (userTokenSetOf "Hi!") "hi"
     = Double.ofNat 1001
  /\ Doubles.patternScore (lowerMsgOf "delta gamma, then beta")
       (userTokenSetOf "delta gamma, then beta") "alpha beta gamma delta"
     = Double.ofNat 78
  /\ Doubles.patternScore (lowerMsgOf "gamma, then beta")
       (userTokenSetOf "gamma, then beta") "alpha beta gamma"
     = Double.zero.
Proof. repeat split; by vm_compute. Qed.

(** ** The winners of the three kinds *)

Lemma considerRule_winner lowerMsg userTokenSet kind best rule :
  winnerOf kind (Doubles.considerRule lowerMsg userTokenSet best rule)
  = challenge lowerMsg userTokenSet kind (winnerOf kind best) rule.
Proof.
  unfold Doubles.considerRule, challenge.
  destruct (patternsOf rule) as [|p ps] eqn:Hp.
  { assert (Hs : Doubles.maxRuleScore lowerMsg userTokenSet rule = Double.zero)
      by (unfold Doubles.maxRuleScore; by rewrite Hp).
    rewrite Hs. by rewrite andb_false_r. }
  destruct (Double.gtb _ Double.zero); [|by rewrite andb_false_r].
  rewrite andb_true_r.
  destruct (TrainingPair.type rule), kind; simpl;
    try done; by destruct (Doubles.beats _ _).
Qed.

Lemma fold_considerRule_winner lowerMsg userTokenSet kind rules : forall best,
  winnerOf kind
    (fold_left (Doubles.considerRule lowerMsg userTokenSet) rules best)
  = fold_left (challenge lowerMsg userTokenSet kind) rules (winnerOf kind best).
Proof.
  induction rules as [|r rs IH]; intros best; [done|].
  simpl. rewrite IH. by rewrite considerRule_winner.
Qed.

Lemma bestMatches_winner lowerMsg userTokenSet kind rules :
  winnerOf kind (Doubles.bestMatches lowerMsg userTokenSet rules)
  = fold_left (challenge lowerMsg userTokenSet kind) rules None.
Proof.
  unfold Doubles.bestMatches. rewrite fold_considerRule_winner.
  by destruct kind.
Qed.

Lemma challenge_isWinner lowerMsg userTokenSet kind seen cur rule :
  isWinner lowerMsg userTokenSet kind seen cur ->
  isWinner lowerMsg userTokenSet kind (seen ++ [rule])
    (challenge lowerMsg userTokenSet kind cur rule).
Proof.
  intros Hcur. unfold challenge.
  destruct (bool_decide (TrainingPair.type rule = kind)) eqn:Hk; simpl.
  2: { apply bool_decide_eq_false in Hk.
       destruct cur as [m|]; simpl in *.
       - destruct Hcur as (before & after & -> & Ht & Hs & Hpos & Hb & Ha).
         exists before, (after ++ [rule]).
         rewrite <- app_assoc. repeat split; try done.
         intros r [Hr|Hr%list_elem_of_singleton]%elem_of_app Hty; [auto|].
         by subst.
       - intros r [Hr|Hr%list_elem_of_singleton]%elem_of_app Hty; [auto|].
         by subst. }
  apply bool_decide_eq_true in Hk.
  destruct (Double.gtb _ Double.zero) eqn:Hpos; simpl.
  2: { destruct cur as [m|]; simpl in *.
       - destruct Hcur as (before & after & -> & Ht & Hs & Hp & Hb & Ha).
         exists before, (after ++ [rule]).
         rewrite <- app_assoc. repeat split; try done.
         intros r [Hr|Hr%list_elem_of_singleton]%elem_of_app Hty; [auto|].
         subst r.
         destruct (Double.gtb _ (Doubles.Match.score m)) eqn:E; [|done].
         by rewrite (double_gtb_trans _ _ _ E Hp) in Hpos.
       - intros r [Hr|Hr%list_elem_of_singleton]%elem_of_app Hty; [auto|].
         by subst r. }
  destruct cur as [m|]; simpl in *.
  - destruct Hcur as (before & after & -> & Ht & Hs & Hp & Hb & Ha).
    destruct (Double.gtb _ (Doubles.Match.score m)) eqn:Hbeat; simpl.
    + exists (before ++ Doubles.Match.rule m :: after), []. simpl.
      repeat split; try done.
      * intros r Hr Hty.
        apply elem_of_app in Hr as [Hr|Hr].
        { eapply double_gtb_trans; [exact Hbeat|by apply Hb]. }
        apply elem_of_cons in Hr as [->|Hr].
        { by rewrite <- Hs. }
        eapply double_gtb_geb_trans; [exact Hbeat|].
        apply double_gtb_total; [apply maxRuleScore_isNumber| |by apply Ha].
        by apply double_gtb_isNumber in Hp as [? _].
      * intros r Hr. by apply elem_of_nil in Hr.
    + exists before, (after ++ [rule]).
      rewrite <- app_assoc. repeat split; try done.
      intros r [Hr|Hr%list_elem_of_singleton]%elem_of_app Hty; [auto|].
      by subst r.
  - exists seen, []. simpl. repeat split; try done.
    + intros r Hr Hty. eapply double_gtb_geb_trans; [exact Hpos|].
      apply double_gtb_total; [apply maxRuleScore_isNumber|done|].
      by apply Hcur.
    + intros r Hr. by apply elem_of_nil in Hr.
Qed.

Lemma fold_challenge_isWinner lowerMsg userTokenSet kind rules :
  isWinner lowerMsg userTokenSet kind rules
    (fold_left (challenge lowerMsg userTokenSet kind) rules None).
Proof.
  induction rules as [|rule rules IH] using rev_ind.
  - simpl. intros r Hr. by apply elem_of_nil in Hr.
  - rewrite fold_left_app. simpl. by apply challenge_isWinner.
Qed.

(** The winner of a kind depends on the rules of that kind only. *)
Lemma fold_challenge_filter lowerMsg userTokenSet kind rules : forall cur,
  fold_left (challenge lowerMsg userTokenSet kind) rules cur
  = fold_left (challenge lowerMsg userTokenSet kind)
      (filter (fun r => TrainingPair.type r = kind) rules) cur.
Proof.
  induction rules as [|r rs IH]; intros cur; [done|].
  rewrite filter_cons. simpl. destruct (decide (TrainingPair.type r = kind)).
  - simpl. apply IH.
  - rewrite IH. f_equal. unfold challenge.
    by rewrite bool_decide_eq_false_2.
Qed.

(** Rounding decides a near tie. For the message "x" the two rules of
    [DemoNearTie] score the same rational, 918/7, but not the same double:
    the first gets 131.14285714285714 and the second, one unit in the last
    place above it, 131.14285714285717. The loop keeps the second. *)
Lemma near_tie_is_decided_by_rounding :
  let lowerMsg := lowerMsgOf "x" in
  let userTokenSet := userTokenSetOf "x" in
  (maxRuleScore lowerMsg userTokenSet DemoNearTie.first == 918 # 7)%Q
  /\ (maxRuleScore lowerMsg userTokenSet DemoNearTie.second == 918 # 7)%Q
  /\ Doubles.maxRuleScore lowerMsg userTokenSet DemoNearTie.first
     = SpecFloat.S754_finite false 4614179082506825 (-45)
  /\ Doubles.maxRuleScore lowerMsg userTokenSet DemoNearTie.second
     = SpecFloat.S754_finite false 4614179082506826 (-45)
  /\ Doubles.Match.rule
       <$> Doubles.bestTextMatch
             (Doubles.bestMatches lowerMsg userTokenSet
                [DemoNearTie.first; DemoNearTie.second])
     = Some DemoNearTie.second.
Proof. cbv zeta. repeat split; by vm_compute. Qed.

(** C6. The scores being the doubles that the run computes, for each of the
    three kinds the winner the loop keeps is the first, in the order of the
    list, of the rules of the kind that attain the highest score of the kind,
    provided that score is positive: its score is [>] that of every rule of
    the kind before it, and no rule of the kind after it has a score [>] its
    own, so that of two rules with equal highest scores the first one wins;
    there is no winner when no rule of the kind scores above zero. The winner
    of a kind is the same as if only the rules of that kind were there, and
    one message can get its text from one rule and its image from another:
    in the example the two rules score 1001, as doubles and as rationals
    alike, and the turn answers with the text of the one and an image for the
    tag of the other. *)
Theorem winners_per_kind :
  (forall lowerMsg userTokenSet rules kind,
     isWinner lowerMsg userTokenSet kind rules
       (winnerOf kind (Doubles.bestMatches lowerMsg userTokenSet rules))
     /\ winnerOf kind (Doubles.bestMatches lowerMsg userTokenSet rules)
        = winnerOf kind
            (Doubles.bestMatches lowerMsg userTokenSet
               (filter (fun r => TrainingPair.type r = kind) rules)))
  /\ (let hello := Demo.rule "1" "hi" "Hello!" text None in
      let wave := Demo.rule "2" "hi" "" image_trigger (Some "cat") in
      let best := Doubles.bestMatches (lowerMsgOf "Hi!") (userTokenSetOf "Hi!")
                    [hello; wave] in
      let exact := bestMatches (lowerMsgOf "Hi!") (userTokenSetOf "Hi!")
                     [hello; wave] in
      Doubles.Match.rule <$> Doubles.bestTextMatch best = Some hello
      /\ Doubles.Match.rule <$> Doubles.bestImageMatch best = Some wave
      /\ Match.rule <$> bestTextMatch exact = Some hello
      /\ Match.rule <$> bestImageMatch exact = Some wave
      /\ exists reply s',
           processOfflineMessage (Demo.persona [hello; wave] []) "Hi!" TEXT []
             (Demo.world [Demo.image "a"; Demo.image "b"]) startRun
           = (Returned reply, s')
           /\ Reply.text reply = "Hello!"
           /\ Reply.image reply = Some (StringData "data:a")).
Proof.
  split.
  - intros lowerMsg userTokenSet rules kind. split.
    + rewrite bestMatches_winner. apply fold_challenge_isWinner.
    + rewrite !bestMatches_winner. apply fold_challenge_filter.
  - cbv zeta. split; [by vm_compute|]. split; [by vm_compute|].
    split; [by vm_compute|]. split; [by vm_compute|].
    eexists _, _. split; [vm_compute; reflexivity|]. by split.
Qed.

(** ** The three phases of an ordinary turn *)

Lemma bind_returned {A B} (m : M A) (k : A -> M B) w s a s' :
  m w s = (Returned a, s') -> bind m k w s = k a w s'.
Proof. intros H. unfold bind. by rewrite H. Qed.

Lemma wp_total {A} (m : M A) w s (Q : A -> Run -> Prop) :
  wp m w s Q -> exists a s', m w s = (Returned a, s').
Proof. intros (a & s' & H & _)%wp_returned. eauto. Qed.

Lemma wp_at {A} (m : M A) w s (Q : A -> Run -> Prop) a s' :
  wp m w s Q -> m w s = (Returned a, s') -> Q a s'.
Proof. intros H Heq. unfold wp in H. by rewrite Heq in H. Qed.

(** An ordinary turn returns, and so does each of its phases. *)
Lemma ordinary_turn_phases persona messageContent messageType history w s :
  messageType <> AUDIO ->
  pending persona = false ->
  exists l1 s1 l2 s2 reply s3,
    customTrainingPhase (PersonaProfile.id persona) (currentPhaseOf w)
      (PersonaProfile.neuralMap persona) (lowerMsgOf messageContent)
      (userTokenSetOf messageContent) (initialLocals persona) w s
    = (Returned l1, s1)
    /\ logicEngine (PersonaProfile.id persona)
         (PersonaProfile.neuralMap persona) (tokenize messageContent) l1 w s1
       = (Returned l2, s2)
    /\ fallbackConversation persona messageContent (lowerMsgOf messageContent)
         (timeGreetingOf w) l2 w s2
       = (Returned reply, s3)
    /\ processOfflineMessage persona messageContent messageType history w s
       = (Returned reply, s3).
Proof.
  intros Hty Hp.
  destruct (wp_total _ w s _
    (customTrainingPhase_memory (PersonaProfile.id persona) (currentPhaseOf w)
       (PersonaProfile.neuralMap persona) (lowerMsgOf messageContent)
       (userTokenSetOf messageContent) (initialLocals persona) w s))
    as (l1 & s1 & H1).
  destruct (wp_total _ w s1 _
    (logicEngine_spec (PersonaProfile.id persona) w
       (PersonaProfile.neuralMap persona) (tokenize messageContent) l1 s1))
    as (l2 & s2 & H2).
  destruct (wp_total _ w s2 _
    (fallbackConversation_spec persona messageContent
       (lowerMsgOf messageContent) (timeGreetingOf w) l2 w s2))
    as (reply & s3 & H3).
  exists l1, s1, l2, s2, reply, s3. repeat split; try done.
  rewrite ordinary_turn_run by done.
  rewrite (bind_returned _ _ _ _ _ _ H1), (bind_returned _ _ _ _ _ _ H2).
  exact H3.
Qed.

(** ** The counters *)

Lemma getCount_increment state key key' :
  getCount (increment state key) key'
  = getCount state key' + (if decide (key = key') then 1 else 0).
Proof.
  unfold increment, getCount at 1.
  destruct (decide (key = key')) as [->|Hne].
  - by rewrite lookup_insert_eq.
  - rewrite lookup_insert_ne by done. unfold getCount. lia.
Qed.

Lemma getCount_fold_increment prefix xs key : forall state,
  getCount (fold_left (fun st x => increment st (prefix +:+ x)) xs state) key
  = getCount state key + occurrences prefix key xs.
Proof.
  unfold occurrences.
  induction xs as [|x xs IH]; intros state; simpl; [lia|].
  rewrite IH, getCount_increment, filter_cons.
  destruct (decide (prefix +:+ x = key)); simpl; lia.
Qed.

(** After the update, a counter holds what it held plus the number of tokens
    and of image tags that count for it. *)
Lemma getCount_updateState state userTokens eventTags key :
  getCount (updateState state userTokens eventTags) key
  = getCount state key + occurrences "kw_" key userTokens
    + occurrences "tag_" key eventTags.
Proof.
  unfold updateState. by rewrite !getCount_fold_increment.
Qed.

Lemma getCount_stateAfter state rule key :
  getCount (stateAfter state rule) key
  = if triggered rule state && LogicRule.resetOnTrigger rule
       && bool_decide (keyOf rule = key)
    then 0 else getCount state key.
Proof.
  unfold stateAfter.
  destruct (triggered rule state && LogicRule.resetOnTrigger rule); [|done].
  simpl. unfold getCount. case_bool_decide as Hk.
  - subst. by rewrite lookup_insert_eq.
  - by rewrite lookup_insert_ne.
Qed.

(** Checking the rules leaves a counter as it is or at zero, and at zero only
    if a rule that reads it resets on firing. *)
Lemma getCount_fold_stateAfter rules key : forall state,
  getCount (fold_left stateAfter rules state) key = getCount state key
  \/ (getCount (fold_left stateAfter rules state) key = 0
      /\ exists rule, rule ∈ rules /\ keyOf rule = key
                      /\ LogicRule.resetOnTrigger rule = true).
Proof.
  induction rules as [|rule rules IH]; intros state; simpl; [by left|].
  destruct (IH (stateAfter state rule)) as [Heq|(Hz & r & Hr & Hk & Hreset)].
  - rewrite Heq, getCount_stateAfter.
    destruct (triggered rule state); simpl; [|by left].
    destruct (LogicRule.resetOnTrigger rule) eqn:Hreset; simpl; [|by left].
    case_bool_decide; [|by left].
    right. split; [done|]. exists rule. split; [left|done].
  - right. split; [done|]. exists r. split; [by right|done].
Qed.

Lemma getCount_fold_stateAfter_other rules key state :
  (forall rule, rule ∈ rules -> LogicRule.resetOnTrigger rule = true ->
     keyOf rule <> key) ->
  getCount (fold_left stateAfter rules state) key = getCount state key.
Proof.
  intros Hother.
  destruct (getCount_fold_stateAfter rules key state)
    as [Heq|(_ & r & Hr & Hk & Hreset)]; [done|].
  by destruct (Hother r Hr Hreset).
Qed.

Lemma firedRules_app rules1 rules2 : forall state,
  firedRules (rules1 ++ rules2) state
  = firedRules rules1 state
    ++ firedRules rules2 (fold_left stateAfter rules1 state).
Proof.
  induction rules1 as [|r rs IH]; intros state; simpl; [done|].
  by rewrite IH, app_assoc.
Qed.

Lemma firedRules_subseteq rules : forall state rule,
  rule ∈ firedRules rules state -> rule ∈ rules.
Proof.
  induction rules as [|r rs IH]; intros state rule; simpl.
  - intros H. by apply elem_of_nil in H.
  - intros [H|H]%elem_of_app.
    + destruct (triggered r state); [|by apply elem_of_nil in H].
      apply list_elem_of_singleton in H. subst. left.
    + right. by eapply IH.
Qed.

(** Phase 2 prints nothing but failures of the store. *)
Lemma customTrainingPhase_console personaId currentPhase map lowerMsg
    userTokenSet l w s :
  wp (customTrainingPhase personaId currentPhase map lowerMsg userTokenSet l)
    w s
    (fun _ s' => exists extra,
       console s' = console s ++ extra
       /\ Forall (fun e => e = FailedToFetchImage) extra).
Proof.
  apply (customTrainingPhase_inv personaId w
    (fun _ s' => exists extra,
       console s' = console s ++ extra
       /\ Forall (fun e => e = FailedToFetchImage) extra)); try done.
  - intros l0 s0 _ (extra & Hc & Hall). exists (extra ++ [FailedToFetchImage]).
    simpl. rewrite Hc, app_assoc. split; [done|].
    apply Forall_app. split; [done|]. by apply Forall_singleton.
  - exists []. by rewrite app_nil_r.
Qed.

(** The phases of an ordinary turn, with what each is known to leave. *)
Lemma ordinary_turn_summary persona messageContent messageType history w s :
  messageType <> AUDIO ->
  pending persona = false ->
  exists l1 s1 l2 s2 reply s3,
    customTrainingPhase (PersonaProfile.id persona) (currentPhaseOf w)
      (PersonaProfile.neuralMap persona) (lowerMsgOf messageContent)
      (userTokenSetOf messageContent) (initialLocals persona) w s
    = (Returned l1, s1)
    /\ processOfflineMessage persona messageContent messageType history w s
       = (Returned reply, s3)
    /\ Memory.logicCounts (memory l1)
       = Some (default ∅ (Memory.logicCounts (PersonaProfile.memory persona)))
    /\ logicEnginePost (PersonaProfile.id persona) w
         (PersonaProfile.neuralMap persona) (tokenize messageContent)
         l1 s1 l2 s2
    /\ fallbackPost persona messageContent (lowerMsgOf messageContent)
         l2 s2 reply s3.
Proof.
  intros Hty Hp.
  destruct (ordinary_turn_phases persona messageContent messageType history
              w s Hty Hp) as (l1 & s1 & l2 & s2 & reply & s3 & H1 & H2 & H3 & H).
  exists l1, s1, l2, s2, reply, s3.
  split; [done|]. split; [done|]. split.
  { pose proof (wp_at _ _ _ _ _ _
      (customTrainingPhase_memory _ _ _ _ _ _ w s) H1) as (_ & Hc & _).
    by rewrite Hc. }
  split.
  - exact (wp_at _ _ _ _ _ _ (logicEngine_spec _ w _ _ l1 s1) H2).
  - exact (wp_at _ _ _ _ _ _ (fallbackConversation_spec _ _ _ _ l2 w s2) H3).
Qed.

(** The memory of the persona a reply carries holds the counters the fallback
    conversation was given. *)
Lemma fallbackPost_counters persona messageContent lowerMsg l s reply s' :
  fallbackPost persona messageContent lowerMsg l s reply s' ->
  Memory.logicCounts (PersonaProfile.memory (Reply.updatedPersona reply))
  = Memory.logicCounts (memory l)
  /\ Memory.lastSentImageIds
       (PersonaProfile.memory (Reply.updatedPersona reply))
     = Memory.lastSentImageIds (memory l).
Proof.
  intros (_ & _ & _ & H). destruct (produced l).
  - by destruct H as [-> _].
  - destruct (intentRecognised lowerMsg).
    + by rewrite H.
    + by destruct H as [-> _].
Qed.

(** The console after the logic engine, whatever the logic rules. *)
Lemma logicEnginePost_console personaId w map userTokens l s l' s' :
  logicEnginePost personaId w map userTokens l s l' s' ->
  console s'
  = console s
    ++ (LogicRuleTriggered <$>
          firedRules (default [] (NeuralMap.logicRules map))
            (countersChecked userTokens l)).
Proof.
  unfold logicEnginePost.
  destruct (NeuralMap.logicRules map) as [[|r rs]|]; simpl.
  - intros [_ ->]. by rewrite app_nil_r.
  - by intros (_ & -> & _).
  - intros [_ ->]. by rewrite app_nil_r.
Qed.

(** The phases of an ordinary turn, with what each does to the image. *)
Lemma ordinary_turn_images persona messageContent messageType history w s :
  messageType <> AUDIO ->
  pending persona = false ->
  exists l1 s1 l2 s2 reply s3,
    customTrainingPhase (PersonaProfile.id persona) (currentPhaseOf w)
      (PersonaProfile.neuralMap persona) (lowerMsgOf messageContent)
      (userTokenSetOf messageContent) (initialLocals persona) w s
    = (Returned l1, s1)
    /\ processOfflineMessage persona messageContent messageType history w s
       = (Returned reply, s3)
    /\ imageStepPost (PersonaProfile.id persona) w
         (bestImageOf (PersonaProfile.neuralMap persona)
            (lowerMsgOf messageContent) (userTokenSetOf messageContent))
         (initialLocals persona) s l1
    /\ Memory.logicCounts (memory l1)
       = Some (default ∅ (Memory.logicCounts (PersonaProfile.memory persona)))
    /\ logicEnginePost (PersonaProfile.id persona) w
         (PersonaProfile.neuralMap persona) (tokenize messageContent)
         l1 s1 l2 s2
    /\ (existsb sendsImage
          (firedRules
             (default []
                (NeuralMap.logicRules (PersonaProfile.neuralMap persona)))
             (countersChecked (tokenize messageContent) l1)) = false ->
        responseImage l2 = responseImage l1)
    /\ fallbackPost persona messageContent (lowerMsgOf messageContent)
         l2 s2 reply s3
    /\ exists extra,
         console s3
         = console s ++ extra
           ++ (LogicRuleTriggered <$>
                 firedRules
                   (default []
                      (NeuralMap.logicRules (PersonaProfile.neuralMap persona)))
                   (countersChecked (tokenize messageContent) l1))
         /\ Forall (fun e => e = FailedToFetchImage) extra.
Proof.
  intros Hty Hp.
  destruct (ordinary_turn_phases persona messageContent messageType history
              w s Hty Hp) as (l1 & s1 & l2 & s2 & reply & s3 & H1 & H2 & H3 & H).
  exists l1, s1, l2, s2, reply, s3.
  pose proof (wp_at _ _ _ _ _ _ (logicEngine_spec _ w _ _ l1 s1) H2) as Hlogic.
  pose proof (wp_at _ _ _ _ _ _
    (fallbackConversation_spec _ _ _ _ l2 w s2) H3) as Hfb.
  split; [done|]. split; [done|]. split.
  { exact (wp_at _ _ _ _ _ _
             (customTrainingPhase_outcome _ _ _ _ _ _ w s) H1). }
  split.
  { pose proof (wp_at _ _ _ _ _ _
      (customTrainingPhase_memory _ _ _ _ _ _ w s) H1) as (_ & Hc & _).
    by rewrite Hc. }
  split; [done|]. split.
  { exact (wp_at _ _ _ _ _ _ (logicEngine_image _ w _ _ l1 s1) H2). }
  split; [done|].
  pose proof (wp_at _ _ _ _ _ _
    (customTrainingPhase_console _ _ _ _ _ _ w s) H1)
    as (extra & Hcon1 & Hextra).
  exists extra. split; [|done].
  destruct Hfb as (_ & -> & _).
  rewrite (logicEnginePost_console _ _ _ _ _ _ _ _ Hlogic), Hcon1.
  by rewrite <- app_assoc.
Qed.


Lemma logged_fired rule s s' extra fired :
  console s' = console s ++ extra ++ (LogicRuleTriggered <$> fired) ->
  Forall (fun e => e = FailedToFetchImage) extra ->
  logged rule s s' = true -> rule ∈ fired.
Proof.
  intros Hcon Hextra. unfold logged, printed.
  rewrite Hcon, drop_app_length. intros Hin%bool_decide_eq_true.
  apply elem_of_app in Hin as [Hin|Hin].
  - eapply Forall_forall in Hextra; [|exact Hin]. done.
  - by apply list_elem_of_fmap in Hin as (r & [= <-] & Hin).
Qed.

(** A rule that has fired and resets on firing leaves its counter at zero,
    whatever the rules checked after it do. *)
Lemma fired_reset_zero rules : forall state rule,
  rule ∈ firedRules rules state ->
  LogicRule.resetOnTrigger rule = true ->
  getCount (fold_left stateAfter rules state) (keyOf rule) = 0.
Proof.
  induction rules as [|r0 rules IH]; intros state rule Hin Hreset;
    simpl in Hin.
  { by apply elem_of_nil in Hin. }
  apply elem_of_app in Hin as [Hin|Hin]; [|by apply IH].
  destruct (triggered r0 state) eqn:Htr; [|by apply elem_of_nil in Hin].
  apply list_elem_of_singleton in Hin. subst r0. simpl.
  destruct (getCount_fold_stateAfter rules (keyOf rule) (stateAfter state rule))
    as [Heq|[Hz _]]; [|done].
  rewrite Heq, getCount_stateAfter, Htr, Hreset. simpl.
  by rewrite bool_decide_eq_true_2.
Qed.

(** What step 2b has sent, case by case. *)
Lemma imageStepPost_cases personaId w best l s l' :
  imageStepPost personaId w best l s l' ->
  nothingSent l l'
  \/ exists m imageTag all,
       best = Some m
       /\ TrainingPair.imageTag (Match.rule m) = Some imageTag
       /\ storedImages w (queries s) personaId = Some all
       /\ imageSent imageTag (tagged [imageTag] all) l l'.
Proof.
  unfold imageStepPost. intros H.
  destruct best as [m|]; [|by left].
  destruct (TrainingPair.imageTag (Match.rule m)) as [imageTag|] eqn:Htag;
    [|by left].
  destruct (storedImages w (queries s) personaId) as [all|] eqn:Hstore;
    [|by left].
  destruct (JS.truthy imageTag && _); [|by left].
  right. by exists m, imageTag, all.
Qed.

(** The best image rule is one of the rules, and an image rule. *)
Lemma fold_considerRule_image lowerMsg userTokenSet rules seen : forall best,
  (forall m, bestImageMatch best = Some m ->
     Match.rule m ∈ rules /\ TrainingPair.type (Match.rule m) = image_trigger) ->
  seen ⊆ rules ->
  forall m,
    bestImageMatch (fold_left (considerRule lowerMsg userTokenSet) seen best)
    = Some m ->
    Match.rule m ∈ rules /\ TrainingPair.type (Match.rule m) = image_trigger.
Proof.
  induction seen as [|r seen IH]; intros best Hbest Hsub; simpl; [auto|].
  apply IH.
  - intros m'. unfold considerRule.
    destruct (patternsOf r); [auto|].
    destruct (gtb _ 0); [|auto].
    destruct (TrainingPair.type r) eqn:Hty;
      try (destruct (beats _ _); simpl; auto).
    intros [= <-]. simpl. split; [|done]. apply Hsub. left.
  - intros x Hx. apply Hsub. by right.
Qed.

Lemma bestImageMatch_elem lowerMsg userTokenSet rules m :
  bestImageMatch (bestMatches lowerMsg userTokenSet rules) = Some m ->
  Match.rule m ∈ rules /\ TrainingPair.type (Match.rule m) = image_trigger.
Proof.
  apply (fold_considerRule_image lowerMsg userTokenSet rules rules
           (mkBest None None None)); done.
Qed.

(** C2, as amended. On a turn that is neither a voice message nor the answer
    to a pending question, of a persona that has at least one logic rule, the
    counters are updated whether or not a trained rule matched: each counter
    is raised by the number of tokens of the message and of image tags sent
    in step 2b that count for it. The tags sent are none, and then step 2b
    has put no image in the reply and remembered no id, or the tag of one of
    the image rules of the persona, and then the image of the reply after phase 2 is an image that
    the store holds for that tag, whose id the returned persona remembers
    last. The rules are then checked: a rule that fires and resets on firing
    is printed as triggered and leaves its own counter at zero, a counter is left either at its
    updated count or at zero, and every counter that no resetting rule reads
    holds the updated count when the turn returns. A persona without logic
    rules keeps its counters as they are. *)
Theorem counters_updated_when_logic_rules :
  (forall persona messageContent messageType history w s rule rules,
     messageType <> AUDIO ->
     pending persona = false ->
     NeuralMap.logicRules (PersonaProfile.neuralMap persona)
     = Some (rule :: rules) ->
     exists l1 s1 reply s',
       customTrainingPhase (PersonaProfile.id persona) (currentPhaseOf w)
         (PersonaProfile.neuralMap persona) (lowerMsgOf messageContent)
         (userTokenSetOf messageContent) (initialLocals persona) w s
       = (Returned l1, s1)
       /\ processOfflineMessage persona messageContent messageType history w s
          = (Returned reply, s')
       /\ ((eventTagsTriggered l1 = []
            /\ responseImage l1 = None
            /\ lastSentOf (Reply.updatedPersona reply) = lastSentOf persona)
           \/ exists imageRule imageTag all img,
                imageRule
                ∈ default []
                    (NeuralMap.customTraining (PersonaProfile.neuralMap persona))
                /\ TrainingPair.type imageRule = image_trigger
                /\ TrainingPair.imageTag imageRule = Some imageTag
                /\ storedImages w (queries s) (PersonaProfile.id persona)
                   = Some all
                /\ img ∈ tagged [imageTag] all
                /\ eventTagsTriggered l1 = [imageTag]
                /\ responseImage l1 = Some (DBImage.data img)
                /\ last (lastSentOf (Reply.updatedPersona reply))
                   = Some (DBImage.id img))
       /\ (forall key,
             let updated :=
               getCount (countersOf persona) key
               + occurrences "kw_" key (tokenize messageContent)
               + occurrences "tag_" key (eventTagsTriggered l1) in
             let after :=
               getCount (countersOf (Reply.updatedPersona reply)) key in
             (after = updated
              \/ (after = 0
                  /\ exists r, r ∈ rule :: rules /\ keyOf r = key
                               /\ LogicRule.resetOnTrigger r = true))
             /\ ((forall r, r ∈ rule :: rules ->
                    LogicRule.resetOnTrigger r = true -> keyOf r <> key) ->
                 after = updated))
       /\ (forall before r after,
             rule :: rules = before ++ r :: after ->
             firesAfter before r (countersChecked (tokenize messageContent) l1)
             = true ->
             LogicRule.resetOnTrigger r = true ->
             logged r s s' = true
             /\ getCount (countersOf (Reply.updatedPersona reply)) (keyOf r)
                = 0)
       /\ (forall r,
             logged r s s' = true ->
             LogicRule.resetOnTrigger r = true ->
             r ∈ rule :: rules
             /\ getCount (countersOf (Reply.updatedPersona reply)) (keyOf r)
                = 0))
  /\ (forall persona messageContent messageType history w s,
        messageType <> AUDIO ->
        pending persona = false ->
        default [] (NeuralMap.logicRules (PersonaProfile.neuralMap persona))
        = [] ->
        exists reply s',
          processOfflineMessage persona messageContent messageType history w s
          = (Returned reply, s')
          /\ countersOf (Reply.updatedPersona reply) = countersOf persona).
Proof.
  split.
  - intros persona messageContent messageType history w s rule rules
      Hty Hp Hrules.
    destruct (ordinary_turn_images persona messageContent messageType history
                w s Hty Hp)
      as (l1 & s1 & l2 & s2 & reply & s3 & H1 & H & Hstep & Hc1 & Hlogic & _
          & Hfb & extra & Hcon & Hextra).
    exists l1, s1, reply, s3. split; [done|]. split; [done|].
    apply fallbackPost_counters in Hfb as [Hc Hls].
    unfold logicEnginePost in Hlogic. rewrite Hrules in Hlogic.
    destruct Hlogic as (Hm & _).
    rewrite Hrules in Hcon. simpl default in Hcon.
    assert (Hseen : lastSentOf (Reply.updatedPersona reply) = seenOf l1).
    { unfold lastSentOf, seenOf. by rewrite Hls, Hm. }
    assert (Hafter : forall key,
      getCount (countersOf (Reply.updatedPersona reply)) key
      = getCount (fold_left stateAfter (rule :: rules)
                    (countersChecked (tokenize messageContent) l1)) key).
    { intros key. unfold countersOf. by rewrite Hc, Hm. }
    split; [|split; [|split]].
    + apply imageStepPost_cases in Hstep
        as [(He & Hi & Hmem)|(m & imageTag & all & Hbest & Htag & Hstore
                               & img & Himg & Hi & He & Hs)].
      * left. split; [done|]. split; [done|].
        rewrite Hseen. unfold seenOf. by rewrite Hmem.
      * right. exists (Match.rule m), imageTag, all, img.
        apply bestImageMatch_elem in Hbest as [Hin Hkind].
        split; [done|]. split; [done|]. split; [done|]. split; [done|].
        split; [by eapply antiRepetition_subseteq|].
        split; [done|]. split; [done|].
        by rewrite Hseen, Hs, last_snoc.
    + intros key updated after.
      assert (Hupd : getCount (countersChecked (tokenize messageContent) l1) key
                     = updated).
      { unfold countersChecked. rewrite getCount_updateState, Hc1. done. }
      subst after. rewrite Hafter, <- Hupd. split.
      * apply getCount_fold_stateAfter.
      * apply getCount_fold_stateAfter_other.
    + intros before r after Hsplit Hfires Hreset.
      assert (Hfired : r ∈ firedRules (rule :: rules)
                             (countersChecked (tokenize messageContent) l1)).
      { rewrite Hsplit, firedRules_app. simpl.
        unfold firesAfter in Hfires. rewrite Hfires.
        apply elem_of_app. right. left. }
      split; [|rewrite Hafter; by apply fired_reset_zero].
      unfold logged, printed. rewrite Hcon, drop_app_length.
      apply bool_decide_eq_true_2, elem_of_app. right.
      by apply list_elem_of_fmap_2.
    + intros r Hlogged Hreset.
      pose proof (logged_fired _ _ _ _ _ Hcon Hextra Hlogged) as Hfired.
      split; [by eapply firedRules_subseteq|].
      rewrite Hafter. by apply fired_reset_zero.
  - intros persona messageContent messageType history w s Hty Hp Hnone.
    destruct (ordinary_turn_images persona messageContent messageType history
                w s Hty Hp)
      as (l1 & s1 & l2 & s2 & reply & s3 & H1 & H & _ & Hc1 & Hlogic & _
          & Hfb & _).
    exists reply, s3. split; [done|].
    apply fallbackPost_counters in Hfb as [Hc _].
    unfold countersOf. rewrite Hc.
    unfold logicEnginePost in Hlogic.
    destruct (NeuralMap.logicRules _) as [[|r rs]|]; try done;
      destruct Hlogic as [-> _]; by rewrite Hc1.
Qed.

(** C2, as stated, fails: a persona without logic rules keeps its counters as
    they are; the token "hello" of the message is not counted. *)
Lemma counters_not_updated_without_logic_rules :
  pending (Demo.persona [] []) = false
  /\ tokenize "hello" = ["hello"]
  /\ getCount (countersOf (Demo.persona [] [])) "kw_hello" = 0
  /\ exists reply s',
       processOfflineMessage (Demo.persona [] []) "hello" TEXT []
         (Demo.world []) startRun
       = (Returned reply, s')
       /\ getCount (countersOf (Reply.updatedPersona reply)) "kw_hello" = 0.
Proof.
  split; [done|]. split; [by vm_compute|]. split; [done|].
  eexists _, _. split; [vm_compute; reflexivity|]. done.
Qed.

Lemma counters_updated_when_logic_rules_witness :
  TEXT <> AUDIO
  /\ pending (Demo.persona [Demo.greeting] [Demo.fooRule]) = false
  /\ (exists reply s',
        processOfflineMessage (Demo.persona [Demo.greeting] [Demo.fooRule])
          "bar bar" TEXT [] (Demo.world []) startRun
        = (Returned reply, s')
        /\ Reply.image reply = None
        /\ getCount (countersOf (Reply.updatedPersona reply)) "kw_bar" = 2)
  /\ pending DemoTags.persona = false
  /\ (exists reply s',
        processOfflineMessage DemoTags.persona "A cat, please!" TEXT []
          (Demo.world DemoImages.cats) startRun
        = (Returned reply, s')
        /\ Reply.image reply = Some (StringData "data:b")
        /\ getCount (countersOf (Reply.updatedPersona reply)) "tag_cat" = 1
        /\ getCount (countersOf (Reply.updatedPersona reply)) "kw_cat" = 1).
Proof.
  split; [done|]. split; [done|]. split; [|split; [done|]].
  - destruct (proj1 counters_updated_when_logic_rules
                (Demo.persona [Demo.greeting] [Demo.fooRule]) "bar bar" TEXT []
                (Demo.world []) startRun Demo.fooRule [])
      as (l1 & s1 & reply & s' & H1 & H & _ & Hkey & _); [done..|].
    exists reply, s'. split; [done|].
    split; [vm_compute in H; by injection H as <- _|].
    destruct (Hkey "kw_bar") as [_ Hother].
    rewrite Hother.
    + assert (Htags : eventTagsTriggered l1 = []).
      { vm_compute in H1. by injection H1 as <- _. }
      rewrite Htags. by vm_compute.
    + intros r Hr%list_elem_of_singleton _. by subst r.
  - destruct (proj1 counters_updated_when_logic_rules
                DemoTags.persona "A cat, please!" TEXT []
                (Demo.world DemoImages.cats) startRun DemoTags.catCounter [])
      as (l1 & s1 & reply & s' & H1 & H & _ & Hkey & _); [done..|].
    exists reply, s'. split; [done|].
    split; [vm_compute in H; by injection H as <- _|].
    assert (Htags : eventTagsTriggered l1 = ["cat"]).
    { vm_compute in H1. by injection H1 as <- _. }
    split.
    + destruct (Hkey "tag_cat") as [_ Hother].
      rewrite Hother; [by rewrite Htags|].
      intros r Hr%list_elem_of_singleton Hreset. by subst r.
    + destruct (Hkey "kw_cat") as [_ Hother].
      rewrite Hother; [by rewrite Htags|].
      intros r Hr%list_elem_of_singleton Hreset. by subst r.
Defined.

(** ** Thresholds *)

Lemma triggered_iff rule state :
  0 < LogicRule.threshold rule ->
  triggered rule state = true
  <-> LogicRule.threshold rule <= getCount state (keyOf rule).
Proof.
  intros Ht. unfold triggered. rewrite andb_true_iff, Z.ltb_lt, Z.leb_le. lia.
Qed.

Lemma triggered_positive rule state :
  triggered rule state = true -> 0 < getCount state (keyOf rule).
Proof.
  unfold triggered. rewrite andb_true_iff, Z.ltb_lt. tauto.
Qed.

(** Checking a rule never raises a counter. *)
Lemma getCount_stateAfter_le state rule key :
  getCount (stateAfter state rule) key <= getCount state key.
Proof.
  rewrite getCount_stateAfter.
  destruct (triggered rule state) eqn:Htr; simpl; [|lia].
  destruct (LogicRule.resetOnTrigger rule); simpl; [|lia].
  case_bool_decide as Hk; [|lia].
  apply triggered_positive in Htr. subst key. lia.
Qed.

Lemma getCount_fold_stateAfter_le rules key : forall state,
  getCount (fold_left stateAfter rules state) key <= getCount state key.
Proof.
  induction rules as [|r rs IH]; intros state; simpl; [lia|].
  etrans; [apply IH|]. apply getCount_stateAfter_le.
Qed.

Lemma occurrences_keyword rule userTokens :
  LogicRule.monitor rule = user_says_keyword ->
  occurrences "kw_" (keyOf rule) userTokens
  = Z.of_nat (length (filter (fun t => t = JS.toLowerCase (LogicRule.target rule))
                        userTokens)).
Proof.
  intros Hm. unfold occurrences, keyOf. rewrite Hm. f_equal.
  induction userTokens as [|x xs IH]; [done|].
  rewrite !filter_cons.
  destruct (decide (x = JS.toLowerCase (LogicRule.target rule))) as [->|Hne].
  - rewrite decide_True by done. simpl. by rewrite IH.
  - rewrite decide_False; [done|]. intros H. by simplify_eq.
Qed.

Lemma occurrences_tag_keyword rule eventTags :
  LogicRule.monitor rule = user_says_keyword ->
  occurrences "tag_" (keyOf rule) eventTags = 0.
Proof.
  intros Hm. unfold occurrences, keyOf. rewrite Hm.
  induction eventTags as [|x xs IH]; [done|].
  rewrite filter_cons, decide_False; [done|]. intros H. by simplify_eq.
Qed.

(** The counter of a keyword rule, once the counters are updated. *)
Lemma countersChecked_keyword rule messageContent l :
  LogicRule.monitor rule = user_says_keyword ->
  getCount (countersChecked (tokenize messageContent) l) (keyOf rule)
  = getCount (default ∅ (Memory.logicCounts (memory l))) (keyOf rule)
    + keywordCount rule messageContent.
Proof.
  intros Hm. unfold countersChecked, keywordCount.
  rewrite getCount_updateState, occurrences_keyword, occurrences_tag_keyword
    by done. lia.
Qed.

Lemma firedRules_at before rule after checked :
  firedRules (before ++ rule :: after) checked
  = firedRules before checked
    ++ (if firesAfter before rule checked then [rule] else [])
    ++ firedRules after
         (stateAfter (fold_left stateAfter before checked) rule).
Proof. by rewrite firedRules_app. Qed.

(** One ordinary turn, seen from a keyword rule of the persona. *)
Lemma keyword_rule_turn persona messageContent messageType history w s
    before rule after :
  messageType <> AUDIO ->
  pending persona = false ->
  NeuralMap.logicRules (PersonaProfile.neuralMap persona)
  = Some (before ++ rule :: after) ->
  LogicRule.monitor rule = user_says_keyword ->
  0 < LogicRule.threshold rule ->
  exists l1 s1 reply s',
    customTrainingPhase (PersonaProfile.id persona) (currentPhaseOf w)
      (PersonaProfile.neuralMap persona) (lowerMsgOf messageContent)
      (userTokenSetOf messageContent) (initialLocals persona) w s
    = (Returned l1, s1)
    /\ processOfflineMessage persona messageContent messageType history w s
       = (Returned reply, s')
    /\ let key := keyOf rule in
       let checked := countersChecked (tokenize messageContent) l1 in
       let read := getCount (fold_left stateAfter before checked) key in
       let fired := firesAfter before rule checked in
       let left := getCount (countersOf (Reply.updatedPersona reply)) key in
       getCount checked key
       = getCount (countersOf persona) key + keywordCount rule messageContent
       /\ (fired = true <-> LogicRule.threshold rule <= read)
       /\ read <= getCount checked key
       /\ ((forall r, r ∈ before -> LogicRule.resetOnTrigger r = true ->
              keyOf r <> key) ->
           read = getCount checked key)
       /\ (exists extra,
             console s'
             = console s ++ extra
               ++ (LogicRuleTriggered <$>
                     firedRules before checked
                     ++ (if fired then [rule] else [])
                     ++ firedRules after
                          (stateAfter (fold_left stateAfter before checked)
                             rule))
             /\ Forall (fun e => e = FailedToFetchImage) extra)
       /\ (fired = true -> LogicRule.resetOnTrigger rule = true -> left = 0)
       /\ left <= getCount checked key
       /\ ((forall r, r ∈ before ++ after ->
              LogicRule.resetOnTrigger r = true -> keyOf r <> key) ->
           left = if fired && LogicRule.resetOnTrigger rule then 0
                  else getCount checked key).
Proof.
  intros Hty Hp Hrules Hmon Hthr.
  destruct (ordinary_turn_summary persona messageContent messageType history
              w s Hty Hp)
    as (l1 & s1 & l2 & s2 & reply & s3 & H1 & H & Hc1 & Hlogic & Hfb).
  exists l1, s1, reply, s3. split; [done|]. split; [done|].
  intros key checked read fired left.
  pose proof (wp_at _ _ _ _ _ _
    (customTrainingPhase_console _ _ _ _ _ _ w s) H1)
    as (extra & Hcon1 & Hextra).
  pose proof Hfb as (_ & Hcon3 & _).
  apply fallbackPost_counters in Hfb as [Hc _].
  unfold logicEnginePost in Hlogic. rewrite Hrules in Hlogic.
  destruct (before ++ rule :: after) as [|r0 rs0] eqn:Hlist.
  { by destruct before. }
  destruct Hlogic as (Hm & Hcon2 & _). rewrite <- Hlist in *. clear Hlist.
  assert (Hleft : left
    = getCount (fold_left stateAfter (before ++ rule :: after) checked) key).
  { subst left. unfold countersOf. by rewrite Hc, Hm. }
  assert (Hpos : getCount
            (stateAfter (fold_left stateAfter before checked) rule) key
          = if fired && LogicRule.resetOnTrigger rule then 0 else read).
  { rewrite getCount_stateAfter. subst fired read. unfold firesAfter.
    destruct (triggered rule _ && _); [|done].
    by rewrite bool_decide_eq_true_2. }
  split.
  { unfold checked, key. rewrite countersChecked_keyword by done.
    unfold countersOf. by rewrite Hc1. }
  split; [by apply triggered_iff|].
  split; [apply getCount_fold_stateAfter_le|].
  split; [apply getCount_fold_stateAfter_other|].
  split.
  { exists extra. split; [|done].
    rewrite Hcon3, Hcon2, Hcon1, firedRules_at. by rewrite <- app_assoc. }
  split.
  { intros Hf Hr. rewrite Hleft, fold_left_app. simpl.
    destruct (getCount_fold_stateAfter after key
                (stateAfter (fold_left stateAfter before checked) rule))
      as [Heq|[Hz _]]; [|done].
    rewrite Heq, Hpos, Hf, Hr. done. }
  split.
  { rewrite Hleft. apply getCount_fold_stateAfter_le. }
  intros Hother. rewrite Hleft, fold_left_app. simpl.
  rewrite getCount_fold_stateAfter_other.
  2: { intros r Hr. apply Hother, elem_of_app. by right. }
  rewrite Hpos. destruct (fired && _); [done|].
  subst read. apply getCount_fold_stateAfter_other.
  intros r Hr. apply Hother, elem_of_app. by left.
Qed.

(** Whether a rule is triggered depends on the counter it reads only. *)
Lemma triggered_same_count rule state state' :
  getCount state (keyOf rule) = getCount state' (keyOf rule) ->
  triggered rule state = triggered rule state'.
Proof. intros H. unfold triggered. by rewrite H. Qed.

(** A rule that has fired in a list none of whose rules resets its counter
    was triggered on the counters the list was given. *)
Lemma firedRules_triggered rules : forall state rule,
  (forall r, r ∈ rules -> LogicRule.resetOnTrigger r = true ->
     keyOf r <> keyOf rule) ->
  rule ∈ firedRules rules state -> triggered rule state = true.
Proof.
  induction rules as [|r0 rules IH]; intros state rule Hother Hin; simpl in Hin.
  { by apply elem_of_nil in Hin. }
  apply elem_of_app in Hin as [Hin|Hin].
  - destruct (triggered r0 state) eqn:Htr; [|by apply elem_of_nil in Hin].
    apply list_elem_of_singleton in Hin. by subst.
  - apply IH in Hin.
    2: { intros r Hr. apply Hother. by right. }
    rewrite <- Hin. apply triggered_same_count.
    rewrite getCount_stateAfter.
    destruct (triggered r0 state && LogicRule.resetOnTrigger r0) eqn:E;
      [|done].
    apply andb_true_iff in E as [_ Hreset]. simpl.
    rewrite bool_decide_eq_false_2; [done|].
    apply Hother; [left|done].
Qed.

Lemma logged_iff rule s s' extra before after checked :
  console s'
  = console s ++ extra
    ++ (LogicRuleTriggered <$>
          firedRules before checked
          ++ (if firesAfter before rule checked then [rule] else [])
          ++ firedRules after
               (stateAfter (fold_left stateAfter before checked) rule)) ->
  Forall (fun e => e = FailedToFetchImage) extra ->
  (forall r, r ∈ before ++ after -> LogicRule.resetOnTrigger r = true ->
     keyOf r <> keyOf rule) ->
  logged rule s s' = firesAfter before rule checked.
Proof.
  intros Hcon Hextra Hother. unfold logged, printed.
  rewrite Hcon, drop_app_length.
  destruct (firesAfter before rule checked) eqn:Hfires.
  - apply bool_decide_eq_true_2.
    apply elem_of_app. right. apply list_elem_of_fmap. exists rule.
    split; [done|]. apply elem_of_app. right. apply elem_of_app. left. left.
  - apply bool_decide_eq_false_2.
    intros [Hin|Hin]%elem_of_app.
    + eapply Forall_forall in Hextra; [|exact Hin]. done.
    + apply list_elem_of_fmap in Hin as (r & [= <-] & Hin).
      unfold firesAfter in Hfires.
      apply elem_of_app in Hin as [Hin|Hin].
      * pose proof (firedRules_subseteq _ _ _ Hin) as Hb.
        apply firedRules_triggered in Hin.
        2: { intros r Hr. apply Hother, elem_of_app. by left. }
        rewrite (triggered_same_count rule _ checked) in Hfires;
          [congruence|].
        apply getCount_fold_stateAfter_other.
        intros r Hr. apply Hother, elem_of_app. by left.
      * simpl in Hin.
        pose proof (firedRules_subseteq _ _ _ Hin) as Ha.
        apply firedRules_triggered in Hin.
        2: { intros r Hr. apply Hother, elem_of_app. by right. }
        rewrite (triggered_same_count rule _
                   (stateAfter (fold_left stateAfter before checked) rule))
          in Hfires; [congruence|].
        rewrite getCount_stateAfter.
        destruct (triggered rule _ && LogicRule.resetOnTrigger rule) eqn:E;
          [|done].
        apply andb_true_iff in E as [_ Hreset].
        exfalso. eapply (Hother rule); [|done..].
        apply elem_of_app. by right.
Qed.

(** Successive turns fire a keyword rule as the specification expects, when
    no other logic rule of the persona resets the counter of the keyword. *)
Lemma keywordTurns_firings rule before after :
  LogicRule.monitor rule = user_says_keyword ->
  0 < LogicRule.threshold rule ->
  (forall r, r ∈ before ++ after -> LogicRule.resetOnTrigger r = true ->
     keyOf r <> keyOf rule) ->
  forall persona trace persona',
    keywordTurns rule persona trace persona' ->
    NeuralMap.logicRules (PersonaProfile.neuralMap persona)
    = Some (before ++ rule :: after) ->
    trace.*2
    = expectedFirings (LogicRule.threshold rule)
        (LogicRule.resetOnTrigger rule)
        (getCount (countersOf persona) (keyOf rule)) trace.*1.
Proof.
  intros Hmon Hthr Hother persona trace persona' Hrun.
  induction Hrun as [persona|persona messageContent messageType history w s
                       reply s' trace persona' Hty Hp Hrun Hrest IH];
    intros Hrules; [done|].
  destruct (keyword_rule_turn persona messageContent messageType history w s
              before rule after Hty Hp Hrules Hmon Hthr)
    as (l1 & s1 & reply0 & s0 & _ & Hrun0 & Hturn).
  rewrite Hrun in Hrun0. injection Hrun0 as <- <-.
  cbv zeta in Hturn.
  destruct Hturn as (Hchecked & Hfired & _ & Hread & (extra & Hcon & Hextra)
                     & _ & _ & Hleft).
  assert (Hframe : personaFrame persona (Reply.updatedPersona reply)).
  { exact (wp_at _ _ _ _ _ _
             (turn_keeps_persona persona messageContent messageType history
                w s Hp) Hrun). }
  destruct Hframe as (_ & _ & _ & _ & Hlr & _).
  rewrite fmap_cons. cbn [snd fst expectedFirings].
  rewrite (logged_iff rule s s' extra before after _ Hcon Hextra Hother).
  rewrite Hread in Hfired.
  2: { intros r Hr. apply Hother, elem_of_app. by left. }
  rewrite Hchecked in Hfired.
  assert (Hb : firesAfter before rule
                 (countersChecked (tokenize messageContent) l1)
               = (LogicRule.threshold rule
                  <=? getCount (countersOf persona) (keyOf rule)
                      + keywordCount rule messageContent)).
  { destruct (firesAfter _ _ _) eqn:Hf.
    - symmetry. apply Z.leb_le. by apply Hfired.
    - symmetry. apply Z.leb_gt. apply Z.nle_gt. intros Hle.
      apply Hfired in Hle. done. }
  rewrite Hb. f_equal.
  rewrite IH by (by rewrite Hlr).
  f_equal. rewrite Hleft by done.
  by rewrite Hb, Hchecked.
Qed.




(** ** Learning a definition *)

Lemma startsWith_refl s : JS.startsWith s s = true.
Proof. induction s as [|c s IH]; [done|]. simpl. by rewrite Ascii.eqb_refl. Qed.

Lemma includes_refl s : JS.includes s s = true.
Proof. destruct s; simpl; [done|]. by rewrite Ascii.eqb_refl, startsWith_refl. Qed.

Lemma considerRule_no_match lowerMsg userTokenSet best rule :
  gtb (maxRuleScore lowerMsg userTokenSet rule) 0 = false ->
  considerRule lowerMsg userTokenSet best rule = best.
Proof.
  intros H. unfold considerRule. rewrite H. by destruct (patternsOf rule).
Qed.

Lemma bestMatches_none lowerMsg userTokenSet rules :
  forallb (fun rule =>
    negb (gtb (maxRuleScore lowerMsg userTokenSet rule) 0)) rules = true ->
  bestMatches lowerMsg userTokenSet rules = mkBest None None None.
Proof.
  unfold bestMatches. generalize (mkBest None None None).
  induction rules as [|r rs IH]; intros best Hall; [done|].
  simpl in *. apply andb_prop in Hall as [Hr%negb_true_iff Hrs].
  rewrite considerRule_no_match by done. by apply IH.
Qed.

(** Phase 2 does nothing when no rule matches. *)
Lemma customTrainingPhase_no_match persona messageContent currentPhase l w s :
  noRuleMatches messageContent persona = true ->
  customTrainingPhase (PersonaProfile.id persona) currentPhase
    (PersonaProfile.neuralMap persona) (lowerMsgOf messageContent)
    (userTokenSetOf messageContent) l w s
  = (Returned l, s).
Proof.
  unfold noRuleMatches, matches. intros Hno. rewrite customTrainingPhase_run.
  destruct (NeuralMap.customTraining _) as [[|r rs]|]; try done.
  cbv zeta. simpl default in Hno. by rewrite (bestMatches_none _ _ _ Hno).
Qed.

Lemma learntRule_score id question answer :
  tokenize question <> [] ->
  maxRuleScore (lowerMsgOf question) (userTokenSetOf question)
    (learntRule id question answer)
  = (1000 + ofNat (length (tokenize question)))%Q.
Proof.
  intros Hne. unfold maxRuleScore, learntRule, patternsOf. simpl.
  unfold scoreStep. destruct (tokenize question) as [|t ts] eqn:Ht; [done|].
  simpl length at 1. cbn [Nat.eqb].
  rewrite patternScore_exact by apply includes_refl. rewrite Ht.
  assert (H : gtb (1000 + ofNat (length (t :: ts))) 0 = true); [|by rewrite H].
  apply gtb_lt. pose proof (ofNat_nonneg (length (t :: ts))). lra.
Qed.

Lemma learntRule_wins id question answer rules :
  tokenize question <> [] ->
  forallb (fun rule => negb (matches question rule)) rules = true ->
  bestTextMatch
    (bestMatches (lowerMsgOf question) (userTokenSetOf question)
       (rules ++ [learntRule id question answer]))
  = Some (Match.mk (learntRule id question answer)
            (1000 + ofNat (length (tokenize question)))%Q).
Proof.
  intros Hne Hno. unfold bestMatches. rewrite fold_left_app.
  fold (bestMatches (lowerMsgOf question) (userTokenSetOf question) rules).
  rewrite (bestMatches_none _ _ _ Hno). simpl. unfold considerRule.
  rewrite learntRule_score by done.
  assert (H : gtb (1000 + ofNat (length (tokenize question))) 0 = true).
  { apply gtb_lt. pose proof (ofNat_nonneg (length (tokenize question))). lra. }
  by rewrite H.
Qed.

Lemma truthy_of_tokens s : tokenize s <> [] -> JS.truthy s = true.
Proof. by destruct s. Qed.

(** A message that nothing answers is answered by the prompt to teach, and
    becomes the pending question. *)
Lemma teach_me_turn persona messageContent messageType history w s :
  messageType <> AUDIO ->
  pending persona = false ->
  noRuleMatches messageContent persona = true ->
  intentRecognised (lowerMsgOf messageContent) = false ->
  noLogicRuleFires messageContent persona = true ->
  exists persona1,
    processOfflineMessage persona messageContent messageType history w s
    = (Returned (Reply.mk askPrompt None None persona1), s)
    /\ Memory.waitingForDefinition (PersonaProfile.memory persona1)
       = Some messageContent
    /\ PersonaProfile.neuralMap persona1 = PersonaProfile.neuralMap persona
    /\ PersonaProfile.id persona1 = PersonaProfile.id persona.
Proof.
  intros Hty Hp Hno Hintent Hlogic.
  destruct (ordinary_turn_summary persona messageContent messageType history
              w s Hty Hp)
    as (l1 & s1 & l2 & s2 & reply & s3 & H1 & H & _ & Hpost & Hfb).
  rewrite customTrainingPhase_no_match in H1 by done.
  injection H1 as <- <-.
  assert (Hl2 : responseText l2 = "" /\ responseImage l2 = None
                /\ responseAudio l2 = None /\ s2 = s).
  { unfold logicEnginePost in Hpost.
    unfold noLogicRuleFires in Hlogic. apply isEmpty_true_nil in Hlogic.
    destruct (NeuralMap.logicRules _) as [[|r rs]|].
    - by destruct Hpost as [-> ->].
    - destruct Hpost as (_ & _ & _ & Hsame & _). by apply Hsame.
    - by destruct Hpost as [-> ->]. }
  destruct Hl2 as (Ht & Hi & Ha & ->).
  destruct Hfb as (_ & _ & _ & Hfb).
  unfold produced in Hfb. rewrite Ht, Hi, Ha, Hintent in Hfb. simpl in Hfb.
  destruct Hfb as [-> ->].
  eexists. split; [exact H|]. done.
Qed.

(** C4, as amended. With no question pending, a message [question] that has
    at least one token, that no trained rule matches and no intent classifier
    recognises, sent on a turn on which no logic rule fires, is answered by
    the prompt to teach and becomes the pending question. The next message
    [answer] (not a voice message) is answered by the acknowledgement, without
    a random draw, a query of the store or a line printed: it adds after the
    trained rules one text rule whose only phrase is [question] and whose
    only response is [answer], leaves the logic rules and the identity as
    they were and clears the pending question. From then on the new rule
    scores 1000 plus the number of tokens of [question] on [question], and is
    the text winner among the rules of the persona. *)
Theorem pending_definition_round_trip :
  forall persona question answer type1 type2 history1 history2 w1 s1 w2 s2,
    type1 <> AUDIO ->
    type2 <> AUDIO ->
    pending persona = false ->
    tokenize question <> [] ->
    noRuleMatches question persona = true ->
    intentRecognised (lowerMsgOf question) = false ->
    noLogicRuleFires question persona = true ->
    let rules :=
      default [] (NeuralMap.customTraining (PersonaProfile.neuralMap persona)) in
    let newRule := learntRule (now w2) question answer in
    let score := (1000 + ofNat (length (tokenize question)))%Q in
    exists persona1 persona2,
      processOfflineMessage persona question type1 history1 w1 s1
      = (Returned (Reply.mk askPrompt None None persona1), s1)
      /\ Memory.waitingForDefinition (PersonaProfile.memory persona1)
         = Some question
      /\ PersonaProfile.neuralMap persona1 = PersonaProfile.neuralMap persona
      /\ processOfflineMessage persona1 answer type2 history2 w2 s2
         = (Returned (Reply.mk thankYou None None persona2), s2)
      /\ NeuralMap.customTraining (PersonaProfile.neuralMap persona2)
         = Some (rules ++ [newRule])
      /\ patternsOf newRule = [question]
      /\ TrainingPair.responses newRule
         = [TrainingResponse.mk answer (Some any)]
      /\ TrainingPair.type newRule = text
      /\ NeuralMap.logicRules (PersonaProfile.neuralMap persona2)
         = NeuralMap.logicRules (PersonaProfile.neuralMap persona)
      /\ NeuralMap.coreIdentity (PersonaProfile.neuralMap persona2)
         = NeuralMap.coreIdentity (PersonaProfile.neuralMap persona)
      /\ Memory.waitingForDefinition (PersonaProfile.memory persona2) = None
      /\ maxRuleScore (lowerMsgOf question) (userTokenSetOf question) newRule
         = score
      /\ (1000 <= score)%Q
      /\ bestTextMatch
           (bestMatches (lowerMsgOf question) (userTokenSetOf question)
              (rules ++ [newRule]))
         = Some (Match.mk newRule score).
Proof.
  intros persona question answer type1 type2 history1 history2 w1 s1 w2 s2
    Hty1 Hty2 Hp Htok Hno Hintent Hlogic rules newRule score.
  destruct (teach_me_turn persona question type1 history1 w1 s1
              Hty1 Hp Hno Hintent Hlogic) as (persona1 & H1 & Hw & Hmap & _).
  assert (Hp1 : pending persona1 = true).
  { unfold pending. rewrite Hw. simpl. by apply truthy_of_tokens. }
  eexists persona1, _. split; [exact H1|]. split; [done|]. split; [done|].
  split.
  { rewrite pending_turn_run, learnDefinition_run by done. reflexivity. }
  simpl. rewrite Hmap, Hw. simpl.
  split; [done|]. split; [by destruct question|].
  split; [done|]. split; [done|]. split; [done|]. split; [done|].
  split; [done|]. split; [by apply learntRule_score|].
  split.
  { subst score. pose proof (ofNat_nonneg (length (tokenize question))). lra. }
  by apply learntRule_wins.
Qed.

(** C4, as stated, fails in two ways. A question without a token ("?!") is
    learnt, but the rule learnt never matches it: its only phrase has no
    token and is skipped, so it scores 0. And a message that no trained rule
    matches and no classifier recognises is not answered by the prompt to
    teach when a logic rule fires on it: the rule's text is the reply and no
    question becomes pending. *)
Lemma round_trip_fails_without_token_or_with_logic_rule :
  (pending (Demo.persona [] []) = false
   /\ noRuleMatches "?!" (Demo.persona [] []) = true
   /\ intentRecognised (lowerMsgOf "?!") = false
   /\ exists persona1 persona2,
        processOfflineMessage (Demo.persona [] []) "?!" TEXT []
          (Demo.world []) startRun
        = (Returned (Reply.mk askPrompt None None persona1), startRun)
        /\ processOfflineMessage persona1 "Just punctuation." TEXT []
             (Demo.world []) startRun
           = (Returned (Reply.mk thankYou None None persona2), startRun)
        /\ NeuralMap.customTraining (PersonaProfile.neuralMap persona2)
           = Some [learntRule "1700000000000" "?!" "Just punctuation."]
        /\ maxRuleScore (lowerMsgOf "?!") (userTokenSetOf "?!")
             (learntRule "1700000000000" "?!" "Just punctuation.")
           = 0%Q
        /\ ~ (1000 <= 0)%Q)
  /\ (pending (Demo.persona [] [Demo.zzzRule]) = false
      /\ noRuleMatches "zzz" (Demo.persona [] [Demo.zzzRule]) = true
      /\ intentRecognised (lowerMsgOf "zzz") = false
      /\ exists reply s',
           processOfflineMessage (Demo.persona [] [Demo.zzzRule]) "zzz" TEXT []
             (Demo.world []) startRun
           = (Returned reply, s')
           /\ Reply.text reply = "Wake up!"
           /\ Reply.text reply <> askPrompt
           /\ Memory.waitingForDefinition
                (PersonaProfile.memory (Reply.updatedPersona reply)) = None).
Proof.
  split.
  - split; [done|]. split; [vm_compute; reflexivity|].
    split; [vm_compute; reflexivity|].
    eexists _, _. split; [vm_compute; reflexivity|].
    split; [vm_compute; reflexivity|].
    split; [vm_compute; reflexivity|]. split; [vm_compute; reflexivity|].
    by intros H.
  - split; [done|]. split; [vm_compute; reflexivity|].
    split; [vm_compute; reflexivity|].
    eexists _, _. split; [vm_compute; reflexivity|].
    split; [vm_compute; reflexivity|]. split; [by vm_compute|].
    vm_compute. reflexivity.
Qed.

Lemma pending_definition_round_trip_witness :
  tokenize "What is love?" <> []
  /\ noRuleMatches "What is love?"
       (Demo.persona [Demo.greeting] [Demo.fooRule]) = true
  /\ intentRecognised (lowerMsgOf "What is love?") = false
  /\ noLogicRuleFires "What is love?"
       (Demo.persona [Demo.greeting] [Demo.fooRule]) = true
  /\ exists persona1 persona2,
       processOfflineMessage (Demo.persona [Demo.greeting] [Demo.fooRule])
         "What is love?" TEXT [] (Demo.world []) startRun
       = (Returned (Reply.mk askPrompt None None persona1), startRun)
       /\ processOfflineMessage persona1 "Baby don't hurt me." TEXT []
            (Demo.world []) startRun
          = (Returned (Reply.mk thankYou None None persona2), startRun)
       /\ NeuralMap.customTraining (PersonaProfile.neuralMap persona2)
          = Some [Demo.greeting;
                  learntRule "1700000000000" "What is love?"
                    "Baby don't hurt me."]
       /\ maxRuleScore (lowerMsgOf "What is love?")
            (userTokenSetOf "What is love?")
            (learntRule "1700000000000" "What is love?" "Baby don't hurt me.")
          = (1000 + 3)%Q.
Proof.
  assert (Htok : tokenize "What is love?" <> []) by (by vm_compute).
  assert (Hno : noRuleMatches "What is love?"
                  (Demo.persona [Demo.greeting] [Demo.fooRule]) = true)
    by (vm_compute; reflexivity).
  assert (Hintent : intentRecognised (lowerMsgOf "What is love?") = false)
    by (vm_compute; reflexivity).
  assert (Hlogic : noLogicRuleFires "What is love?"
                     (Demo.persona [Demo.greeting] [Demo.fooRule]) = true)
    by (vm_compute; reflexivity).
  split; [exact Htok|]. split; [exact Hno|]. split; [exact Hintent|].
  split; [exact Hlogic|].
  destruct (pending_definition_round_trip
              (Demo.persona [Demo.greeting] [Demo.fooRule])
              "What is love?" "Baby don't hurt me." TEXT TEXT [] []
              (Demo.world []) startRun (Demo.world []) startRun
              ltac:(discriminate) ltac:(discriminate) eq_refl
              Htok Hno Hintent Hlogic)
    as (persona1 & persona2 & H1 & _ & _ & H2 & Hrules & _ & _ & _ & _ & _
        & _ & Hscore & _).
  exists persona1, persona2. split; [exact H1|]. split; [exact H2|].
  split; [exact Hrules|].
  etrans; [exact Hscore|]. vm_compute. reflexivity.
Defined.

(** ** Images are not repeated *)








Lemma filter_ext_in {A} (P Q : A -> Prop) `{!forall x, Decision (P x)}
    `{!forall x, Decision (Q x)} (l : list A) :
  (forall x, x ∈ l -> (P x <-> Q x)) -> filter P l = filter Q l.
Proof.
  induction l as [|a l IH]; intros Hext; [done|].
  rewrite !filter_cons.
  assert (Ha : P a <-> Q a) by (apply Hext; left).
  rewrite IH by (intros x Hx; apply Hext; by right).
  destruct (decide (P a)), (decide (Q a)); tauto.
Qed.

Lemma filter_all {A} (P : A -> Prop) `{!forall x, Decision (P x)} (l : list A) :
  (forall x, x ∈ l -> P x) -> filter P l = l.
Proof.
  induction l as [|a l IH]; intros Hall; [done|].
  rewrite filter_cons, decide_True by (apply Hall; left).
  f_equal. apply IH. intros x Hx. apply Hall. by right.
Qed.














Lemma ordinary_turn_frame_witness :
  pending (Demo.persona [Demo.greeting] [Demo.fooRule]) = false
  /\ wp (processOfflineMessage (Demo.persona [Demo.greeting] [Demo.fooRule])
           "Hi, foo!" TEXT []) (Demo.world []) startRun
       (fun reply _ =>
          personaFrame (Demo.persona [Demo.greeting] [Demo.fooRule])
            (Reply.updatedPersona reply)).
Proof.
  split; [reflexivity|].
  apply (ordinary_turn_frame (Demo.persona [Demo.greeting] [Demo.fooRule])
           "Hi, foo!" TEXT [] (Demo.world []) startRun).
  reflexivity.
Defined.

(** A store that rejects its queries: the image rule still gives its caption,
    the failure is printed, no image is sent and no id is remembered. *)
Lemma rejected_store_example :
  exists reply s',
    processOfflineMessage DemoImages.catLover "A cat, please!" TEXT []
      Demo.brokenWorld startRun
    = (Returned reply, s')
    /\ Reply.text reply = "Here is one."
    /\ Reply.image reply = None
    /\ console s' = [FailedToFetchImage]
    /\ lastSentOf (Reply.updatedPersona reply) = [].
Proof.
  eexists _, _. split; [vm_compute; reflexivity|]. by repeat split.
Qed.

(** * Properties of the helpers, the forms and the themes *)

(** ** Tokens *)

Lemma allChars_impl (P Q : ascii -> bool) s :
  (forall c, P c = true -> Q c = true) ->
  allChars P s = true -> allChars Q s = true.
Proof.
  intros HPQ. induction s as [|c r IH]; simpl; [done|].
  intros [Hc Hr]%andb_prop. by rewrite (HPQ _ Hc), IH.
Qed.

Lemma allChars_rev_app P s acc :
  allChars P (String.rev_app s acc) = allChars P s && allChars P acc.
Proof.
  revert acc. induction s as [|c r IH]; intros acc; simpl; [done|].
  rewrite IH. simpl. by destruct (P c), (allChars P r), (allChars P acc).
Qed.

Lemma allChars_rev P s : allChars P (String.rev s) = allChars P s.
Proof. unfold String.rev. rewrite allChars_rev_app. simpl. apply andb_true_r. Qed.

Lemma allChars_trimStart P s :
  allChars P s = true -> allChars P (JS.trimStart s) = true.
Proof.
  induction s as [|c r IH]; simpl; [done|].
  intros H. destruct (JS.isWhiteSpace c); [|done].
  apply andb_prop in H as [_ H]. by apply IH.
Qed.

Lemma allChars_trim P s : allChars P s = true -> allChars P (JS.trim s) = true.
Proof.
  intros H. unfold JS.trim, JS.trimEnd.
  rewrite allChars_rev. apply allChars_trimStart. rewrite allChars_rev.
  by apply allChars_trimStart.
Qed.

Lemma append_empty_r s : String.append s "" = s.
Proof.
  induction s as [|c r IH]; [done|].
  change (String c (String.append r "") = String c r). by rewrite IH.
Qed.

Lemma rev_app_rev_app s a b :
  String.rev_app (String.rev_app s a) b = String.rev_app a (String.append s b).
Proof.
  revert a b. induction s as [|c r IH]; intros a b; [done|].
  change (String.rev_app (String.rev_app r (String c a)) b
          = String.rev_app a (String c (String.append r b))).
  by rewrite IH.
Qed.

Lemma string_rev_involutive s : String.rev (String.rev s) = s.
Proof. unfold String.rev. rewrite rev_app_rev_app. simpl. apply append_empty_r. Qed.

Lemma split_go_allChars P cur inRun s :
  allChars P cur = true -> allChars P s = true ->
  Forall (fun piece => allChars P piece = true) (JS.split_go cur inRun s).
Proof.
  revert cur inRun. induction s as [|c r IH]; intros cur inRun Hcur Hs; simpl.
  - constructor; [|done]. by rewrite allChars_rev.
  - simpl in Hs. apply andb_prop in Hs as [Hc Hr].
    destruct (JS.isWhiteSpace c).
    + destruct inRun; [by apply IH|].
      constructor; [by rewrite allChars_rev|]. by apply IH.
    + apply IH; [|done]. simpl. by rewrite Hc, Hcur.
Qed.

Lemma split_go_no_space cur inRun s :
  allChars (fun c => negb (JS.isWhiteSpace c)) cur = true ->
  Forall (fun piece => allChars (fun c => negb (JS.isWhiteSpace c)) piece = true)
    (JS.split_go cur inRun s).
Proof.
  revert cur inRun. induction s as [|c r IH]; intros cur inRun Hcur; simpl.
  - constructor; [|done]. by rewrite allChars_rev.
  - destruct (JS.isWhiteSpace c) eqn:Hc.
    + destruct inRun; [by apply IH|].
      constructor; [by rewrite allChars_rev|]. by apply IH.
    + apply IH. simpl. by rewrite Hc, Hcur.
Qed.

Lemma toLowerChar_idem c : JS.toLowerChar (JS.toLowerChar c) = JS.toLowerChar c.
Proof. by destruct c as [[] [] [] [] [] [] [] []]; vm_compute. Qed.

(** What [tokenize] splits: each character is a space or can be held by a
    token. *)
Lemma replaced_chars text :
  allChars (fun c => JS.isWhiteSpace c || isTokenChar c)
    (JS.replaceClass isPunctuation (JS.toLowerCase text)) = true.
Proof.
  induction text as [|c r IH]; simpl; [done|]. rewrite IH, andb_true_r.
  destruct (isPunctuation (JS.toLowerChar c)) eqn:Hp; [done|].
  unfold isTokenChar. rewrite Hp, toLowerChar_idem, Ascii.eqb_refl. simpl.
  by destruct (JS.isWhiteSpace _).
Qed.

Lemma allChars_and P Q s :
  allChars P s = true -> allChars Q s = true ->
  allChars (fun c => P c && Q c) s = true.
Proof.
  induction s as [|c r IH]; simpl; [done|].
  intros [-> Hp]%andb_prop [-> Hq]%andb_prop. by rewrite IH.
Qed.

Lemma tokenize_isToken text :
  Forall (fun t => isToken t = true) (tokenize text).
Proof.
  unfold tokenize. apply Forall_forall. intros t Ht.
  apply list_elem_of_filter in Ht as [Hlen Ht].
  unfold isToken. apply andb_true_intro. split.
  { destruct t; [simpl in Hlen; lia|done]. }
  pose proof (split_go_allChars _ "" false _ eq_refl
                (allChars_trim _ _ (replaced_chars text))) as H1.
  pose proof (split_go_no_space "" false
                (JS.trim (JS.replaceClass isPunctuation (JS.toLowerCase text)))
                eq_refl) as H2.
  rewrite Forall_forall in H1, H2.
  specialize (H1 t Ht). specialize (H2 t Ht).
  eapply allChars_impl; [|exact (allChars_and _ _ _ H1 H2)].
  intros c. simpl. destruct (JS.isWhiteSpace c); simpl; [done|]. by rewrite andb_true_r.
Qed.

Lemma toLowerCase_fixed s :
  allChars (fun c => Ascii.eqb (JS.toLowerChar c) c) s = true ->
  JS.toLowerCase s = s.
Proof.
  induction s as [|c r IH]; simpl; [done|].
  intros [Hc%Ascii.eqb_eq Hr]%andb_prop. by rewrite Hc, IH.
Qed.

Lemma replaceClass_fixed cls s :
  allChars (fun c => negb (cls c)) s = true -> JS.replaceClass cls s = s.
Proof.
  induction s as [|c r IH]; simpl; [done|].
  intros [Hc%negb_true_iff Hr]%andb_prop. by rewrite Hc, IH.
Qed.

Lemma trimStart_fixed s :
  allChars (fun c => negb (JS.isWhiteSpace c)) s = true -> JS.trimStart s = s.
Proof.
  destruct s as [|c r]; simpl; [done|].
  intros [Hc%negb_true_iff _]%andb_prop. by rewrite Hc.
Qed.

Lemma trim_fixed s :
  allChars (fun c => negb (JS.isWhiteSpace c)) s = true -> JS.trim s = s.
Proof.
  intros H. unfold JS.trim, JS.trimEnd. rewrite (trimStart_fixed s H).
  rewrite trimStart_fixed by by rewrite allChars_rev.
  apply string_rev_involutive.
Qed.

Lemma split_go_fixed cur s :
  allChars (fun c => negb (JS.isWhiteSpace c)) s = true ->
  JS.split_go cur false s = [String.rev (String.rev_app s cur)].
Proof.
  revert cur. induction s as [|c r IH]; intros cur; simpl; [done|].
  intros [Hc%negb_true_iff Hr]%andb_prop. rewrite Hc. by apply IH.
Qed.

Lemma tokenize_of_token t : isToken t = true -> tokenize t = [t].
Proof.
  unfold isToken, isTokenChar. intros [Hne Hall]%andb_prop.
  assert (Hlow : JS.toLowerCase t = t).
  { apply toLowerCase_fixed. eapply allChars_impl; [|exact Hall].
    by intros c [_ ?]%andb_prop. }
  assert (Hpun : JS.replaceClass isPunctuation t = t).
  { apply replaceClass_fixed. eapply allChars_impl; [|exact Hall].
    by intros c [[_ ?]%andb_prop _]%andb_prop. }
  assert (Hws : allChars (fun c => negb (JS.isWhiteSpace c)) t = true).
  { eapply allChars_impl; [|exact Hall].
    by intros c [[? _]%andb_prop _]%andb_prop. }
  unfold tokenize. rewrite Hlow, Hpun, (trim_fixed t Hws).
  unfold JS.splitWhiteSpace. rewrite (split_go_fixed "" t Hws).
  fold (String.rev t). rewrite string_rev_involutive.
  rewrite filter_cons_True; [done|]. destruct t; [done|simpl; lia].
Qed.

(** X1. Every token that [tokenize] returns is a clean word: it is not
    empty, it holds no white space and none of the punctuation characters
    that [tokenize] replaces, and lower-casing leaves it as it is. *)
Theorem tokens_are_clean :
  forall text, Forall (fun t => isToken t = true) (tokenize text).
Proof. apply tokenize_isToken. Qed.

(** X2. Tokenizing a token gives the token back: each token of a text,
    tokenized on its own, is the list of that one token. *)
Theorem token_is_its_own_token :
  forall text, Forall (fun t => tokenize t = [t]) (tokenize text).
Proof.
  intros text. eapply Forall_impl; [apply tokenize_isToken|].
  intros t Ht. by apply tokenize_of_token.
Qed.

(** ** Trimmed strings *)

Lemma startsClean_trimStart s : startsClean (JS.trimStart s) = true.
Proof.
  induction s as [|c r IH]; [done|]. simpl.
  destruct (JS.isWhiteSpace c) eqn:Hc; [done|]. simpl. by rewrite Hc.
Qed.

Lemma trimStart_clean s : startsClean s = true -> JS.trimStart s = s.
Proof.
  destruct s as [|c r]; [done|]. simpl. by intros ->%negb_true_iff.
Qed.

Lemma endsClean_trimStart s : endsClean s = true -> endsClean (JS.trimStart s) = true.
Proof.
  induction s as [|c r IH]; [done|]. intros H.
  cbn [JS.trimStart]. destruct (JS.isWhiteSpace c) eqn:Hc; [|done].
  apply IH. destruct r; [|done]. simpl in H. by rewrite Hc in H.
Qed.

Lemma endsClean_rev_app s acc :
  endsClean (String.rev_app s acc)
  = match acc with EmptyString => startsClean s | _ => endsClean acc end.
Proof.
  revert acc. induction s as [|c r IH]; intros acc.
  - by destruct acc.
  - cbn [String.rev_app]. rewrite IH. by destruct acc.
Qed.

Lemma startsClean_rev_app s acc :
  startsClean (String.rev_app s acc)
  = match s with EmptyString => startsClean acc | _ => endsClean s end.
Proof.
  revert acc. induction s as [|c r IH]; intros acc; [done|].
  cbn [String.rev_app]. rewrite IH. by destruct r.
Qed.

Lemma endsClean_rev s : endsClean (String.rev s) = startsClean s.
Proof. apply endsClean_rev_app. Qed.

Lemma startsClean_rev s : startsClean (String.rev s) = endsClean s.
Proof. unfold String.rev. rewrite startsClean_rev_app. by destruct s. Qed.

Lemma trim_clean s :
  startsClean (JS.trim s) = true /\ endsClean (JS.trim s) = true.
Proof.
  unfold JS.trim, JS.trimEnd. rewrite startsClean_rev, endsClean_rev. split.
  - apply endsClean_trimStart. rewrite endsClean_rev.
    apply startsClean_trimStart.
  - apply startsClean_trimStart.
Qed.

Lemma trim_of_clean s :
  startsClean s = true -> endsClean s = true -> JS.trim s = s.
Proof.
  intros Hs He. unfold JS.trim, JS.trimEnd.
  rewrite (trimStart_clean s Hs).
  rewrite trimStart_clean by by rewrite startsClean_rev.
  apply string_rev_involutive.
Qed.

Lemma trim_idem s : JS.trim (JS.trim s) = JS.trim s.
Proof. destruct (trim_clean s). by apply trim_of_clean. Qed.

Lemma toLowerCase_idem s : JS.toLowerCase (JS.toLowerCase s) = JS.toLowerCase s.
Proof.
  induction s as [|c r IH]; [done|]. simpl. by rewrite toLowerChar_idem, IH.
Qed.

(** ** The time of day *)

(** X3. The greeting and the phase of the day are read from the same hour
    but cut the day differently: the greeting names the phase of the day
    except at 17 h, when the greeting is still that of the afternoon while
    the phase is the evening, and from 23 h on, when the greeting is still
    that of the evening while the phase is the late night. Both helpers
    return for every hour, and the phase is never [any]. *)
Theorem greeting_and_phase :
  forall w s,
    exists greeting phase,
      getTimeGreeting w s = (Returned greeting, s)
      /\ getCurrentTimePhase w s = (Returned phase, s)
      /\ phase <> any
      /\ (greeting = greetingOf phase <-> (hour w <> 17 /\ hour w < 23)%nat).
Proof.
  intros w s. eexists _, _. split; [reflexivity|]. split; [reflexivity|].
  cbv beta.
  destruct (hour w <? 5)%nat eqn:H5; destruct (hour w <? 12)%nat eqn:H12;
    destruct (hour w <? 18)%nat eqn:H18; destruct (5 <=? hour w)%nat eqn:G5;
    destruct (12 <=? hour w)%nat eqn:G12; destruct (hour w <? 17)%nat eqn:H17;
    destruct (17 <=? hour w)%nat eqn:G17; destruct (hour w <? 23)%nat eqn:H23;
    simpl;
    repeat match goal with
           | H : (_ <? _)%nat = true |- _ => apply Nat.ltb_lt in H
           | H : (_ <? _)%nat = false |- _ => apply Nat.ltb_ge in H
           | H : (_ <=? _)%nat = true |- _ => apply Nat.leb_le in H
           | H : (_ <=? _)%nat = false |- _ => apply Nat.leb_gt in H
           end;
    try lia; (split; [done|]); split; try done; try lia;
    intros [? ?]; lia.
Qed.

(** ** What the reply does not depend on *)

(** X4. The reply does not depend on the history of the conversation, which
    the engine only reads into a variable it never uses, and a message of
    type image is handled like a message of type text: only the type audio
    is told apart. *)
Theorem reply_ignores_history :
  forall persona messageContent messageType history1 history2,
    processOfflineMessage persona messageContent messageType history1
    = processOfflineMessage persona messageContent messageType history2
    /\ processOfflineMessage persona messageContent IMAGE history1
       = processOfflineMessage persona messageContent TEXT history1.
Proof. intros. split; reflexivity. Qed.

(** ** Letter case *)

Lemma fallbackConversation_content persona content1 content2 lowerMsg
    timeGreeting l w s :
  exists reply1 reply2 s',
    fallbackConversation persona content1 lowerMsg timeGreeting l w s
    = (Returned reply1, s')
    /\ fallbackConversation persona content2 lowerMsg timeGreeting l w s
       = (Returned reply2, s')
    /\ Reply.text reply1 = Reply.text reply2
    /\ Reply.image reply1 = Reply.image reply2
    /\ Reply.audio reply1 = Reply.audio reply2
    /\ forgetPending (Reply.updatedPersona reply1)
       = forgetPending (Reply.updatedPersona reply2).
Proof.
  unfold fallbackConversation.
  destruct (negb (JS.truthy (responseText l)) && _ && _).
  - destruct (greetingRegex lowerMsg).
    { unfold bind. destruct (getRandomElement _ w s) as [[picked|e] s1] eqn:Hp.
      - by eexists _, _, _.
      - exfalso. revert Hp. unfold getRandomElement, bind, mathRandom, ret.
        done. }
    destruct (goodTimeRegex lowerMsg); [by eexists _, _, _|].
    destruct (howAreYouRegex lowerMsg).
    { unfold bind. destruct (getRandomElement _ w s) as [[picked|e] s1] eqn:Hp.
      - by eexists _, _, _.
      - exfalso. revert Hp. unfold getRandomElement, bind, mathRandom, ret.
        done. }
    by eexists _, _, _.
  - by eexists _, _, _.
Qed.

Lemma reply_same_lower_case persona content1 content2 messageType history w s :
  messageType <> AUDIO ->
  pending persona = false ->
  JS.toLowerCase content1 = JS.toLowerCase content2 ->
  exists reply1 reply2 s',
    processOfflineMessage persona content1 messageType history w s
    = (Returned reply1, s')
    /\ processOfflineMessage persona content2 messageType history w s
       = (Returned reply2, s')
    /\ Reply.text reply1 = Reply.text reply2
    /\ Reply.image reply1 = Reply.image reply2
    /\ Reply.audio reply1 = Reply.audio reply2
    /\ forgetPending (Reply.updatedPersona reply1)
       = forgetPending (Reply.updatedPersona reply2).
Proof.
  intros Hty Hp Hlow.
  destruct (ordinary_turn_phases persona content1 messageType history w s
              Hty Hp) as (l1 & s1 & l2 & s2 & reply & s3 & H1 & H2 & H3 & H).
  assert (Hmsg : lowerMsgOf content2 = lowerMsgOf content1).
  { unfold lowerMsgOf. by rewrite Hlow. }
  assert (Htok : tokenize content2 = tokenize content1).
  { unfold tokenize. by rewrite Hlow. }
  assert (Hset : userTokenSetOf content2 = userTokenSetOf content1).
  { unfold userTokenSetOf. by rewrite Htok. }
  destruct (fallbackConversation_content persona content1 content2
              (lowerMsgOf content1) (timeGreetingOf w) l2 w s2)
    as (reply1 & reply2 & s' & Hf1 & Hf2 & Hrest).
  exists reply1, reply2, s'. split; [by rewrite H, <- Hf1, H3|].
  split; [|exact Hrest].
  rewrite ordinary_turn_run by done. rewrite Hmsg, Htok, Hset.
  rewrite (bind_returned _ _ _ _ _ _ H1), (bind_returned _ _ _ _ _ _ H2).
  exact Hf2.
Qed.

(** X5. The engine ignores letter case in the message. On a turn that is
    neither a voice message nor the answer to a pending question, two
    messages with the same lower-case form get the same text, image and
    audio, end in the same state of the run, and leave the same persona but
    for the pending question, which keeps the message as it was typed. *)
Theorem reply_ignores_case :
  forall persona content1 content2 messageType history w s,
    messageType <> AUDIO ->
    pending persona = false ->
    JS.toLowerCase content1 = JS.toLowerCase content2 ->
    exists reply1 reply2 s',
      processOfflineMessage persona content1 messageType history w s
      = (Returned reply1, s')
      /\ processOfflineMessage persona content2 messageType history w s
         = (Returned reply2, s')
      /\ Reply.text reply1 = Reply.text reply2
      /\ Reply.image reply1 = Reply.image reply2
      /\ Reply.audio reply1 = Reply.audio reply2
      /\ forgetPending (Reply.updatedPersona reply1)
         = forgetPending (Reply.updatedPersona reply2).
Proof. intros. by apply reply_same_lower_case. Qed.

Lemma reply_ignores_case_witness :
  exists reply1 reply2 s',
    processOfflineMessage (Demo.persona [Demo.greeting] [Demo.fooRule])
      "HI Foo" TEXT [] (Demo.world []) startRun
    = (Returned reply1, s')
    /\ processOfflineMessage (Demo.persona [Demo.greeting] [Demo.fooRule])
         "hi foo" TEXT [] (Demo.world []) startRun
       = (Returned reply2, s')
    /\ Reply.text reply1 = Reply.text reply2
    /\ Reply.image reply1 = Reply.image reply2
    /\ Reply.audio reply1 = Reply.audio reply2
    /\ forgetPending (Reply.updatedPersona reply1)
       = forgetPending (Reply.updatedPersona reply2).
Proof.
  apply (reply_ignores_case (Demo.persona [Demo.greeting] [Demo.fooRule])
           "HI Foo" "hi foo" TEXT [] (Demo.world []) startRun);
    [done | reflexivity | vm_compute; reflexivity].
Defined.

(** ** Keywords that are not tokens *)

Lemma keywordCount_token rule messageContent :
  isToken (JS.toLowerCase (LogicRule.target rule)) = false ->
  keywordCount rule messageContent = 0.
Proof.
  intros Hno. unfold keywordCount.
  pose proof (tokenize_isToken messageContent) as Hall.
  induction Hall as [|t ts Ht _ IH]; [done|].
  rewrite filter_cons, decide_False; [exact IH|].
  intros ->. by rewrite Hno in Ht.
Qed.

Lemma expectedFirings_idle threshold resetOnFire counter occurrencesPerTurn :
  counter < threshold ->
  Forall (fun n => n = 0) occurrencesPerTurn ->
  Forall (fun fired => fired = false)
    (expectedFirings threshold resetOnFire counter occurrencesPerTurn).
Proof.
  intros Hlt Hall. induction Hall as [|n ns -> _ IH]; simpl; [done|].
  rewrite Z.add_0_r. destruct (threshold <=? counter) eqn:Hle.
  { apply Z.leb_le in Hle. lia. }
  constructor; [done|]. exact IH.
Qed.

Lemma keywordTurns_counts rule persona trace persona' :
  keywordTurns rule persona trace persona' ->
  isToken (JS.toLowerCase (LogicRule.target rule)) = false ->
  Forall (fun n => n = 0) trace.*1.
Proof.
  intros Hrun Hno. induction Hrun; simpl; [done|].
  constructor; [by apply keywordCount_token|done].
Qed.

(** X6. A keyword rule whose keyword, once in lower case, is not a clean
    word (it is empty, or holds white space or punctuation) is never
    counted: over any sequence of ordinary turns of a persona none of whose
    other logic rules reads its counter, and whose counter starts below the
    positive threshold, every message counts zero occurrences of the keyword
    and the rule never fires. *)
Theorem keyword_needs_a_token :
  forall rule before after persona trace persona',
    LogicRule.monitor rule = user_says_keyword ->
    0 < LogicRule.threshold rule ->
    NeuralMap.logicRules (PersonaProfile.neuralMap persona)
    = Some (before ++ rule :: after) ->
    (forall r, r ∈ before ++ after -> keyOf r <> keyOf rule) ->
    getCount (countersOf persona) (keyOf rule) < LogicRule.threshold rule ->
    isToken (JS.toLowerCase (LogicRule.target rule)) = false ->
    keywordTurns rule persona trace persona' ->
    Forall (fun turn => turn = (0, false)) trace.
Proof.
  intros rule before after persona trace persona' Hmon Hthr Hrules Hother
    Hlow Hno Hrun.
  pose proof (keywordTurns_counts _ _ _ _ Hrun Hno) as Hzero.
  pose proof (keywordTurns_firings rule before after Hmon Hthr
                (fun r Hr _ => Hother r Hr)
                persona trace persona' Hrun Hrules) as Hfire.
  pose proof (expectedFirings_idle _ (LogicRule.resetOnTrigger rule) _ _
                Hlow Hzero) as Hidle.
  rewrite <- Hfire in Hidle. clear -Hzero Hidle.
  induction trace as [|[n b] trace IH]; [done|].
  simpl in Hzero, Hidle. inversion Hzero; inversion Hidle; subst.
  constructor; [done|]. by apply IH.
Qed.

Lemma keyword_needs_a_token_witness :
  exists trace persona',
    keywordTurns
      (LogicRule.mk "l3" "morning" user_says_keyword "Good morning" 1
         send_text "Again?" true)
      (Demo.persona []
         [LogicRule.mk "l3" "morning" user_says_keyword "Good morning" 1
            send_text "Again?" true])
      trace persona'
    /\ length trace = 2%nat
    /\ Forall (fun turn => turn = (0, false)) trace.
Proof.
  assert (Hrun : exists trace persona',
    keywordTurns
      (LogicRule.mk "l3" "morning" user_says_keyword "Good morning" 1
         send_text "Again?" true)
      (Demo.persona []
         [LogicRule.mk "l3" "morning" user_says_keyword "Good morning" 1
            send_text "Again?" true])
      trace persona'
    /\ length trace = 2%nat).
  { eexists _, _. split.
    - do 2 (eapply (keywordTurns_turn _ _ "Good morning" TEXT []
                      (Demo.world []) startRun);
            [done | reflexivity | vm_compute; reflexivity |]).
      apply keywordTurns_done.
    - reflexivity. }
  destruct Hrun as (trace & persona' & Hrun & Hlen).
  exists trace, persona'. split; [done|]. split; [done|].
  apply (keyword_needs_a_token
           (LogicRule.mk "l3" "morning" user_says_keyword "Good morning" 1
              send_text "Again?" true) [] []
           (Demo.persona []
              [LogicRule.mk "l3" "morning" user_says_keyword "Good morning" 1
                 send_text "Again?" true])
           trace persona'); try done.
  intros r Hr. by apply elem_of_nil in Hr.
Defined.

(** ** Searching the image store *)

Lemma startsWith_allChars P s p :
  JS.startsWith s p = true -> allChars P s = true -> allChars P p = true.
Proof.
  revert s. induction p as [|a p IH]; intros s; [done|].
  destruct s as [|b s]; simpl; [done|].
  destruct (Ascii.eqb a b) eqn:Hab; [|done].
  apply Ascii.eqb_eq in Hab as ->.
  intros Hs [-> Hr]%andb_prop. simpl. by apply (IH s).
Qed.

Lemma includes_allChars P s p :
  JS.includes s p = true -> allChars P s = true -> allChars P p = true.
Proof.
  induction s as [|c r IH]; intros Hin Hs.
  - by destruct p.
  - cbn [JS.includes] in Hin.
    destruct (JS.startsWith (String c r) p) eqn:Hstart.
    + by apply (startsWith_allChars P (String c r) p).
    + simpl in Hs. apply andb_prop in Hs as [_ Hr]. by apply IH.
Qed.

Lemma toLowerCase_allChars s :
  allChars (fun c => Ascii.eqb (JS.toLowerChar c) c) (JS.toLowerCase s) = true.
Proof.
  induction s as [|c r IH]; simpl; [done|].
  by rewrite toLowerChar_idem, Ascii.eqb_refl, IH.
Qed.

(** What is found in a lower-cased string is in lower case. *)
Lemma includes_lower_case s p :
  JS.includes (JS.toLowerCase s) p = true -> JS.toLowerCase p = p.
Proof.
  intros H. apply toLowerCase_fixed.
  exact (includes_allChars _ _ _ H (toLowerCase_allChars s)).
Qed.

Lemma includes_empty s : JS.includes s "" = true.
Proof. by destruct s. Qed.

Lemma tagged_empty_tag tags all : "" ∈ tags -> tagged tags all = all.
Proof.
  intros Hin. unfold tagged. apply filter_all. intros img _.
  apply existsb_exists. exists "". split; [by apply list_elem_of_In|].
  by rewrite includes_empty, orb_true_r.
Qed.

Lemma tagged_upper_case tag all :
  JS.toLowerCase tag <> tag -> tagged [tag] all = carrying tag all.
Proof.
  intros Hup. unfold tagged, carrying. apply filter_ext_in. intros img _.
  simpl. rewrite orb_false_r.
  destruct (JS.includes _ tag) eqn:Hin.
  { by apply includes_lower_case in Hin. }
  rewrite orb_false_r. apply bool_decide_eq_true.
Qed.

(** X7. Two edge cases of [searchImages], when the store resolves: with no
    tag it returns no image, and with the empty string among the tags it
    returns every image stored for the persona, since the empty string is
    contained in every description. *)
Theorem search_edge_tags :
  forall personaId tags w s all,
    storedImages w (queries s) personaId = Some all ->
    (tags = [] -> searchImages personaId tags w s = (Returned [], countQuery s))
    /\ ("" ∈ tags ->
        searchImages personaId tags w s = (Returned all, countQuery s)).
Proof.
  intros personaId tags w s all Hall. rewrite searchImages_run, Hall.
  split.
  - intros ->. f_equal. unfold tagged. clear Hall.
    induction all as [|img all IH]; [done|].
    rewrite filter_cons. by destruct (decide _).
  - intros Hin. by rewrite tagged_empty_tag.
Qed.

Lemma search_edge_tags_witness :
  searchImages "p1" [] (Demo.world [DemoStore.beach; DemoStore.sunset]) startRun
  = (Returned [], countQuery startRun)
  /\ searchImages "p1" ["dog"; ""]
       (Demo.world [DemoStore.beach; DemoStore.sunset]) startRun
     = (Returned [DemoStore.beach; DemoStore.sunset], countQuery startRun).
Proof.
  split.
  - apply (search_edge_tags "p1" [] (Demo.world [DemoStore.beach; DemoStore.sunset])
             startRun [DemoStore.beach; DemoStore.sunset]); reflexivity.
  - apply (search_edge_tags "p1" ["dog"; ""]
             (Demo.world [DemoStore.beach; DemoStore.sunset])
             startRun [DemoStore.beach; DemoStore.sunset]); [reflexivity|].
    apply list_elem_of_In. simpl. by right; left.
Defined.

(** X8. [searchImages] lower-cases the description of an image but not the
    tag it looks for: a tag that is not in lower case is found only in the
    list of tags of an image, never in its description. *)
Theorem search_upper_case_tag :
  forall personaId tag w s all,
    storedImages w (queries s) personaId = Some all ->
    JS.toLowerCase tag <> tag ->
    searchImages personaId [tag] w s
    = (Returned (carrying tag all), countQuery s).
Proof.
  intros personaId tag w s all Hall Hup.
  by rewrite searchImages_run, Hall, tagged_upper_case.
Qed.

Lemma search_upper_case_tag_witness :
  searchImages "p1" ["Beach"]
    (Demo.world [DemoStore.beach; DemoStore.sunset]) startRun
  = (Returned (carrying "Beach" [DemoStore.beach; DemoStore.sunset]),
     countQuery startRun)
  /\ carrying "Beach" [DemoStore.beach; DemoStore.sunset] = [DemoStore.beach]
  /\ tagged ["beach"] [DemoStore.beach; DemoStore.sunset] = [DemoStore.sunset].
Proof.
  split; [|split; vm_compute; reflexivity].
  apply (search_upper_case_tag "p1" "Beach"
           (Demo.world [DemoStore.beach; DemoStore.sunset]) startRun
           [DemoStore.beach; DemoStore.sunset]); [reflexivity|].
  intros H. vm_compute in H. discriminate H.
Defined.

(** ** The colours of an avatar *)

Lemma toInt32_range z : - 2 ^ 31 <= toInt32 z < 2 ^ 31.
Proof.
  unfold toInt32. pose proof (Z.mod_pos_bound (z + 2 ^ 31) (2 ^ 32)). lia.
Qed.

Lemma code_range c : (JS.code c < 256)%nat.
Proof. apply nat_ascii_bounded. Qed.

Lemma fold_hashStep_bound cs hash :
  Z.abs (fold_left hashStep cs hash)
  <= Z.abs hash + Z.of_nat (length cs) * (2 ^ 31 + 255).
Proof.
  revert hash. induction cs as [|c cs IH]; intros hash; [simpl; lia|].
  cbn [fold_left]. etransitivity; [apply IH|].
  rewrite length_cons, Nat2Z.inj_succ.
  unfold hashStep, shiftLeft.
  pose proof (toInt32_range (Z.shiftl (toInt32 hash) 5)).
  pose proof (code_range c). lia.
Qed.

(** X9. The two hues of an avatar are angles from 0 to 359, whatever the
    sign of the hash of the name, and they differ; the hash of a name of
    [n] characters is at most [n * (2^31 + 255)] in absolute value. *)
Theorem avatar_hues :
  forall name,
    0 <= hue1 name < 360
    /\ 0 <= hue2 name < 360
    /\ hue2 name <> hue1 name
    /\ Z.abs (avatarHash name)
       <= Z.of_nat (String.length name) * (2 ^ 31 + 255).
Proof.
  intros name.
  assert (H1 : 0 <= hue1 name < 360).
  { unfold hue1. pose proof (Z.rem_bound_abs (avatarHash name) 360).
    pose proof (Z.abs_nonneg (Z.rem (avatarHash name) 360)).
    assert (Z.abs (Z.rem (avatarHash name) 360) < Z.abs 360); [|lia].
    apply Z.rem_bound_abs. lia. }
  split; [exact H1|]. unfold hue2.
  assert (H40 : 0 <= hue1 name + 40) by lia.
  pose proof (Z.rem_bound_pos (hue1 name + 40) 360 H40 ltac:(lia)) as H2.
  rewrite Z.rem_mod_nonneg in * by lia.
  split; [lia|]. split.
  - destruct (decide (hue1 name + 40 < 360)) as [Hlt|Hge].
    + rewrite Z.mod_small by lia. lia.
    + replace (hue1 name + 40) with (hue1 name + 40 - 360 + 1 * 360) by lia.
      rewrite Z.mod_add by lia. rewrite Z.mod_small by lia. lia.
  - unfold avatarHash.
    pose proof (fold_hashStep_bound (String.list_ascii_of_string name) 0) as Hb.
    assert (Hlen : length (String.list_ascii_of_string name) = String.length name).
    { clear. induction name as [|c r IH]; [done|]. simpl. by rewrite IH. }
    rewrite Hlen in Hb. simpl Z.abs at 2 in Hb. lia.
Qed.

(** ** The replies of the fallback conversation *)

(** When the rules have produced nothing, a recognised message is answered
    with one of the replies of its intent, and another one with the prompt
    to teach. *)
Lemma fallbackConversation_nothing_produced persona messageContent lowerMsg
    timeGreeting l w s :
  produced l = false ->
  exists reply s',
    fallbackConversation persona messageContent lowerMsg timeGreeting l w s
    = (Returned reply, s')
    /\ queries s' = queries s
    /\ console s' = console s
    /\ if intentRecognised lowerMsg then
         Reply.text reply
         ∈ intentReplies
             (CoreIdentity.name
                (NeuralMap.coreIdentity (PersonaProfile.neuralMap persona)))
             timeGreeting lowerMsg
         /\ Reply.image reply = responseImage l
         /\ Reply.audio reply = responseAudio l
         /\ Reply.updatedPersona reply = withMemory persona (memory l)
       else
         reply = Reply.mk askPrompt None None
                   (withMemory persona
                      (withWaitingForDefinition (memory l)
                         (Some messageContent)))
         /\ s' = s.
Proof.
  unfold produced. intros Hno.
  apply orb_false_elim in Hno as [Hno Ha].
  apply orb_false_elim in Hno as [Ht Hi].
  unfold fallbackConversation, intentRecognised, intentReplies.
  rewrite Ht, Hi, Ha. cbn [negb andb].
  destruct (greetingRegex lowerMsg).
  { match goal with
    | |- context [getRandomElement ?opts] =>
        destruct (getRandomElement_returns opts w s) as (x & Hx & Heq); [done|]
    end.
    eexists _, _. split; [cbv zeta; unfold bind; by rewrite Heq|].
    done. }
  destruct (goodTimeRegex lowerMsg).
  { eexists _, _. split; [reflexivity|]. simpl.
    repeat split; try done. by apply list_elem_of_singleton. }
  destruct (howAreYouRegex lowerMsg).
  { match goal with
    | |- context [getRandomElement ?opts] =>
        destruct (getRandomElement_returns opts w s) as (x & Hx & Heq); [done|]
    end.
    eexists _, _. split; [cbv zeta; unfold bind; by rewrite Heq|].
    done. }
  eexists _, _. split; [reflexivity|]. done.
Qed.

(** ** A new persona *)

Lemma handleSave_persona formData others w s persona s' :
  BotCreationModal.handleSave formData others w s
  = (Returned (Some persona), s') ->
  JS.truthy (BotCreationModal.name formData) = true
  /\ s' = s
  /\ persona
     = PersonaProfile.mk (now w) (BotCreationModal.name formData)
         (generateIdentityBrain (BotCreationModal.name formData)
            (BotCreationModal.type formData)
            (BotCreationModal.description formData))
         BotCreationModal.newMemory others.
Proof.
  unfold BotCreationModal.handleSave.
  destruct (JS.truthy (BotCreationModal.name formData)); [|done].
  cbn [negb]. unfold bind, dateNow, ret. by intros [= <- <-].
Qed.

(** A persona without trained rules and without logic rules answers from
    the fallback conversation alone. *)
Lemma turn_without_rules persona messageContent messageType history w s :
  messageType <> AUDIO ->
  pending persona = false ->
  default [] (NeuralMap.customTraining (PersonaProfile.neuralMap persona)) = [] ->
  default [] (NeuralMap.logicRules (PersonaProfile.neuralMap persona)) = [] ->
  processOfflineMessage persona messageContent messageType history w s
  = fallbackConversation persona messageContent (lowerMsgOf messageContent)
      (timeGreetingOf w) (initialLocals persona) w s.
Proof.
  intros Hty Hp Hct Hlr. rewrite ordinary_turn_run by done.
  unfold customTrainingPhase, logicEngine.
  destruct (NeuralMap.customTraining _) as [[|r rs]|]; try done;
    destruct (NeuralMap.logicRules _) as [[|r' rs']|]; done.
Qed.

(** X10. A persona as [BotCreationModal] creates it has no rule and no
    pending question. Its turn on a message that is not a voice message
    returns, queries no store and prints nothing; the reply has no image and
    no audio, the persona keeps its empty lists of rules and an empty table
    of counters. A message that an intent classifier recognises is answered
    with one of the replies of its intent, under the name typed in the
    form; every other message is answered with the prompt to teach and
    becomes the pending question. *)
Theorem new_persona_turn :
  forall formData others w0 s0 persona s0' messageContent messageType
    history w s,
    BotCreationModal.handleSave formData others w0 s0
    = (Returned (Some persona), s0') ->
    messageType <> AUDIO ->
    exists reply s',
      processOfflineMessage persona messageContent messageType history w s
      = (Returned reply, s')
      /\ Reply.image reply = None
      /\ Reply.audio reply = None
      /\ queries s' = queries s
      /\ console s' = console s
      /\ PersonaProfile.neuralMap (Reply.updatedPersona reply)
         = PersonaProfile.neuralMap persona
      /\ countersOf (Reply.updatedPersona reply) = ∅
      /\ if intentRecognised (lowerMsgOf messageContent) then
           Reply.text reply
           ∈ intentReplies (BotCreationModal.name formData) (timeGreetingOf w)
               (lowerMsgOf messageContent)
           /\ pending (Reply.updatedPersona reply) = false
         else
           Reply.text reply = askPrompt
           /\ Memory.waitingForDefinition
                (PersonaProfile.memory (Reply.updatedPersona reply))
              = Some messageContent.
Proof.
  intros formData others w0 s0 persona s0' messageContent messageType history
    w s Hsave Hty.
  apply handleSave_persona in Hsave as (_ & _ & ->).
  rewrite turn_without_rules by done.
  match goal with
  | |- context [fallbackConversation ?p _ _ _ ?l w s] =>
      destruct (fallbackConversation_nothing_produced p messageContent
                  (lowerMsgOf messageContent) (timeGreetingOf w) l w s
                  eq_refl)
        as (reply & s' & Hrun & Hq & Hc & Hreply)
  end.
  exists reply, s'. split; [exact Hrun|].
  destruct (intentRecognised (lowerMsgOf messageContent)).
  - destruct Hreply as (Htext & -> & -> & ->). done.
  - destruct Hreply as [-> ->]. done.
Qed.

Lemma new_persona_turn_witness :
  exists reply s',
    processOfflineMessage
      (PersonaProfile.mk "1700000000000" "Sam"
         (generateIdentityBrain "Sam" "friend" "") BotCreationModal.newMemory
         "")
      "What is your name?" TEXT [] (Demo.world []) startRun
    = (Returned reply, s')
    /\ Reply.text reply = askPrompt
    /\ Memory.waitingForDefinition
         (PersonaProfile.memory (Reply.updatedPersona reply))
       = Some "What is your name?".
Proof.
  destruct (new_persona_turn (BotCreationModal.mkFormData "Sam" "friend" "")
              "" (Demo.world []) startRun
              (PersonaProfile.mk "1700000000000" "Sam"
                 (generateIdentityBrain "Sam" "friend" "")
                 BotCreationModal.newMemory "")
              startRun "What is your name?" TEXT [] (Demo.world []) startRun)
    as (reply & s' & Hrun & _ & _ & _ & _ & _ & _ & Hreply);
    [reflexivity | done |].
  exists reply, s'. split; [exact Hrun|].
  exact Hreply.
Defined.

(** ** The text of phase 2 *)

Lemma phaseCandidates_elem currentPhase rule r :
  r ∈ phaseCandidates currentPhase rule ->
  r ∈ TrainingPair.responses rule
  /\ (hasResponseFor currentPhase rule = true -> inPhase currentPhase r = true).
Proof.
  unfold phaseCandidates, hasResponseFor.
  destruct (isEmpty (filter _ _)) eqn:Hc.
  - apply isEmpty_true_nil in Hc.
    destruct (isEmpty (TrainingPair.responses rule)) eqn:Hr; simpl.
    + rewrite Hc. by intros ?%elem_of_nil.
    + intros Hin. split; [done|].
      intros (x & Hx & Hfit)%existsb_exists. apply list_elem_of_In in Hx.
      assert (x ∈ filter (fun r => inPhase currentPhase r = true)
                    (TrainingPair.responses rule))
        by by apply list_elem_of_filter.
      rewrite Hc in *. by apply elem_of_nil in H.
  - simpl. by intros [? ?]%list_elem_of_filter.
Qed.

(** The step of the text rule sets the text to that of a response of the
    winner, one for the current time of day when there is one. *)
Lemma executeTextRule_text currentPhase m l w s :
  TrainingPair.responses (Match.rule m) <> [] ->
  wp (executeTextRule currentPhase (Some m) l) w s
    (fun l' s' =>
       exists r,
         r ∈ TrainingPair.responses (Match.rule m)
         /\ (hasResponseFor currentPhase (Match.rule m) = true ->
             inPhase currentPhase r = true)
         /\ l' = setText l (TrainingResponse.text r)
         /\ s' = countDraw s).
Proof.
  intros Hne. unfold executeTextRule.
  assert (Hr : isEmpty (TrainingPair.responses (Match.rule m)) = false)
    by by destruct (TrainingPair.responses (Match.rule m)).
  pose proof (phaseCandidates_elem currentPhase (Match.rule m)) as Hcand.
  unfold phaseCandidates in Hcand. rewrite Hr in Hcand |- *.
  destruct (isEmpty (filter _ _)) eqn:Hc; cbn [negb andb] in Hcand |- *.
  - rewrite Hr. cbn [negb]. apply wp_pick; [done|].
    intros x Hx. apply wp_ret. exists x. by destruct (Hcand x Hx).
  - rewrite Hc. cbn [negb]. apply wp_pick; [done|].
    intros x Hx. apply wp_ret. exists x. by destruct (Hcand x Hx).
Qed.





(** ** The placeholder of a voice rule *)

(** X12. The step of the audio rule never makes the placeholder of a voice
    rule the text of the reply. It leaves the text as it is, or, when there
    was none, sets it to the text of a response of the audio winner that is
    neither empty nor the placeholder; it sets the audio to the recording of
    the winner when the winner has one and changes nothing else. *)
Theorem audio_placeholder_is_not_text :
  forall best l w s,
    wp (executeAudioRule best l) w s
      (fun l' _ =>
         (responseText l' = responseText l
          \/ (JS.truthy (responseText l) = false
              /\ JS.truthy (responseText l') = true
              /\ responseText l' <> "(Audio Message)"
              /\ exists m r,
                   best = Some m
                   /\ r ∈ TrainingPair.responses (Match.rule m)
                   /\ responseText l' = TrainingResponse.text r))
         /\ responseImage l' = responseImage l
         /\ memory l' = memory l
         /\ eventTagsTriggered l' = eventTagsTriggered l
         /\ match best with
            | Some m =>
                if JS.truthyOpt (TrainingPair.audioData (Match.rule m))
                then responseAudio l' = TrainingPair.audioData (Match.rule m)
                else l' = l
            | None => l' = l
            end).
Proof.
  intros best l w s. destruct best as [m|]; [|by apply wp_ret; auto].
  unfold executeAudioRule.
  destruct (JS.truthyOpt _); [|apply wp_ret; auto].
  cbn [responseText setAudio].
  destruct (JS.truthy (responseText l)) eqn:Ht; cbn [negb];
    [apply wp_ret; auto|].
  destruct (isEmpty _) eqn:Hc; [apply wp_ret; auto|]. cbn [negb].
  apply wp_pick; [done|]. intros x Hx.
  destruct (JS.truthy (TrainingResponse.text x)) eqn:Hx1; cbn [andb];
    [|apply wp_ret; auto].
  destruct (bool_decide _) eqn:Hx2; cbn [negb]; [apply wp_ret; auto|].
  apply wp_ret. split; [|done]. right.
  apply bool_decide_eq_false in Hx2. cbn [responseText setText].
  split; [done|]. split; [done|]. split; [done|]. by exists m, x.
Qed.

(** ** The training form *)

Lemma distinct_fold (xs : list string) : forall seen : list string,
  NoDup seen ->
  NoDup (fold_left (fun (seen : list string) x =>
                      if bool_decide (x ∈ seen) then seen else seen ++ [x])
           xs seen)
  /\ forall x,
       x ∈ fold_left (fun (seen : list string) x =>
                        if bool_decide (x ∈ seen) then seen else seen ++ [x])
             xs seen
       <-> x ∈ seen \/ x ∈ xs.
Proof.
  induction xs as [|y ys IH]; intros seen Hnd; simpl.
  - split; [done|]. intros x. rewrite elem_of_nil. tauto.
  - destruct (bool_decide (y ∈ seen)) eqn:Hy.
    + apply bool_decide_eq_true in Hy.
      destruct (IH seen Hnd) as [Hnd' Hin]. split; [done|].
      intros x. rewrite Hin, elem_of_cons.
      split; [tauto|]. intros [?|[->|?]]; tauto.
    + apply bool_decide_eq_false in Hy.
      assert (Hnd1 : NoDup (seen ++ [y])).
      { apply NoDup_app. split; [done|]. split; [|apply NoDup_singleton].
        intros x Hx ->%list_elem_of_singleton. done. }
      destruct (IH _ Hnd1) as [Hnd' Hin]. split; [done|].
      intros x. rewrite Hin, elem_of_app, list_elem_of_singleton, elem_of_cons.
      tauto.
Qed.

Lemma distinct_NoDup xs : NoDup (distinct xs).
Proof. apply distinct_fold, NoDup_nil_2. Qed.

Lemma elem_of_distinct xs x : x ∈ distinct xs <-> x ∈ xs.
Proof.
  unfold distinct. rewrite (proj2 (distinct_fold xs [] (NoDup_nil_2))).
  rewrite elem_of_nil. tauto.
Qed.

Lemma distinct_ne xs : xs <> [] -> distinct xs <> [].
Proof.
  destruct xs as [|x xs]; [done|]. intros _ Hnil.
  assert (Hx : x ∈ distinct (x :: xs)) by (apply elem_of_distinct; left).
  rewrite Hnil in Hx. by apply elem_of_nil in Hx.
Qed.

Lemma finalTriggers_ne st :
  isEmpty (TrainingModal.finalTriggersOf st) = false ->
  exists t ts, TrainingModal.finalTriggersOf st = t :: ts.
Proof. destruct (TrainingModal.finalTriggersOf st) as [|t ts]; [done|eauto]. Qed.

Lemma usable_merged existingRule finalTriggers finalResponses :
  usable existingRule = true ->
  finalTriggers <> [] ->
  usable (TrainingModal.mergedRule existingRule finalTriggers finalResponses)
  = true.
Proof.
  unfold usable, TrainingModal.mergedRule, patternsOf. simpl.
  intros [[_ Hr]%andb_prop Hty]%andb_prop Hne.
  rewrite Hty, andb_true_r.
  assert (Hd : distinct (default [] (TrainingPair.inputPatterns existingRule)
                         ++ finalTriggers) <> []).
  { apply distinct_ne. by destruct (default [] _), finalTriggers. }
  destruct (distinct _) as [|d ds]; [done|]. simpl.
  by destruct (TrainingPair.responses existingRule).
Qed.

Lemma usable_edited st type finalTriggers finalResponses p :
  usable p = true ->
  TrainingPair.type p = type ->
  finalTriggers <> [] ->
  finalResponses <> [] ->
  (type = image_trigger -> JS.truthy (TrainingModal.visTag st) = true) ->
  usable (TrainingModal.editedRule st type finalTriggers finalResponses p)
  = true.
Proof.
  unfold usable, TrainingModal.editedRule, patternsOf. simpl.
  intros [_ Hty]%andb_prop <- Hne Hr Himg.
  destruct finalTriggers as [|t ts]; [done|].
  destruct finalResponses as [|r rs]; [done|]. simpl.
  destruct (TrainingPair.type p); simpl; [done|by apply Himg|].
  by destruct (JS.truthyOpt (TrainingModal.audioData st)) eqn:Ha.
Qed.

Lemma usable_new st now type finalTriggers finalResponses :
  finalTriggers <> [] ->
  finalResponses <> [] ->
  (type = image_trigger -> JS.truthy (TrainingModal.visTag st) = true) ->
  (type = audio_trigger -> JS.truthyOpt (TrainingModal.audioData st) = true) ->
  usable (TrainingModal.newRule st now type finalTriggers finalResponses)
  = true.
Proof.
  unfold usable, TrainingModal.newRule, patternsOf. simpl.
  intros Hne Hr Himg Haud.
  destruct finalTriggers as [|t ts]; [done|].
  destruct finalResponses as [|r rs]; [done|]. simpl.
  destruct type; simpl; [done|by apply Himg|by apply Haud].
Qed.

Lemma saveEditedOrNew_usable persona now type st finalTriggers finalResponses :
  Forall (fun p => usable p = true) (TrainingModal.patterns st) ->
  (forall p, p ∈ TrainingModal.patterns st ->
     Some (TrainingPair.id p) = TrainingModal.editingId st ->
     TrainingPair.type p = type) ->
  finalTriggers <> [] ->
  finalResponses <> [] ->
  (type = image_trigger -> JS.truthy (TrainingModal.visTag st) = true) ->
  (type = audio_trigger ->
   JS.truthyOpt (TrainingModal.editingId st) = false ->
   JS.truthyOpt (TrainingModal.audioData st) = true) ->
  Forall (fun p => usable p = true)
    (TrainingModal.patterns
       (TrainingModal.saveEditedOrNew persona now type st finalTriggers
          finalResponses).1)
  /\ forall persona',
       TrainingModal.Update persona'
       ∈ (TrainingModal.saveEditedOrNew persona now type st finalTriggers
            finalResponses).2 ->
       NeuralMap.customTraining (PersonaProfile.neuralMap persona')
       = Some (TrainingModal.patterns
                 (TrainingModal.saveEditedOrNew persona now type st
                    finalTriggers finalResponses).1).
Proof.
  intros Hall Hedit Hne Hr Himg Haud. unfold TrainingModal.saveEditedOrNew.
  destruct (JS.truthyOpt (TrainingModal.editingId st)) eqn:He; simpl.
  - split.
    + apply Forall_fmap, Forall_forall. intros p Hp. simpl.
      rewrite Forall_forall in Hall.
      destruct (bool_decide _) eqn:Hid; [|by apply Hall].
      apply bool_decide_eq_true in Hid.
      apply usable_edited; auto.
    + intros persona' [[= ->]|Hin%list_elem_of_singleton]%elem_of_cons; done.
  - split.
    + apply Forall_app. split; [done|]. apply Forall_singleton.
      apply usable_new; auto.
    + intros persona' [[= ->]|Hin%list_elem_of_singleton]%elem_of_cons; done.
Qed.

Lemma handleSaveRule_usable persona now confirmMerge type st :
  Forall (fun p => usable p = true) (TrainingModal.patterns st) ->
  (forall p, p ∈ TrainingModal.patterns st ->
     Some (TrainingPair.id p) = TrainingModal.editingId st ->
     TrainingPair.type p = type) ->
  Forall (fun p => usable p = true)
    (TrainingModal.patterns
       (TrainingModal.handleSaveRule persona now confirmMerge type st).1)
  /\ forall persona',
       TrainingModal.Update persona'
       ∈ (TrainingModal.handleSaveRule persona now confirmMerge type st).2 ->
       NeuralMap.customTraining (PersonaProfile.neuralMap persona')
       = Some (TrainingModal.patterns
                 (TrainingModal.handleSaveRule persona now confirmMerge type
                    st).1).
Proof.
  intros Hall Hedit. unfold TrainingModal.handleSaveRule. cbv zeta.
  assert (Hno : forall (message : string),
    forall persona',
      TrainingModal.Update persona'
      ∈ [TrainingModal.Notify message TrainingModal.error] -> False).
  { by intros message persona' [=]%list_elem_of_singleton. }
  destruct (isEmpty (TrainingModal.finalTriggersOf st)) eqn:Ht.
  { split; [done|]. intros p' Hp'. by destruct (Hno _ _ Hp'). }
  apply isEmpty_false_ne in Ht.
  destruct (isEmpty (TrainingModal.typedResponsesOf st)
            && negb (bool_decide (type = audio_trigger))) eqn:Hr.
  { split; [done|]. intros p' Hp'. by destruct (Hno _ _ Hp'). }
  set (finalResponses :=
         if isEmpty (TrainingModal.typedResponsesOf st)
         then [TrainingResponse.mk "(Audio Message)" (Some any)]
         else TrainingModal.typedResponsesOf st).
  assert (Hfr : finalResponses <> []).
  { subst finalResponses.
    by destruct (TrainingModal.typedResponsesOf st). }
  destruct (bool_decide (type = image_trigger)
            && negb (JS.truthy (TrainingModal.visTag st))) eqn:Hi.
  { split; [done|]. intros p' Hp'. by destruct (Hno _ _ Hp'). }
  destruct (bool_decide (type = audio_trigger)
            && negb (JS.truthyOpt (TrainingModal.audioData st))
            && negb (JS.truthyOpt (TrainingModal.editingId st))) eqn:Ha.
  { split; [done|]. intros p' Hp'. by destruct (Hno _ _ Hp'). }
  assert (Himg : type = image_trigger ->
                 JS.truthy (TrainingModal.visTag st) = true).
  { intros ->. rewrite bool_decide_eq_true_2 in Hi by done.
    by destruct (JS.truthy _). }
  assert (Haud : type = audio_trigger ->
                 JS.truthyOpt (TrainingModal.editingId st) = false ->
                 JS.truthyOpt (TrainingModal.audioData st) = true).
  { intros -> He. rewrite bool_decide_eq_true_2, He in Ha by done.
    by destruct (JS.truthyOpt _). }
  pose proof (saveEditedOrNew_usable persona now type st
                (TrainingModal.finalTriggersOf st) finalResponses
                Hall Hedit Ht Hfr Himg Haud) as Hsave.
  destruct (negb (JS.truthyOpt (TrainingModal.editingId st))); [|exact Hsave].
  destruct (list_find _ _) as [[i existingRule]|] eqn:Hfind; [|exact Hsave].
  destruct confirmMerge; [|exact Hsave]. simpl.
  apply list_find_Some in Hfind as (Hi' & _ & _).
  split.
  - apply Forall_insert; [done|]. apply usable_merged; [|done].
    rewrite Forall_forall in Hall. apply Hall.
    by eapply list_elem_of_lookup_2.
  - intros persona' [[= ->]|Hin%list_elem_of_singleton]%elem_of_cons; done.
Qed.

(** X13. The trigger phrases of the form stay distinct, trimmed and not
    empty: if the list is so, it is so after [addTrigger], and so is the
    list of phrases that [handleSaveRule] saves. *)
Theorem triggers_stay_clean :
  forall st,
    NoDup (TrainingModal.triggerList st) ->
    Forall (fun t => cleanTrigger t = true) (TrainingModal.triggerList st) ->
    (NoDup (TrainingModal.triggerList (TrainingModal.addTrigger st))
     /\ Forall (fun t => cleanTrigger t = true)
          (TrainingModal.triggerList (TrainingModal.addTrigger st)))
    /\ (NoDup (TrainingModal.finalTriggersOf st)
        /\ Forall (fun t => cleanTrigger t = true)
             (TrainingModal.finalTriggersOf st)).
Proof.
  intros st Hnd Hall.
  assert (Hadd : JS.truthy (JS.trim (TrainingModal.triggerInput st)) = true ->
                 JS.trim (TrainingModal.triggerInput st)
                 ∉ TrainingModal.triggerList st ->
                 NoDup (TrainingModal.triggerList st
                        ++ [JS.trim (TrainingModal.triggerInput st)])
                 /\ Forall (fun t => cleanTrigger t = true)
                      (TrainingModal.triggerList st
                       ++ [JS.trim (TrainingModal.triggerInput st)])).
  { intros Ht Hnew. split.
    - apply NoDup_app. split; [done|]. split; [|apply NoDup_singleton].
      by intros x Hx ->%list_elem_of_singleton.
    - apply Forall_app. split; [done|]. apply Forall_singleton.
      unfold cleanTrigger. rewrite Ht, trim_idem. by rewrite String.eqb_refl. }
  unfold TrainingModal.addTrigger, TrainingModal.finalTriggersOf.
  destruct (JS.truthy (JS.trim (TrainingModal.triggerInput st))) eqn:Ht;
    cbn [negb andb]; [|done].
  destruct (bool_decide _) eqn:Hin; cbn [negb]; [done|].
  apply bool_decide_eq_false in Hin. simpl. split; by apply Hadd.
Qed.

Lemma saveEditedOrNew_outcome persona now type st finalTriggers finalResponses :
  exists rules message,
    TrainingModal.saveEditedOrNew persona now type st finalTriggers
      finalResponses
    = (TrainingModal.cancelEditing (TrainingModal.setPatterns st rules),
       [TrainingModal.Update (withRules persona rules);
        TrainingModal.Notify message TrainingModal.success])
    /\ (TrainingPair.id <$> rules = TrainingPair.id <$> TrainingModal.patterns st
        \/ rules = TrainingModal.patterns st
                   ++ [TrainingModal.newRule st now type finalTriggers
                         finalResponses]).
Proof.
  unfold TrainingModal.saveEditedOrNew.
  destruct (JS.truthyOpt (TrainingModal.editingId st)); simpl.
  - eexists _, _. split; [reflexivity|]. left.
    rewrite <- list_fmap_compose. apply list_fmap_ext. intros i p _. simpl.
    by destruct (bool_decide _).
  - eexists _, _. split; [reflexivity|]. by right.
Qed.

(** X14. [handleSaveRule] either refuses or saves. When the form has no
    trigger phrase, has no response for a rule that is not a voice rule, has
    no tag for an image rule or no recording for a new voice rule, the state
    is left as it is, nothing is handed to [onUpdate] and one error is
    shown. Otherwise the persona with the new list of rules is handed to
    [onUpdate] once, one success is shown and the form is cleared; the new
    list holds the rules of the old one under the same ids in the same
    order (a rule was merged or edited), or the old list followed by the
    new rule. *)
Theorem save_rule_outcome :
  forall persona now confirmMerge type st,
    if incomplete type st then
      exists message,
        TrainingModal.handleSaveRule persona now confirmMerge type st
        = (st, [TrainingModal.Notify message TrainingModal.error])
    else
      exists rules message,
        TrainingModal.handleSaveRule persona now confirmMerge type st
        = (TrainingModal.cancelEditing (TrainingModal.setPatterns st rules),
           [TrainingModal.Update (withRules persona rules);
            TrainingModal.Notify message TrainingModal.success])
        /\ (TrainingPair.id <$> rules
            = TrainingPair.id <$> TrainingModal.patterns st
            \/ rules = TrainingModal.patterns st
                       ++ [TrainingModal.newRule st now type
                             (TrainingModal.finalTriggersOf st)
                             (savedResponsesOf st)]).
Proof.
  intros persona now confirmMerge type st.
  unfold incomplete, TrainingModal.handleSaveRule. cbv zeta.
  fold (savedResponsesOf st).
  destruct (isEmpty (TrainingModal.finalTriggersOf st)); cbn [orb]; [eauto|].
  destruct (isEmpty (TrainingModal.typedResponsesOf st)
            && negb (bool_decide (type = audio_trigger))); cbn [orb]; [eauto|].
  destruct (bool_decide (type = image_trigger)
            && negb (JS.truthy (TrainingModal.visTag st))); cbn [orb]; [eauto|].
  destruct (bool_decide (type = audio_trigger)
            && negb (JS.truthyOpt (TrainingModal.audioData st))
            && negb (JS.truthyOpt (TrainingModal.editingId st))); [eauto|].
  destruct (negb (JS.truthyOpt (TrainingModal.editingId st)));
    [|apply saveEditedOrNew_outcome].
  destruct (list_find _ _) as [[i existingRule]|] eqn:Hfind;
    [|apply saveEditedOrNew_outcome].
  destruct confirmMerge; [|apply saveEditedOrNew_outcome].
  apply list_find_Some in Hfind as (Hi & _ & _).
  eexists _, _. split; [reflexivity|]. left.
  rewrite list_fmap_insert. apply list_insert_id.
  by rewrite list_lookup_fmap, Hi.
Qed.

(** X15. [handleSaveRule] keeps the rules usable: if every rule of the form
    has a trigger phrase and a response, a tag when it is an image rule and
    a recording when it is a voice rule, and the rule being edited, if any,
    is of the type that is saved, then the same holds of the rules after the
    save, whether it refuses, merges, edits or adds; and these rules are the
    ones handed to [onUpdate]. *)
Theorem saved_rules_stay_usable :
  forall persona now confirmMerge type st,
    Forall (fun p => usable p = true) (TrainingModal.patterns st) ->
    (forall p, p ∈ TrainingModal.patterns st ->
       Some (TrainingPair.id p) = TrainingModal.editingId st ->
       TrainingPair.type p = type) ->
    Forall (fun p => usable p = true)
      (TrainingModal.patterns
         (TrainingModal.handleSaveRule persona now confirmMerge type st).1)
    /\ forall persona',
         TrainingModal.Update persona'
         ∈ (TrainingModal.handleSaveRule persona now confirmMerge type st).2 ->
         NeuralMap.customTraining (PersonaProfile.neuralMap persona')
         = Some (TrainingModal.patterns
                   (TrainingModal.handleSaveRule persona now confirmMerge type
                      st).1).
Proof. intros. by apply handleSaveRule_usable. Qed.

(** ** The first rule of a persona *)

Lemma bestMatches_single lowerMsg userTokenSet rule :
  (0 < maxRuleScore lowerMsg userTokenSet rule)%Q ->
  patternsOf rule <> [] ->
  bestMatches lowerMsg userTokenSet [rule]
  = let m := Some (Match.mk rule (maxRuleScore lowerMsg userTokenSet rule)) in
    match TrainingPair.type rule with
    | text => mkBest m None None
    | image_trigger => mkBest None m None
    | audio_trigger => mkBest None None m
    end.
Proof.
  intros Hpos Hne. apply gtb_lt in Hpos.
  unfold bestMatches. simpl. unfold considerRule.
  destruct (patternsOf rule); [done|]. rewrite Hpos.
  by destruct (TrainingPair.type rule).
Qed.

Lemma exact_score_pos lowerMsg userTokenSet rule :
  hasExactHit lowerMsg rule = true ->
  (0 < maxRuleScore lowerMsg userTokenSet rule)%Q.
Proof.
  intros H. pose proof (exact_score_ge lowerMsg userTokenSet rule H). lra.
Qed.

Lemma hasExactHit_patterns lowerMsg rule :
  hasExactHit lowerMsg rule = true -> patternsOf rule <> [].
Proof. unfold hasExactHit. by destruct (patternsOf rule). Qed.

Lemma logicEngine_no_rules personaId map userTokens l :
  default [] (NeuralMap.logicRules map) = [] ->
  logicEngine personaId map userTokens l = ret l.
Proof.
  unfold logicEngine. by destruct (NeuralMap.logicRules map) as [[|r rs]|].
Qed.

Lemma fallbackConversation_produced persona messageContent lowerMsg
    timeGreeting l :
  produced l = true ->
  fallbackConversation persona messageContent lowerMsg timeGreeting l
  = ret (Reply.mk (responseText l) (responseImage l) (responseAudio l)
           (withMemory persona (memory l))).
Proof.
  unfold produced, fallbackConversation. intros H.
  destruct (JS.truthy (responseText l)); [done|].
  destruct (truthyImage (responseImage l)); [done|].
  by destruct (JS.truthyOpt (responseAudio l)).
Qed.

(** The turn of a persona whose only rule is a text rule that the message
    hits verbatim, and that has no logic rule. *)
Lemma sole_text_rule_turn persona rule messageContent messageType history w s :
  messageType <> AUDIO ->
  pending persona = false ->
  NeuralMap.customTraining (PersonaProfile.neuralMap persona) = Some [rule] ->
  default [] (NeuralMap.logicRules (PersonaProfile.neuralMap persona)) = [] ->
  TrainingPair.type rule = text ->
  hasExactHit (lowerMsgOf messageContent) rule = true ->
  TrainingPair.responses rule <> [] ->
  allWithText rule = true ->
  wp (processOfflineMessage persona messageContent messageType history) w s
    (fun reply s' =>
       exists r,
         r ∈ TrainingPair.responses rule
         /\ (hasResponseFor (currentPhaseOf w) rule = true ->
             inPhase (currentPhaseOf w) r = true)
         /\ reply = Reply.mk (TrainingResponse.text r) None None
                      (afterTurn persona)
         /\ s' = countDraw s).
Proof.
  intros Hty Hp Hrules Hlogic Htext Hhit Hne Hall.
  apply ordinary_turn_wp; [done..|].
  rewrite customTrainingPhase_run, Hrules. cbv zeta.
  rewrite bestMatches_single
    by eauto using exact_score_pos, hasExactHit_patterns.
  rewrite Htext. cbn [bestTextMatch bestImageMatch bestAudioMatch].
  apply wp_bind.
  eapply wp_mono; [by apply executeTextRule_text|].
  intros l1 s1 (r & Hr & Hfit & -> & ->).
  apply wp_bind, wp_ret. apply wp_ret.
  rewrite logicEngine_no_rules by done. apply wp_ret.
  assert (Ht : JS.truthy (TrainingResponse.text r) = true).
  { unfold allWithText in Hall. rewrite forallb_forall in Hall.
    by apply Hall, list_elem_of_In. }
  rewrite fallbackConversation_produced
    by (unfold produced; cbn [responseText setText]; by rewrite Ht).
  apply wp_ret. exists r. done.
Qed.

Lemma incomplete_false type st :
  incomplete type st = false ->
  isEmpty (TrainingModal.finalTriggersOf st) = false
  /\ isEmpty (TrainingModal.typedResponsesOf st)
     && negb (bool_decide (type = audio_trigger)) = false
  /\ bool_decide (type = image_trigger)
     && negb (JS.truthy (TrainingModal.visTag st)) = false
  /\ bool_decide (type = audio_trigger)
     && negb (JS.truthyOpt (TrainingModal.audioData st))
     && negb (JS.truthyOpt (TrainingModal.editingId st)) = false.
Proof.
  unfold incomplete. intros H.
  apply orb_false_elim in H as [H H4].
  apply orb_false_elim in H as [H H3].
  apply orb_false_elim in H as [H1 H2]. done.
Qed.

(** A rule saved in a form that holds no rule, and is not editing one, is
    put in the persona as its only rule. *)
Lemma handleSaveRule_first persona now confirmMerge type st :
  TrainingModal.patterns st = [] ->
  JS.truthyOpt (TrainingModal.editingId st) = false ->
  incomplete type st = false ->
  exists st',
    TrainingModal.handleSaveRule persona now confirmMerge type st
    = (st',
       [TrainingModal.Update
          (withRules persona
             [TrainingModal.newRule st now type
                (TrainingModal.finalTriggersOf st) (savedResponsesOf st)]);
        TrainingModal.Notify "Rule Added!" TrainingModal.success]).
Proof.
  intros Hpat Hed (H1 & H2 & H3 & H4)%incomplete_false.
  unfold TrainingModal.handleSaveRule. cbv zeta. fold (savedResponsesOf st).
  rewrite H1, H2, H3, H4, Hed, Hpat. cbn [negb list_find].
  unfold TrainingModal.saveEditedOrNew. rewrite Hed. simpl.
  rewrite Hpat. eauto.
Qed.

(** X16. The first rule of a persona, from the form to the reply. A text
    rule saved in a form that holds no rule, for a persona without logic
    rules and without pending question, answers every message (other than a
    voice message) that contains one of its trigger phrases with tokens
    verbatim, whatever the letter case: the reply is the text of one of the
    responses typed, as typed, one for the current time of day if there is
    one, with no image and no audio, after one random draw. *)
Theorem first_rule_saved_answers :
  forall persona now confirmMerge st messageContent messageType history w s,
    messageType <> AUDIO ->
    pending persona = false ->
    default [] (NeuralMap.logicRules (PersonaProfile.neuralMap persona)) = [] ->
    TrainingModal.patterns st = [] ->
    JS.truthyOpt (TrainingModal.editingId st) = false ->
    incomplete text st = false ->
    forallb (fun r => JS.truthy (TrainingResponse.text r))
      (TrainingModal.typedResponsesOf st) = true ->
    existsb (fun t => negb (isEmpty (tokenize t))
                      && exactHit (lowerMsgOf messageContent) t)
      (TrainingModal.finalTriggersOf st) = true ->
    exists st' persona' message,
      TrainingModal.handleSaveRule persona now confirmMerge text st
      = (st', [TrainingModal.Update persona';
               TrainingModal.Notify message TrainingModal.success])
      /\ wp (processOfflineMessage persona' messageContent messageType history)
           w s
           (fun reply s' =>
              exists r,
                r ∈ TrainingModal.typedResponsesOf st
                /\ (existsb (inPhase (currentPhaseOf w))
                      (TrainingModal.typedResponsesOf st) = true ->
                    inPhase (currentPhaseOf w) r = true)
                /\ reply = Reply.mk (TrainingResponse.text r) None None
                             (afterTurn persona')
                /\ s' = countDraw s).
Proof.
  intros persona now confirmMerge st messageContent messageType history w s
    Hty Hp Hlogic Hpat Hed Hinc Htexts Hhit.
  destruct (handleSaveRule_first persona now confirmMerge text st Hpat Hed
              Hinc) as (st' & Hsave).
  eexists _, _, _. split; [exact Hsave|].
  destruct (incomplete_false _ _ Hinc) as (Hft & Hfr & _ & _).
  rewrite andb_true_r in Hfr.
  assert (Hsaved : savedResponsesOf st = TrainingModal.typedResponsesOf st).
  { unfold savedResponsesOf. by rewrite Hfr. }
  assert (Hpats : patternsOf
                    (TrainingModal.newRule st now text
                       (TrainingModal.finalTriggersOf st)
                       (savedResponsesOf st))
                  = TrainingModal.finalTriggersOf st).
  { unfold patternsOf. simpl.
    by destruct (TrainingModal.finalTriggersOf st). }
  pose proof (sole_text_rule_turn
    (withRules persona
       [TrainingModal.newRule st now text (TrainingModal.finalTriggersOf st)
          (savedResponsesOf st)])
    (TrainingModal.newRule st now text (TrainingModal.finalTriggersOf st)
       (savedResponsesOf st))
    messageContent messageType history w s Hty Hp eq_refl Hlogic eq_refl) as H.
  unfold hasExactHit, hasResponseFor, allWithText in H.
  rewrite Hpats in H. cbn [TrainingPair.responses TrainingModal.newRule] in H.
  rewrite Hsaved in H |- *. apply H; [done| |done].
  by apply isEmpty_false_ne.
Qed.

Lemma first_rule_saved_answers_witness :
  exists st' persona' message,
    TrainingModal.handleSaveRule (Demo.persona [] []) "1700000000001" false
      text
      (TrainingModal.setResponses
         (TrainingModal.setTriggers
            (TrainingModal.initialState (Demo.persona [] []))
            "  What is your name? " [])
         "I am Sam." [])
    = (st', [TrainingModal.Update persona';
             TrainingModal.Notify message TrainingModal.success])
    /\ wp (processOfflineMessage persona' "Tell me: what is your NAME?" TEXT [])
         (Demo.world []) startRun
         (fun reply s' =>
            exists r,
              r ∈ [TrainingResponse.mk "I am Sam." (Some any)]
              /\ (true = true -> inPhase morning r = true)
              /\ reply = Reply.mk (TrainingResponse.text r) None None
                           (afterTurn persona')
              /\ s' = countDraw startRun).
Proof.
  apply (first_rule_saved_answers (Demo.persona [] []) "1700000000001" false
           (TrainingModal.setResponses
              (TrainingModal.setTriggers
                 (TrainingModal.initialState (Demo.persona [] []))
                 "  What is your name? " [])
              "I am Sam." [])
           "Tell me: what is your NAME?" TEXT [] (Demo.world []) startRun);
    try done; vm_compute; reflexivity.
Defined.

(** ** A voice rule without text *)

(** The turn of a persona whose only rule is a voice rule that the message
    hits verbatim and whose only response is the placeholder. *)
Lemma sole_voice_rule_turn persona rule messageContent messageType history w s :
  messageType <> AUDIO ->
  pending persona = false ->
  NeuralMap.customTraining (PersonaProfile.neuralMap persona) = Some [rule] ->
  default [] (NeuralMap.logicRules (PersonaProfile.neuralMap persona)) = [] ->
  TrainingPair.type rule = audio_trigger ->
  hasExactHit (lowerMsgOf messageContent) rule = true ->
  JS.truthyOpt (TrainingPair.audioData rule) = true ->
  TrainingPair.responses rule
  = [TrainingResponse.mk "(Audio Message)" (Some any)] ->
  processOfflineMessage persona messageContent messageType history w s
  = (Returned (Reply.mk "" None (TrainingPair.audioData rule)
                 (afterTurn persona)),
     countDraw s).
Proof.
  intros Hty Hp Hrules Hlogic Haudio Hhit Hdata Hresp.
  assert (Hwp : wp (processOfflineMessage persona messageContent messageType
                      history) w s
                  (fun reply s' =>
                     reply = Reply.mk "" None (TrainingPair.audioData rule)
                               (afterTurn persona)
                     /\ s' = countDraw s)).
  { apply ordinary_turn_wp; [done..|].
    rewrite customTrainingPhase_run, Hrules. cbv zeta.
    rewrite bestMatches_single
      by eauto using exact_score_pos, hasExactHit_patterns.
    rewrite Haudio. cbn [bestTextMatch bestImageMatch bestAudioMatch].
    apply wp_bind, wp_ret. apply wp_bind, wp_ret.
    unfold executeAudioRule. cbn [Match.rule]. rewrite Hdata, Hresp.
    cbn [responseText setAudio initialLocals JS.truthy negb isEmpty length
           Nat.eqb].
    apply wp_pick; [done|]. intros x ->%list_elem_of_singleton.
    cbn [TrainingResponse.text JS.truthy andb].
    rewrite bool_decide_eq_true_2 by done. cbn [negb]. apply wp_ret.
    rewrite logicEngine_no_rules by done. apply wp_ret.
    rewrite fallbackConversation_produced.
    - by apply wp_ret.
    - unfold produced. cbn [responseAudio setAudio]. rewrite Hdata.
      apply orb_true_r. }
  apply wp_returned in Hwp as (reply & s' & Heq & -> & ->). exact Heq.
Qed.

(** X17. A voice rule saved without a response text, as the first rule of
    a persona without logic rules, answers a message that contains one of
    its trigger phrases with the recording alone: the text of the reply is
    empty, the placeholder stored with the rule is not shown. *)
Theorem voice_rule_saved_without_text :
  forall persona now confirmMerge st messageContent messageType history w s,
    messageType <> AUDIO ->
    pending persona = false ->
    default [] (NeuralMap.logicRules (PersonaProfile.neuralMap persona)) = [] ->
    TrainingModal.patterns st = [] ->
    JS.truthyOpt (TrainingModal.editingId st) = false ->
    incomplete audio_trigger st = false ->
    TrainingModal.typedResponsesOf st = [] ->
    existsb (fun t => negb (isEmpty (tokenize t))
                      && exactHit (lowerMsgOf messageContent) t)
      (TrainingModal.finalTriggersOf st) = true ->
    exists st' persona' message,
      TrainingModal.handleSaveRule persona now confirmMerge audio_trigger st
      = (st', [TrainingModal.Update persona';
               TrainingModal.Notify message TrainingModal.success])
      /\ JS.truthyOpt (TrainingModal.audioData st) = true
      /\ processOfflineMessage persona' messageContent messageType history w s
         = (Returned (Reply.mk "" None (TrainingModal.audioData st)
                        (afterTurn persona')),
            countDraw s).
Proof.
  intros persona now confirmMerge st messageContent messageType history w s
    Hty Hp Hlogic Hpat Hed Hinc Hnone Hhit.
  destruct (handleSaveRule_first persona now confirmMerge audio_trigger st
              Hpat Hed Hinc) as (st' & Hsave).
  eexists _, _, _. split; [exact Hsave|].
  destruct (incomplete_false _ _ Hinc) as (Hft & _ & _ & Haud).
  rewrite Hed, andb_true_r in Haud. cbn [bool_decide] in Haud.
  rewrite bool_decide_eq_true_2 in Haud by done.
  apply negb_false_iff in Haud. split; [exact Haud|].
  assert (Hpats : patternsOf
                    (TrainingModal.newRule st now audio_trigger
                       (TrainingModal.finalTriggersOf st)
                       (savedResponsesOf st))
                  = TrainingModal.finalTriggersOf st).
  { unfold patternsOf. simpl.
    by destruct (TrainingModal.finalTriggersOf st). }
  apply (sole_voice_rule_turn
    (withRules persona
       [TrainingModal.newRule st now audio_trigger
          (TrainingModal.finalTriggersOf st) (savedResponsesOf st)])
    (TrainingModal.newRule st now audio_trigger
       (TrainingModal.finalTriggersOf st) (savedResponsesOf st))
    messageContent messageType history w s Hty Hp eq_refl Hlogic eq_refl).
  - unfold hasExactHit. by rewrite Hpats.
  - exact Haud.
  - cbn [TrainingPair.responses TrainingModal.newRule].
    unfold savedResponsesOf. by rewrite Hnone.
Qed.

Lemma voice_rule_saved_without_text_witness :
  exists st' persona' message,
    TrainingModal.handleSaveRule (Demo.persona [] []) "1700000000002" false
      audio_trigger
      (TrainingModal.mkState [] [] None "sing for me" [] "" any [] ""
         (Some "data:audio/mp3;base64,AAAA") None "" user_says_keyword 3
         send_text "" true)
    = (st', [TrainingModal.Update persona';
             TrainingModal.Notify message TrainingModal.success])
    /\ JS.truthyOpt (Some "data:audio/mp3;base64,AAAA") = true
    /\ processOfflineMessage persona' "Sing for me!" TEXT [] (Demo.world [])
         startRun
       = (Returned (Reply.mk "" None (Some "data:audio/mp3;base64,AAAA")
                      (afterTurn persona')),
          countDraw startRun).
Proof.
  apply (voice_rule_saved_without_text (Demo.persona [] []) "1700000000002"
           false
           (TrainingModal.mkState [] [] None "sing for me" [] "" any [] ""
              (Some "data:audio/mp3;base64,AAAA") None "" user_says_keyword 3
              send_text "" true)
           "Sing for me!" TEXT [] (Demo.world []) startRun);
    try done; vm_compute; reflexivity.
Defined.

(** ** Removing a rule *)

Lemma handleSaveRule_new persona now type st :
  JS.truthyOpt (TrainingModal.editingId st) = false ->
  incomplete type st = false ->
  TrainingModal.handleSaveRule persona now false type st
  = (TrainingModal.cancelEditing
       (TrainingModal.setPatterns st
          (TrainingModal.patterns st
           ++ [TrainingModal.newRule st now type
                 (TrainingModal.finalTriggersOf st) (savedResponsesOf st)])),
     [TrainingModal.Update
        (withRules persona
           (TrainingModal.patterns st
            ++ [TrainingModal.newRule st now type
                  (TrainingModal.finalTriggersOf st) (savedResponsesOf st)]));
      TrainingModal.Notify "Rule Added!" TrainingModal.success]).
Proof.
  intros Hed (H1 & H2 & H3 & H4)%incomplete_false.
  unfold TrainingModal.handleSaveRule. cbv zeta. fold (savedResponsesOf st).
  rewrite H1, H2, H3, H4, Hed. cbn [negb].
  assert (Hsave : TrainingModal.saveEditedOrNew persona now type st
                    (TrainingModal.finalTriggersOf st) (savedResponsesOf st)
                  = (TrainingModal.cancelEditing
       (TrainingModal.setPatterns st
          (TrainingModal.patterns st
           ++ [TrainingModal.newRule st now type
                 (TrainingModal.finalTriggersOf st) (savedResponsesOf st)])),
     [TrainingModal.Update
        (withRules persona
           (TrainingModal.patterns st
            ++ [TrainingModal.newRule st now type
                  (TrainingModal.finalTriggersOf st) (savedResponsesOf st)]));
      TrainingModal.Notify "Rule Added!" TrainingModal.success])).
  { unfold TrainingModal.saveEditedOrNew. by rewrite Hed. }
  by destruct (list_find _ _) as [[i existingRule]|].
Qed.

(** X18. Deleting undoes adding: when the form is not editing and the clock
    gives an id that no rule of the form has, [handleSaveRule] (the merge
    declined) adds one rule, and [handleDelete] of that id then leaves the
    rules the form had before and hands them to [onUpdate]. *)
Theorem delete_undoes_add :
  forall persona persona' now type st,
    JS.truthyOpt (TrainingModal.editingId st) = false ->
    incomplete type st = false ->
    Forall (fun p => TrainingPair.id p <> now) (TrainingModal.patterns st) ->
    exists st1 events1 st2,
      TrainingModal.handleSaveRule persona now false type st = (st1, events1)
      /\ length (TrainingModal.patterns st1)
         = S (length (TrainingModal.patterns st))
      /\ TrainingModal.handleDelete persona' now st1
         = (st2, [TrainingModal.Update
                    (withRules persona' (TrainingModal.patterns st));
                  TrainingModal.Notify "Rule Deleted" TrainingModal.info])
      /\ TrainingModal.patterns st2 = TrainingModal.patterns st.
Proof.
  intros persona persona' now type st Hed Hinc Hfresh.
  eexists _, _, _. split; [by apply handleSaveRule_new|].
  split; [simpl; rewrite length_app; simpl; lia|].
  assert (Hfilter :
    filter (fun p => TrainingPair.id p <> now)
      (TrainingModal.patterns st
       ++ [TrainingModal.newRule st now type
             (TrainingModal.finalTriggersOf st) (savedResponsesOf st)])
    = TrainingModal.patterns st).
  { rewrite filter_app, filter_cons_False, filter_nil, app_nil_r
      by (simpl; by intros H).
    apply filter_all. intros p Hp.
    rewrite Forall_forall in Hfresh. by apply Hfresh. }
  unfold TrainingModal.handleDelete. cbv zeta.
  cbn [TrainingModal.patterns TrainingModal.cancelEditing
         TrainingModal.setPatterns TrainingModal.editingId].
  rewrite Hfilter. rewrite bool_decide_eq_false_2 by done.
  split; reflexivity.
Qed.

(** ** Conditions saved in the form *)

Lemma keywordOf_lower st : JS.toLowerCase (keywordOf st) = keywordOf st.
Proof.
  apply toLowerCase_fixed, allChars_trim, toLowerCase_allChars.
Qed.

Lemma keywordOf_trimmed st : JS.trim (keywordOf st) = keywordOf st.
Proof. apply trim_idem. Qed.

Lemma customTrainingPhase_no_rules personaId currentPhase map lowerMsg
    userTokenSet l :
  default [] (NeuralMap.customTraining map) = [] ->
  customTrainingPhase personaId currentPhase map lowerMsg userTokenSet l
  = ret l.
Proof.
  unfold customTrainingPhase.
  by destruct (NeuralMap.customTraining map) as [[|r rs]|].
Qed.

(** The turn of a persona without trained rules whose only logic rule
    counts a keyword and sends a text. *)
Lemma sole_keyword_rule_turn persona rule messageContent messageType history
    w s :
  messageType <> AUDIO ->
  pending persona = false ->
  default [] (NeuralMap.customTraining (PersonaProfile.neuralMap persona)) = [] ->
  NeuralMap.logicRules (PersonaProfile.neuralMap persona) = Some [rule] ->
  LogicRule.monitor rule = user_says_keyword ->
  LogicRule.action rule = send_text ->
  JS.truthy (LogicRule.actionPayload rule) = true ->
  0 < LogicRule.threshold rule ->
  LogicRule.threshold rule
  <= getCount (countersOf persona) (keyOf rule)
     + keywordCount rule messageContent ->
  wp (processOfflineMessage persona messageContent messageType history) w s
    (fun reply s' =>
       Reply.text reply = LogicRule.actionPayload rule
       /\ Reply.image reply = None
       /\ Reply.audio reply = None
       /\ s' = mkRun (draws s) (queries s)
                 (console s ++ [LogicRuleTriggered rule])
       /\ getCount (countersOf (Reply.updatedPersona reply)) (keyOf rule)
          = if LogicRule.resetOnTrigger rule then 0
            else getCount (countersOf persona) (keyOf rule)
                 + keywordCount rule messageContent).
Proof.
  intros Hty Hp Hct Hrules Hmon Hact Hpay Hthr Hreach.
  apply ordinary_turn_wp; [done..|].
  rewrite customTrainingPhase_no_rules by done. apply wp_ret.
  unfold logicEngine. rewrite Hrules. cbv zeta.
  fold (countersChecked (tokenize messageContent) (initialLocals persona)).
  pose proof (countersChecked_keyword rule messageContent
                (initialLocals persona) Hmon) as Hcount.
  change (default ∅ (Memory.logicCounts (memory (initialLocals persona))))
    with (countersOf persona) in Hcount.
  assert (Htrig : triggered rule
                    (countersChecked (tokenize messageContent)
                       (initialLocals persona)) = true).
  { unfold triggered. rewrite Hcount. apply andb_true_intro.
    split; [apply Z.ltb_lt|apply Z.leb_le]; lia. }
  apply wp_bind. cbn [forOf]. apply wp_bind.
  unfold checkRule. rewrite Htrig.
  apply wp_bind, wp_consoleWrite. rewrite Hact. apply wp_bind.
  cbn [responseText initialLocals JS.truthy]. apply wp_ret. apply wp_ret.
  apply wp_ret. apply wp_ret.
  rewrite fallbackConversation_produced
    by (unfold produced; cbn [responseText setText setMemory]; by rewrite Hpay).
  apply wp_ret. cbn.
  split; [done|]. split; [done|]. split; [done|]. split; [done|].
  unfold countersOf. cbn.
  destruct (LogicRule.resetOnTrigger rule).
  - unfold getCount. by rewrite lookup_insert_eq.
  - exact Hcount.
Qed.

Lemma handleSaveCondition_first persona now st :
  TrainingModal.logicRules st = [] ->
  JS.truthyOpt (TrainingModal.editingLogicId st) = false ->
  JS.truthy (TrainingModal.conditionTarget st) = true ->
  JS.truthy (TrainingModal.conditionPayload st) = true ->
  TrainingModal.handleSaveCondition persona now st
  = (TrainingModal.clearCondition
       (TrainingModal.setLogicRules st [TrainingModal.conditionOf st now]),
     [TrainingModal.Update
        (withConditions persona [TrainingModal.conditionOf st now]);
      TrainingModal.Notify "Condition Added!" TrainingModal.success]).
Proof.
  intros Hrules Hed Ht Hpay. unfold TrainingModal.handleSaveCondition.
  rewrite Ht, Hpay, Hed. simpl. by rewrite Hrules.
Qed.

(** X19. The first condition of a persona, from the form to the reply. A
    keyword condition that sends a text, saved with a positive threshold in
    a form that holds no condition, for a persona without trained rules and
    without pending question, reads the counter of the keyword typed, trimmed
    and in lower case. On a message (other than a voice message) with which
    that counter reaches the threshold, the reply is the text of the
    condition, with no image and no audio, the firing is printed, and
    the counter is left at zero when the condition resets and at the count
    reached otherwise. *)
Theorem first_condition_saved_fires :
  forall persona now st messageContent messageType history w s,
    messageType <> AUDIO ->
    pending persona = false ->
    default [] (NeuralMap.customTraining (PersonaProfile.neuralMap persona))
    = [] ->
    TrainingModal.logicRules st = [] ->
    JS.truthyOpt (TrainingModal.editingLogicId st) = false ->
    JS.truthy (TrainingModal.conditionTarget st) = true ->
    JS.truthy (TrainingModal.conditionPayload st) = true ->
    TrainingModal.conditionMonitor st = user_says_keyword ->
    TrainingModal.conditionAction st = send_text ->
    0 < TrainingModal.conditionThreshold st ->
    TrainingModal.conditionThreshold st
    <= getCount (countersOf persona) ("kw_" +:+ keywordOf st)
       + tokenCount (keywordOf st) messageContent ->
    exists st' persona' message,
      TrainingModal.handleSaveCondition persona now st
      = (st', [TrainingModal.Update persona';
               TrainingModal.Notify message TrainingModal.success])
      /\ wp (processOfflineMessage persona' messageContent messageType history)
           w s
           (fun reply s' =>
              Reply.text reply = TrainingModal.conditionPayload st
              /\ Reply.image reply = None
              /\ Reply.audio reply = None
              /\ s' = mkRun (draws s) (queries s)
                        (console s
                         ++ [LogicRuleTriggered
                               (TrainingModal.conditionOf st now)])
              /\ getCount (countersOf (Reply.updatedPersona reply))
                   ("kw_" +:+ keywordOf st)
                 = if TrainingModal.conditionReset st then 0
                   else getCount (countersOf persona) ("kw_" +:+ keywordOf st)
                        + tokenCount (keywordOf st) messageContent).
Proof.
  intros persona now st messageContent messageType history w s
    Hty Hp Hct Hrules Hed Ht Hpay Hmon Hact Hthr Hreach.
  eexists _, _, _. split; [by apply handleSaveCondition_first|].
  assert (Hkey : keyOf (TrainingModal.conditionOf st now)
                 = "kw_" +:+ keywordOf st).
  { unfold keyOf. cbn [LogicRule.monitor LogicRule.target
                         TrainingModal.conditionOf].
    rewrite Hmon. fold (keywordOf st). by rewrite keywordOf_lower. }
  assert (Hcount : keywordCount (TrainingModal.conditionOf st now)
                     messageContent
                   = tokenCount (keywordOf st) messageContent).
  { unfold keywordCount, tokenCount.
    cbn [LogicRule.target TrainingModal.conditionOf].
    fold (keywordOf st). by rewrite keywordOf_lower. }
  pose proof (sole_keyword_rule_turn
    (withConditions persona [TrainingModal.conditionOf st now])
    (TrainingModal.conditionOf st now) messageContent messageType history w s
    Hty Hp Hct eq_refl Hmon Hact Hpay Hthr) as H.
  rewrite Hkey, Hcount in H. by apply H.
Qed.

Lemma first_condition_saved_fires_witness :
  exists st' persona' message,
    TrainingModal.handleSaveCondition (Demo.persona [] []) "1700000000003"
      (TrainingModal.mkState [] [] None "" [] "" any [] "" None None
         "  Pizza " user_says_keyword 2 send_text "Hungry?" true)
    = (st', [TrainingModal.Update persona';
             TrainingModal.Notify message TrainingModal.success])
    /\ wp (processOfflineMessage persona' "Pizza, pizza!" TEXT [])
         (Demo.world []) startRun
         (fun reply s' =>
            Reply.text reply = "Hungry?"
            /\ Reply.image reply = None
            /\ Reply.audio reply = None
            /\ s' = mkRun 0 0
                      [LogicRuleTriggered
                         (TrainingModal.conditionOf
                            (TrainingModal.mkState [] [] None "" [] "" any []
                               "" None None "  Pizza " user_says_keyword 2
                               send_text "Hungry?" true)
                            "1700000000003")]
            /\ getCount (countersOf (Reply.updatedPersona reply)) "kw_pizza"
               = 0).
Proof.
  apply (first_condition_saved_fires (Demo.persona [] []) "1700000000003"
           (TrainingModal.mkState [] [] None "" [] "" any [] "" None None
              "  Pizza " user_says_keyword 2 send_text "Hungry?" true)
           "Pizza, pizza!" TEXT [] (Demo.world []) startRun);
    try done; vm_compute; reflexivity.
Defined.

(** ** Worked examples of the form *)

Lemma triggers_stay_clean_witness :
  (NoDup (TrainingModal.triggerList
            (TrainingModal.addTrigger (DemoForm.typed "  hi  " "")))
   /\ Forall (fun t => cleanTrigger t = true)
        (TrainingModal.triggerList
           (TrainingModal.addTrigger (DemoForm.typed "  hi  " ""))))
  /\ (NoDup (TrainingModal.finalTriggersOf (DemoForm.typed "  hi  " ""))
      /\ Forall (fun t => cleanTrigger t = true)
           (TrainingModal.finalTriggersOf (DemoForm.typed "  hi  " ""))).
Proof.
  apply (triggers_stay_clean (DemoForm.typed "  hi  " "")).
  - apply NoDup_singleton.
  - apply Forall_singleton. vm_compute. reflexivity.
Defined.

Lemma saved_rules_stay_usable_witness :
  Forall (fun p => usable p = true)
    (TrainingModal.patterns
       (TrainingModal.handleSaveRule (Demo.persona [Demo.greeting] [])
          "1700000000004" true text (DemoForm.editing "hey" "Hey!")).1)
  /\ forall persona',
       TrainingModal.Update persona'
       ∈ (TrainingModal.handleSaveRule (Demo.persona [Demo.greeting] [])
            "1700000000004" true text (DemoForm.editing "hey" "Hey!")).2 ->
       NeuralMap.customTraining (PersonaProfile.neuralMap persona')
       = Some (TrainingModal.patterns
                 (TrainingModal.handleSaveRule
                    (Demo.persona [Demo.greeting] [])
                    "1700000000004" true text
                    (DemoForm.editing "hey" "Hey!")).1).
Proof.
  apply (saved_rules_stay_usable (Demo.persona [Demo.greeting] [])
           "1700000000004" true text (DemoForm.editing "hey" "Hey!")).
  - apply Forall_singleton. vm_compute. reflexivity.
  - intros p Hp _. apply list_elem_of_singleton in Hp. rewrite Hp.
    reflexivity.
Defined.

Lemma delete_undoes_add_witness :
  exists st1 events1 st2,
    TrainingModal.handleSaveRule (Demo.persona [Demo.greeting] [])
      "1700000000004" false text (DemoForm.typed "bye" "See you.")
    = (st1, events1)
    /\ length (TrainingModal.patterns st1) = 2%nat
    /\ TrainingModal.handleDelete (Demo.persona [Demo.greeting] [])
         "1700000000004" st1
       = (st2, [TrainingModal.Update
                  (withRules (Demo.persona [Demo.greeting] [])
                     [Demo.greeting]);
                TrainingModal.Notify "Rule Deleted" TrainingModal.info])
    /\ TrainingModal.patterns st2 = [Demo.greeting].
Proof.
  apply (delete_undoes_add (Demo.persona [Demo.greeting] [])
           (Demo.persona [Demo.greeting] []) "1700000000004" text
           (DemoForm.typed "bye" "See you.")).
  - reflexivity.
  - vm_compute. reflexivity.
  - apply Forall_singleton. intros H. vm_compute in H. discriminate H.
Defined.

(** ** Merging into a rule *)

(** X20. When a new rule shares a trigger phrase with a rule of its type and
    the merge is confirmed, that rule, and no other, is changed: it keeps its
    id, its type, its tag and its recording, whatever tag or recording the
    form holds; its trigger phrases become its own and the new ones, each
    once; the new responses are put after its own. *)
Theorem merge_keeps_the_rule :
  forall persona now type st i existingRule,
    JS.truthyOpt (TrainingModal.editingId st) = false ->
    incomplete type st = false ->
    mergeTarget type st = Some (i, existingRule) ->
    exists merged,
      TrainingModal.patterns
        (TrainingModal.handleSaveRule persona now true type st).1
      = <[i := merged]> (TrainingModal.patterns st)
      /\ TrainingModal.patterns st !! i = Some existingRule
      /\ TrainingPair.type existingRule = type
      /\ TrainingPair.id merged = TrainingPair.id existingRule
      /\ TrainingPair.type merged = TrainingPair.type existingRule
      /\ TrainingPair.imageTag merged = TrainingPair.imageTag existingRule
      /\ TrainingPair.audioData merged = TrainingPair.audioData existingRule
      /\ TrainingPair.responses merged
         = TrainingPair.responses existingRule ++ savedResponsesOf st
      /\ exists triggers,
           TrainingPair.inputPatterns merged = Some triggers
           /\ NoDup triggers
           /\ forall t,
                t ∈ triggers
                <-> t ∈ default [] (TrainingPair.inputPatterns existingRule)
                    \/ t ∈ TrainingModal.finalTriggersOf st.
Proof.
  intros persona now type st i existingRule Hed Hinc Hfind.
  destruct (incomplete_false _ _ Hinc) as (H1 & H2 & H3 & H4).
  exists (TrainingModal.mergedRule existingRule
            (TrainingModal.finalTriggersOf st) (savedResponsesOf st)).
  unfold mergeTarget in Hfind.
  split.
  { unfold TrainingModal.handleSaveRule. cbv zeta. fold (savedResponsesOf st).
    rewrite H1, H2, H3, H4, Hed. cbn [negb]. by rewrite Hfind. }
  apply list_find_Some in Hfind as (Hi & Hshare & _).
  unfold TrainingModal.sharesTrigger in Hshare.
  apply andb_prop in Hshare as [Hty%bool_decide_eq_true _].
  split; [done|]. split; [done|]. do 5 (split; [done|]).
  eexists. split; [reflexivity|]. split; [apply distinct_NoDup|].
  intros t. by rewrite elem_of_distinct, elem_of_app.
Qed.

Lemma merge_keeps_the_rule_witness :
  exists merged,
    TrainingModal.patterns
      (TrainingModal.handleSaveRule (Demo.persona [] []) "1700000000005" true
         image_trigger DemoMerge.form).1
    = <[1%nat := merged]> (TrainingModal.patterns DemoMerge.form)
    /\ TrainingModal.patterns DemoMerge.form !! 1%nat
       = Some DemoMerge.beachRule
    /\ TrainingPair.type DemoMerge.beachRule = image_trigger
    /\ TrainingPair.id merged = TrainingPair.id DemoMerge.beachRule
    /\ TrainingPair.type merged = TrainingPair.type DemoMerge.beachRule
    /\ TrainingPair.imageTag merged = TrainingPair.imageTag DemoMerge.beachRule
    /\ TrainingPair.audioData merged
       = TrainingPair.audioData DemoMerge.beachRule
    /\ TrainingPair.responses merged
       = TrainingPair.responses DemoMerge.beachRule
         ++ savedResponsesOf DemoMerge.form
    /\ exists triggers,
         TrainingPair.inputPatterns merged = Some triggers
         /\ NoDup triggers
         /\ forall t,
              t ∈ triggers
              <-> t ∈ default []
                        (TrainingPair.inputPatterns DemoMerge.beachRule)
                  \/ t ∈ TrainingModal.finalTriggersOf DemoMerge.form.
Proof.
  apply (merge_keeps_the_rule (Demo.persona [] []) "1700000000005"
           image_trigger DemoMerge.form 1%nat DemoMerge.beachRule);
    vm_compute; reflexivity.
Defined.

(** ** Editing a rule under another type *)

Lemma handleSaveRule_edit persona now confirmMerge type st :
  JS.truthyOpt (TrainingModal.editingId st) = true ->
  incomplete type st = false ->
  TrainingModal.patterns
    (TrainingModal.handleSaveRule persona now confirmMerge type st).1
  = (fun p => if bool_decide (Some (TrainingPair.id p)
                              = TrainingModal.editingId st)
              then TrainingModal.editedRule st type
                     (TrainingModal.finalTriggersOf st) (savedResponsesOf st) p
              else p) <$> TrainingModal.patterns st.
Proof.
  intros Hed (H1 & H2 & H3 & H4)%incomplete_false.
  unfold TrainingModal.handleSaveRule. cbv zeta. fold (savedResponsesOf st).
  rewrite H1, H2, H3, H4, Hed. cbn [negb].
  unfold TrainingModal.saveEditedOrNew. by rewrite Hed.
Qed.

(** X21. The rule being edited keeps its type, while its tag and its
    recording are set for the type that is saved. When the form saves the
    edit of an image rule or of a voice rule under another type, the rule
    stays at its place in the list with its id and its type, an image rule
    without its tag and a voice rule without its recording: it is no longer
    usable. *)
Theorem edit_under_another_type :
  forall persona now confirmMerge type st i p,
    JS.truthyOpt (TrainingModal.editingId st) = true ->
    incomplete type st = false ->
    TrainingModal.patterns st !! i = Some p ->
    Some (TrainingPair.id p) = TrainingModal.editingId st ->
    TrainingPair.type p <> text ->
    TrainingPair.type p <> type ->
    exists p',
      TrainingModal.patterns
        (TrainingModal.handleSaveRule persona now confirmMerge type st).1 !! i
      = Some p'
      /\ TrainingPair.id p' = TrainingPair.id p
      /\ TrainingPair.type p' = TrainingPair.type p
      /\ (TrainingPair.type p = image_trigger -> TrainingPair.imageTag p' = None)
      /\ (TrainingPair.type p = audio_trigger -> TrainingPair.audioData p' = None)
      /\ usable p' = false.
Proof.
  intros persona now confirmMerge type st i p Hed Hinc Hi Hid Hnt Hty.
  rewrite handleSaveRule_edit by done.
  rewrite list_lookup_fmap, Hi. cbn [fmap option_fmap option_map].
  rewrite bool_decide_eq_true_2 by done.
  eexists. split; [reflexivity|].
  unfold usable, TrainingModal.editedRule.
  cbn [TrainingPair.id TrainingPair.type TrainingPair.imageTag
         TrainingPair.audioData TrainingPair.responses].
  split; [done|]. split; [done|].
  destruct (TrainingPair.type p) eqn:Hp; [done| |].
  - rewrite (bool_decide_eq_false_2 (type = image_trigger)) by congruence.
    split; [done|]. split; [done|]. cbn [JS.truthyOpt]. apply andb_false_r.
  - rewrite (bool_decide_eq_false_2 (type = audio_trigger)) by congruence.
    split; [done|]. split; [done|]. cbn [JS.truthyOpt]. apply andb_false_r.
Qed.

Lemma edit_under_another_type_witness :
  exists p',
    TrainingModal.patterns
      (TrainingModal.handleSaveRule (Demo.persona [] []) "1700000000006"
         false text
         (TrainingModal.mkState [Demo.greeting; DemoMerge.beachRule] [] 
            (Some "7") "" ["beach"] "" any [Demo.response "Here you go."]
            "beach" None None "" user_says_keyword 3 send_text "" true)).1
      !! 1%nat
    = Some p'
    /\ TrainingPair.id p' = "7"
    /\ TrainingPair.type p' = image_trigger
    /\ (image_trigger = image_trigger -> TrainingPair.imageTag p' = None)
    /\ (image_trigger = audio_trigger -> TrainingPair.audioData p' = None)
    /\ usable p' = false.
Proof.
  apply (edit_under_another_type (Demo.persona [] []) "1700000000006" false
           text
           (TrainingModal.mkState [Demo.greeting; DemoMerge.beachRule] [] 
              (Some "7") "" ["beach"] "" any [Demo.response "Here you go."]
              "beach" None None "" user_says_keyword 3 send_text "" true)
           1%nat DemoMerge.beachRule); try done; vm_compute; reflexivity.
Defined.

(** ** Rules in the legacy format *)



(** ** Themes *)

Lemma colorsOf_setColors colors style :
  colorsOf (setColors colors style) = Some colors.
Proof.
  unfold colorsOf, setColors.
  repeat (rewrite lookup_insert_eq || rewrite lookup_insert_ne by done).
  by destruct colors.
Qed.

Lemma themeFor_known theme : theme ∈ themes -> themeFor (Theme.id theme) = theme.
Proof.
  unfold themes. intros Hin.
  repeat (apply elem_of_cons in Hin as [->|Hin]; [reflexivity|]).
  by apply elem_of_nil in Hin.
Qed.

Lemma themeFor_elem themeId :
  themeFor themeId ∈ themes
  /\ (Forall (fun t => Theme.id t <> themeId) themes ->
      themeFor themeId = original).
Proof.
  unfold themeFor. destruct (find _ themes) as [theme|] eqn:Hfind.
  - apply find_some in Hfind as [Hin Hid].
    apply String.eqb_eq in Hid. apply list_elem_of_In in Hin.
    split; [done|]. intros Hall. rewrite Forall_forall in Hall.
    by destruct (Hall _ Hin).
  - split; [left|done].
Qed.

(** X23. [applyTheme] applies the theme it is asked for and saves the id it
    was given. For each theme of the table, applying its id sets the custom
    properties of the page to its colours; for any id the colours set are
    those of a theme of the table, the first one when no theme has the id,
    and [getSavedTheme] then returns the id given, or the id of the first
    theme when the id given is the empty string; with nothing saved it
    returns the id of the first theme. *)
Theorem theme_is_applied_and_saved :
  (forall theme page,
     theme ∈ themes ->
     colorsOf (style (applyTheme (Theme.id theme) page))
     = Some (Theme.colors theme))
  /\ (forall themeId page,
        exists theme,
          theme ∈ themes
          /\ colorsOf (style (applyTheme themeId page))
             = Some (Theme.colors theme)
          /\ (Forall (fun t => Theme.id t <> themeId) themes ->
              theme = original)
          /\ getSavedTheme (applyTheme themeId page)
             = (if JS.truthy themeId then themeId else "original"))
  /\ (forall page,
        localStorage page !! STORAGE_KEY = None ->
        getSavedTheme page = "original").
Proof.
  split; [|split].
  - intros theme page Hin. unfold applyTheme. cbv zeta.
    rewrite themeFor_known by done. apply colorsOf_setColors.
  - intros themeId page. exists (themeFor themeId).
    destruct (themeFor_elem themeId) as [Hin Hdefault].
    split; [done|]. split; [apply colorsOf_setColors|]. split; [done|].
    unfold getSavedTheme, applyTheme. cbn [localStorage].
    rewrite lookup_insert_eq. by destruct themeId.
  - intros page Hnone. unfold getSavedTheme. by rewrite Hnone.
Qed.

Lemma theme_is_applied_and_saved_witness :
  colorsOf (style (applyTheme "noir" (mkPage ∅ None ∅)))
  = Some (Theme.mkColors "#ffffff" "#000000" "#a3a3a3" "#000000" "#0a0a0a"
            "#171717" "#ffffff" "#737373")
  /\ getSavedTheme (mkPage ∅ None ∅) = "original".
Proof.
  split.
  - apply (proj1 theme_is_applied_and_saved
             (Theme.mk "noir" "Noir Monochrome"
                (Theme.mkColors "#ffffff" "#000000" "#a3a3a3" "#000000"
                   "#0a0a0a" "#171717" "#ffffff" "#737373"))
             (mkPage ∅ None ∅)).
    apply list_elem_of_In. vm_compute. tauto.
  - apply (proj2 (proj2 theme_is_applied_and_saved) (mkPage ∅ None ∅)).
    reflexivity.
Defined.
